(** * Reconciliation and double-entry consistency of the bookkeeping assistant

    A shallow embedding of the ledger logic of [src/App.tsx] (the journal-entry
    variant, first component tree of the file) and of the interfaces of
    [src/types.ts]: the journal-entry builders ([JournalEntryModal],
    [AiJournalEntryModal]), the chart-of-accounts import
    ([ChartOfAccountsModal.parseAndImportData]) and the handlers of [App] that
    keep journal entries, reconciliation links and statement transactions
    together.

    JavaScript numbers are IEEE 754 binary64 values: they are modelled by the
    kernel's primitive floats, whose operations are the same ones.  React state
    is modelled by explicit state passing: a handler is a function from the
    state of the render it closes over to the state of the next render, and
    the [setState] calls of one handler take effect together.

    Built-ins of the runtime whose result is not computed here
    ([Number::toString], [parseFloat], [Date], [JSON.stringify], the clock,
    [crypto.randomUUID]) are variables of the sections that use them: what is
    proved holds for every value they may have.  Answers of the user
    ([confirm]) are arguments of the handler that asks. *)

From Stdlib Require Import Floats ZArith List Bool Ascii String Lia.
From stdpp Require Import gmap strings list pretty.

#[local] Set Warnings "-inexact-float,-register-all".
Local Open Scope string_scope.
Local Open Scope list_scope.

(** ** JavaScript values used by the program *)

Module Js.

(** [number]: a binary64 float. *)
Abbreviation number := float (only parsing).

(** [a === b] on strings. *)
Definition str_eq (a b : string) : bool := bool_decide (a = b).

(** Truthiness of a string: the empty string is falsy. *)
Definition truthy_str (s : string) : bool := negb (str_eq s "").

(** [isNaN x] for a number. *)
Definition isNaN (x : number) : bool := PrimFloat.is_nan x.

(** Truthiness of a number: [0], [-0] and [NaN] are falsy. *)
Definition truthy_num (x : number) : bool :=
  negb (PrimFloat.eqb x 0%float || isNaN x).

(** [x || 0] for a number [x]. *)
Definition or_zero (x : number) : number :=
  if truthy_num x then x else 0%float.

(** [Number(x)] for a number [x]: the identity. *)
Definition Number (x : number) : number := x.

(** [a > b] on numbers: false as soon as one side is [NaN]. *)
Definition gt (a b : number) : bool := PrimFloat.ltb b a.

(** A value of type [any]: what [JSON.parse] returns, and [undefined] for a
    property that is absent. *)
Inductive any :=
| Undefined
| Null
| Bool (b : bool)
| Num (x : number)
| Str (s : string)
| Arr (l : list any)
| Obj (fields : list (string * any)).

(** Truthiness of a value: objects and arrays are always truthy. *)
Definition truthy (v : any) : bool :=
  match v with
  | Undefined | Null => false
  | Bool b => b
  | Num x => truthy_num x
  | Str s => truthy_str s
  | Arr _ | Obj _ => true
  end.

(** [a || b]. *)
Definition or (a b : any) : any := if truthy a then a else b.

(** Decimal digits of a natural number, as [String(n)] prints an integer. *)
Definition digits (n : N) : string := pretty n.

(** The integer [n] for which [n / 100 - m * 2^e] is as close to zero as
    possible, the larger one when two are as close (step 9 of
    [Number.prototype.toFixed] for two fraction digits). *)
Definition hundredths (m : positive) (e : Z) : N :=
  if (0 <=? e)%Z then Z.to_N (Z.pos m * 2 ^ e * 100)
  else
    let d := (2 ^ (- e))%Z in
    Z.to_N ((2 * (Z.pos m * 100) + d) / (2 * d)).

(** The digits of [n] with a point before the last two, padded with zeros
    on the left to three digits at least. *)
Definition with_point (n : N) : string :=
  let q := (n / 100)%N in
  let r := (n mod 100)%N in
  digits q +:+ "." +:+ digits (r / 10)%N +:+ digits (r mod 10)%N.

Section ToFixed.

(** [Number::toString], the shortest decimal that reads back as the same
    float.  [toFixed] only falls back on it from [1e21] upwards; it is a
    built-in of the runtime and stays a parameter. *)
Variable numberToString : number -> string.

(** [x.toFixed(2)]. *)
Definition toFixed2 (x : number) : string :=
  match Prim2SF x with
  | S754_nan => "NaN"
  | S754_infinity false => "Infinity"
  | S754_infinity true => "-Infinity"
  | S754_zero _ => "0.00"
  | S754_finite s m e =>
      (if s then "-" else "") +:+
      (if PrimFloat.leb 1e21%float (PrimFloat.abs x)
       then numberToString (PrimFloat.abs x)
       else with_point (hundredths m e))
  end.

End ToFixed.

Section Coercions.

Variable numberToString : number -> string.

(** [Number(s)] for a string: the reading of a numeric literal, a built-in
    that stays a parameter. *)
Variable stringToNumber : string -> number.

(** [String(v)].  An array prints its elements separated by commas, with
    nothing for [null] and [undefined]; an object prints as
    ["[object Object]"]. *)
Fixpoint toString (v : any) : string :=
  match v with
  | Undefined => "undefined"
  | Null => "null"
  | Bool true => "true"
  | Bool false => "false"
  | Num x => numberToString x
  | Str s => s
  | Arr l =>
      (fix join (l : list any) : string :=
         match l with
         | [] => ""
         | x :: r =>
             let e := match x with
                      | Undefined | Null => ""
                      | _ => toString x
                      end in
             match r with
             | [] => e
             | _ => e +:+ "," +:+ join r
             end
         end) l
  | Obj _ => "[object Object]"
  end.

(** [Number(v)]. *)
Definition toNumber (v : any) : number :=
  match v with
  | Undefined => PrimFloat.nan
  | Null => 0%float
  | Bool true => 1%float
  | Bool false => 0%float
  | Num x => x
  | Str s => stringToNumber s
  | Arr _ | Obj _ => stringToNumber (toString v)
  end.

End Coercions.

(** A string is the UTF-8 text of the JavaScript string.  What
    [String.prototype.trim] strips is the white space and the line
    terminators of the language: U+0009 to U+000D and U+0020, which take one
    byte; U+00A0, which takes two; and U+1680, U+2000 to U+200A, U+2028,
    U+2029, U+202F, U+205F, U+3000 and U+FEFF, which take three. *)
Definition is_space (c : ascii) : bool :=
  let n := nat_of_ascii c in
  (n =? 32)%nat || ((9 <=? n)%nat && (n <=? 13)%nat).

(** U+00A0: the bytes C2 A0. *)
Definition is_space2 (a b : ascii) : bool :=
  (nat_of_ascii a =? 194)%nat && (nat_of_ascii b =? 160)%nat.

(** U+1680 (E1 9A 80); U+2000 to U+200A, U+2028, U+2029 and U+202F (E2 80
    and 80 to 8A, A8, A9, AF); U+205F (E2 81 9F); U+3000 (E3 80 80); U+FEFF
    (EF BB BF). *)
Definition is_space3 (a b c : ascii) : bool :=
  let x := nat_of_ascii a in
  let y := nat_of_ascii b in
  let z := nat_of_ascii c in
  ((x =? 225) && (y =? 154) && (z =? 128))%nat
  || ((x =? 226) && (y =? 128)
      && (((128 <=? z) && (z <=? 138)) || (z =? 168) || (z =? 169) || (z =? 175)))%nat
  || ((x =? 226) && (y =? 129) && (z =? 159))%nat
  || ((x =? 227) && (y =? 128) && (z =? 128))%nat
  || ((x =? 239) && (y =? 187) && (z =? 191))%nat.

(** [s.trimStart()]: the white space at the head is dropped, one character
    after the other. *)
Fixpoint trimStart (s : string) : string :=
  match s with
  | String a r =>
      if is_space a then trimStart r
      else
        match r with
        | String b r2 =>
            if is_space2 a b then trimStart r2
            else
              match r2 with
              | String c r3 => if is_space3 a b c then trimStart r3 else s
              | EmptyString => s
              end
        | EmptyString => s
        end
  | EmptyString => EmptyString
  end.

(** [s] is white space from its first byte to its last. *)
Fixpoint allSpace (s : string) : bool :=
  match s with
  | String a r =>
      if is_space a then allSpace r
      else
        match r with
        | String b r2 =>
            if is_space2 a b then allSpace r2
            else
              match r2 with
              | String c r3 => is_space3 a b c && allSpace r3
              | EmptyString => false
              end
        | EmptyString => false
        end
  | EmptyString => true
  end.

(** [s.trimEnd()]: a byte is kept unless all that follows from it on is
    white space. *)
Fixpoint trimEnd (s : string) : string :=
  match s with
  | String c r => if allSpace s then EmptyString else String c (trimEnd r)
  | EmptyString => EmptyString
  end.

(** [s.trim()]. *)
Definition trim (s : string) : string := trimEnd (trimStart s).

End Js.

(** ** The data model of [src/types.ts] *)

(** ['debit' | 'credit']. *)
Inductive TxType := Debit | Credit.

(** ['posted' | 'unposted']. *)
Inductive ReconciliationStatus := posted | unposted.

Definition TxType_eqb (a b : TxType) : bool :=
  match a, b with Debit, Debit | Credit, Credit => true | _, _ => false end.

(** The string a [TxType] is at run time. *)
Definition TxType_str (t : TxType) : string :=
  match t with Debit => "debit" | Credit => "credit" end.

Module Transaction.
Record t := mk {
  id : string;
  date : string;
  description : string;
  amount : Js.number;
  type : TxType;
  reconciliationStatus : option ReconciliationStatus;
  notes : option string;
}.

(** [{ ...tx, reconciliationStatus: v }]. *)
Definition with_reconciliationStatus (v : ReconciliationStatus) (tx : t) : t :=
  mk (id tx) (date tx) (description tx) (amount tx) (type tx) (Some v) (notes tx).

(** [tx.reconciliationStatus === 'posted']. *)
Definition is_posted (tx : t) : bool :=
  match reconciliationStatus tx with Some posted => true | _ => false end.
End Transaction.

Module Account.
Record t := mk {
  id : string;
  code : string;
  name : string;
  type : string;
  isBankAccount : option bool;
}.
End Account.

Module ReconciledTransaction.
Record t := mk {
  id : string;  (* Composite key: date-desc-amount-type *)
  period : string;
  bankAccountId : string;
  journalEntryId : string;
  originalDate : string;
  originalDescription : string;
  originalAmount : Js.number;
  originalType : TxType;
}.
End ReconciledTransaction.

Module JournalLine.
Record t := mk {
  id : string;
  accountId : string;
  debit : Js.number;
  credit : Js.number;
  description : option string;
}.

Definition with_debit (v : Js.number) (l : t) : t :=
  mk (id l) (accountId l) v (credit l) (description l).
Definition with_credit (v : Js.number) (l : t) : t :=
  mk (id l) (accountId l) (debit l) v (description l).
End JournalLine.

Module JournalEntry.
Record t := mk {
  id : string;
  date : string;
  description : string;
  refNo : option string;
  lines : list JournalLine.t;
  notes : option string;
}.

Definition with_lines (ls : list JournalLine.t) (e : t) : t :=
  mk (id e) (date e) (description e) (refNo e) ls (notes e).
End JournalEntry.

Definition UNCATEGORIZED_CODE : string := "0000".

Definition DEFAULT_ACCOUNTS : list Account.t :=
  [ Account.mk "acc-0" UNCATEGORIZED_CODE "Uncategorized Transactions" "Suspense" None;
    Account.mk "acc-1" "1010" "Primary Bank Account" "Asset" (Some true);
    Account.mk "acc-2" "4000" "Sales Revenue" "Revenue" None;
    Account.mk "acc-3" "5000" "Cost of Goods Sold" "Expense" None;
    Account.mk "acc-4" "6010" "Office Supplies" "Expense" None;
    Account.mk "acc-5" "6020" "Rent Expense" "Expense" None;
    Account.mk "acc-6" "6030" "Utilities" "Expense" None;
    Account.mk "acc-7" "2000" "Accounts Payable" "Liability" None;
    Account.mk "acc-8" "3000" "Owner's Equity" "Equity" None ].

(** ** Totals and the balance test shared by the two journal builders *)

Module Totals.
Record t := mk { debit : Js.number; credit : Js.number }.
End Totals.

(** [lines.reduce((acc, line) => ({ debit: acc.debit + Number(line.debit || 0),
    credit: acc.credit + Number(line.credit || 0) }), { debit: 0, credit: 0 })]. *)
Definition sumLines (lines : list JournalLine.t) : Totals.t :=
  fold_left
    (fun acc line =>
       Totals.mk
         (Totals.debit acc + Js.Number (Js.or_zero (JournalLine.debit line)))%float
         (Totals.credit acc + Js.Number (Js.or_zero (JournalLine.credit line)))%float)
    lines (Totals.mk 0%float 0%float).

(** [{ ...line, [field]: value }]: the fields of [keyof JournalLine] with the
    value each one holds. *)
Inductive LineUpdate :=
| set_id (value : string)
| set_accountId (value : string)
| set_debit (value : Js.number)
| set_credit (value : Js.number)
| set_description (value : string).

Definition assignField (u : LineUpdate) (line : JournalLine.t) : JournalLine.t :=
  match u with
  | set_id v =>
      JournalLine.mk v (JournalLine.accountId line) (JournalLine.debit line)
        (JournalLine.credit line) (JournalLine.description line)
  | set_accountId v =>
      JournalLine.mk (JournalLine.id line) v (JournalLine.debit line)
        (JournalLine.credit line) (JournalLine.description line)
  | set_debit v => JournalLine.with_debit v line
  | set_credit v => JournalLine.with_credit v line
  | set_description v =>
      JournalLine.mk (JournalLine.id line) (JournalLine.accountId line)
        (JournalLine.debit line) (JournalLine.credit line) (Some v)
  end.

(** The body of [handleUpdateLine]'s [map], the same in both builders. *)
Definition updateLine (lineId : string) (u : LineUpdate) (line : JournalLine.t)
  : JournalLine.t :=
  if negb (Js.str_eq (JournalLine.id line) lineId) then line
  else
    let updatedLine := assignField u line in
    let updatedLine :=
      match u with
      | set_debit value =>
          if Js.gt value 0%float then JournalLine.with_credit 0%float updatedLine
          else updatedLine
      | _ => updatedLine
      end in
    let updatedLine :=
      match u with
      | set_credit value =>
          if Js.gt value 0%float then JournalLine.with_debit 0%float updatedLine
          else updatedLine
      | _ => updatedLine
      end in
    updatedLine.

(** What a builder's [handleSave] does: an [alert] and nothing else, or the
    call of [onSave]. *)
Inductive SaveOutcome (A : Type) :=
| Alert (message : string)
| OnSave (payload : A).
Arguments Alert {A} message.
Arguments OnSave {A} payload.

(** ** The journal builders *)

(** A line of the suggestion the extraction service returns: the account id
    is taken as it comes, the two amounts are coerced. *)
Module AiLine.
Record t := mk { accountId : string; debit : Js.any; credit : Js.any }.
End AiLine.

Section Builders.

Variable numberToString : Js.number -> string.
Variable stringToNumber : string -> Js.number.

(** [generateUUID], as the value of the [k]-th call. *)
Variable randomUUID : nat -> string.

(** [totals.debit.toFixed(2) === totals.credit.toFixed(2) && totals.debit > 0]. *)
Definition isBalanced (totals : Totals.t) : bool :=
  Js.str_eq (Js.toFixed2 numberToString (Totals.debit totals))
            (Js.toFixed2 numberToString (Totals.credit totals))
  && Js.gt (Totals.debit totals) 0%float.

(** [entry.lines.some(l => !l.accountId)]. *)
Definition someLineWithoutAccount (lines : list JournalLine.t) : bool :=
  existsb (fun l => negb (Js.truthy_str (JournalLine.accountId l))) lines.

(** [aiResult.lines.map(line => ({ id: generateUUID(), accountId:
    line.accountId, debit: Number(line.debit || 0), credit:
    Number(line.credit || 0) }))], the [k]-th line drawing the id
    [randomUUID (n + k)]. *)
Fixpoint mapAiLines (n : nat) (lines : list AiLine.t) : list JournalLine.t :=
  match lines with
  | [] => []
  | line :: rest =>
      JournalLine.mk (randomUUID n) (AiLine.accountId line)
        (Js.toNumber numberToString stringToNumber
           (Js.or (AiLine.debit line) (Js.Num 0%float)))
        (Js.toNumber numberToString stringToNumber
           (Js.or (AiLine.credit line) (Js.Num 0%float)))
        None
      :: mapAiLines (S n) rest
  end.

End Builders.

Module JournalEntryModal.
Section WithRuntime.

Variable numberToString : Js.number -> string.

(** [handleUpdateLine]. *)
Definition handleUpdateLine (lineId : string) (u : LineUpdate)
    (entry : JournalEntry.t) : JournalEntry.t :=
  JournalEntry.with_lines
    (map (updateLine lineId u) (JournalEntry.lines entry)) entry.

(** [totals]. *)
Definition totals (entry : JournalEntry.t) : Totals.t :=
  sumLines (JournalEntry.lines entry).

(** [handleSave]. *)
Definition handleSave (entry : JournalEntry.t) : SaveOutcome JournalEntry.t :=
  if negb (isBalanced numberToString (totals entry)) then
    Alert "Journal entry must be balanced (debits must equal credits)."
  else if someLineWithoutAccount (JournalEntry.lines entry) then
    Alert "All journal lines must have an account selected."
  else OnSave entry.

End WithRuntime.
End JournalEntryModal.

Module AiJournalEntryModal.
Section WithRuntime.

Variable numberToString : Js.number -> string.

(** [handleUpdateLine]: nothing happens while there is no entry. *)
Definition handleUpdateLine (lineId : string) (u : LineUpdate)
    (entry : option JournalEntry.t) : option JournalEntry.t :=
  match entry with
  | None => None
  | Some prev =>
      Some (JournalEntry.with_lines
              (map (updateLine lineId u) (JournalEntry.lines prev)) prev)
  end.

(** [totals]: zero on both sides while there is no entry. *)
Definition totals (entry : option JournalEntry.t) : Totals.t :=
  match entry with
  | None => Totals.mk 0%float 0%float
  | Some e => sumLines (JournalEntry.lines e)
  end.

(** [handleSave]: [onSave(entry, selectedTransactions)] when the entry is
    there, balanced, and every line has an account. *)
Definition handleSave (entry : option JournalEntry.t)
    (selectedTransactions : list Transaction.t)
  : SaveOutcome (JournalEntry.t * list Transaction.t) :=
  match entry with
  | None => Alert "Journal entry must be balanced."
  | Some e =>
      if negb (isBalanced numberToString (totals entry)) then
        Alert "Journal entry must be balanced."
      else if someLineWithoutAccount (JournalEntry.lines e) then
        Alert "All lines must have an account."
      else OnSave (e, selectedTransactions)
  end.

End WithRuntime.
End AiJournalEntryModal.

(** ** Chart of accounts: import of pasted or uploaded rows *)

(** A cell of an imported row, [string | number]. *)
Inductive Cell := CellStr (s : string) | CellNum (x : Js.number).

Module ChartOfAccountsModal.
Section WithRuntime.

Variable numberToString : Js.number -> string.

(** [Date.now()], read once for the import. *)
Variable now : N.

(** Truthiness of [row[i]]; a missing cell is [undefined]. *)
Definition truthyAt (row : list Cell) (i : nat) : bool :=
  match row !! i with
  | Some (CellStr s) => Js.truthy_str s
  | Some (CellNum x) => Js.truthy_num x
  | None => false
  end.

(** [String(row[i])]. *)
Definition stringAt (row : list Cell) (i : nat) : string :=
  match row !! i with
  | Some (CellStr s) => s
  | Some (CellNum x) => numberToString x
  | None => "undefined"
  end.

(** [row.length >= 3 && row[0] && row[1] && row[2]]. *)
Definition hasThreeFields (row : list Cell) : bool :=
  (3 <=? length row)%nat && truthyAt row 0 && truthyAt row 1 && truthyAt row 2.

(** [importedAccounts]. *)
Definition importedAccounts (data : list (list Cell)) : list Account.t :=
  imap
    (fun index row =>
       Account.mk
         ("imported-" +:+ Js.digits now +:+ "-" +:+ Js.digits (N.of_nat index))
         (Js.trim (stringAt row 0))
         (Js.trim (stringAt row 1))
         (Js.trim (stringAt row 2))
         None)
    (List.filter hasThreeFields data).

(** [uniqueImported]. *)
Definition uniqueImported (accounts : list Account.t) (data : list (list Cell))
  : list Account.t :=
  List.filter
    (fun imp =>
       negb (existsb (fun exist => Js.str_eq (Account.code exist) (Account.code imp))
               accounts))
    (importedAccounts data).

(** [parseAndImportData]: the accounts of the modal afterwards, and the
    number the [alert] reports. *)
Definition parseAndImportData (data : list (list Cell)) (accounts : list Account.t)
  : list Account.t * nat :=
  (accounts ++ uniqueImported accounts data, length (uniqueImported accounts data)).

End WithRuntime.
End ChartOfAccountsModal.

(** ** The state of [App] and its handlers *)

Record AppState := mkApp {
  statementTransactions : list Transaction.t;
  accounts : list Account.t;
  journalEntries : list JournalEntry.t;
  reconciledTransactions : list ReconciledTransaction.t;
  activePeriod : string;
  selectedBankAccountId : string;
  selectedTx : gset string;
  journalLinkedTx : option Transaction.t;
  editingJournal : option JournalEntry.t;
  isJournalModalOpen : bool;
  isAiJournalModalOpen : bool;
  error : option string;
  (** how many ids [generateUUID] has handed out *)
  uuidsDrawn : nat;
}.

(** The state of the first render: default accounts, nothing loaded. *)
Definition initialState (period : string) : AppState :=
  mkApp [] DEFAULT_ACCOUNTS [] [] period "" ∅ None None false false None 0.

(** [prev.map(st => ids.has(st.id) ? { ...st, reconciliationStatus: v } : st)]. *)
Definition markStatus (ids : gset string) (v : ReconciliationStatus)
    (prev : list Transaction.t) : list Transaction.t :=
  map (fun st =>
         if bool_decide (Transaction.id st ∈ ids)
         then Transaction.with_reconciliationStatus v st else st)
      prev.

(** The link record built for a transaction and a journal entry. *)
Definition newRecon (s : AppState) (tx : Transaction.t) (journalEntryId : string)
  : ReconciledTransaction.t :=
  ReconciledTransaction.mk
    (Transaction.id tx) (activePeriod s) (selectedBankAccountId s) journalEntryId
    (Transaction.date tx) (Transaction.description tx)
    (Transaction.amount tx) (Transaction.type tx).

(** [handleSelectTx]. *)
Definition handleSelectTx (id : string) (s : AppState) : AppState :=
  mkApp (statementTransactions s) (accounts s) (journalEntries s)
    (reconciledTransactions s) (activePeriod s) (selectedBankAccountId s)
    (if bool_decide (id ∈ selectedTx s) then selectedTx s ∖ {[id]}
     else selectedTx s ∪ {[id]})
    (journalLinkedTx s) (editingJournal s) (isJournalModalOpen s)
    (isAiJournalModalOpen s) (error s) (uuidsDrawn s).

(** [handleOpenJournalModal]. *)
Definition handleOpenJournalModal (tx : option Transaction.t)
    (entryToEdit : option JournalEntry.t) (s : AppState) : AppState :=
  let linked :=
    match entryToEdit with
    | Some e =>
        match find (fun rt => Js.str_eq (ReconciledTransaction.journalEntryId rt)
                                (JournalEntry.id e))
                (reconciledTransactions s) with
        | Some linkedReconciledTx =>
            find (fun st => Js.str_eq (Transaction.id st)
                              (ReconciledTransaction.id linkedReconciledTx))
              (statementTransactions s)
        | None => None
        end
    | None => tx
    end in
  mkApp (statementTransactions s) (accounts s) (journalEntries s)
    (reconciledTransactions s) (activePeriod s) (selectedBankAccountId s)
    (selectedTx s) linked entryToEdit true (isAiJournalModalOpen s) (error s)
    (uuidsDrawn s).

(** [handleSaveJournal]. *)
Definition handleSaveJournal (entry : JournalEntry.t) (s : AppState) : AppState :=
  let isEditing :=
    existsb (fun je => Js.str_eq (JournalEntry.id je) (JournalEntry.id entry))
      (journalEntries s) in
  let '(entries, links, txs) :=
    if isEditing then
      (map (fun je => if Js.str_eq (JournalEntry.id je) (JournalEntry.id entry)
                      then entry else je) (journalEntries s),
       reconciledTransactions s, statementTransactions s)
    else
      match journalLinkedTx s with
      | Some linkedTx =>
          if negb (existsb (fun rt => Js.str_eq (ReconciledTransaction.id rt)
                                        (Transaction.id linkedTx))
                     (reconciledTransactions s))
          then
            (journalEntries s ++ [entry],
             reconciledTransactions s ++ [newRecon s linkedTx (JournalEntry.id entry)],
             map (fun st => if Js.str_eq (Transaction.id st) (Transaction.id linkedTx)
                            then Transaction.with_reconciliationStatus posted st
                            else st)
               (statementTransactions s))
          else (journalEntries s ++ [entry], reconciledTransactions s,
                statementTransactions s)
      | None => (journalEntries s ++ [entry], reconciledTransactions s,
                 statementTransactions s)
      end in
  mkApp txs (accounts s) entries links (activePeriod s) (selectedBankAccountId s)
    (selectedTx s) None None false false (error s) (uuidsDrawn s).

(** [handleSaveAiJournal]. *)
Definition handleSaveAiJournal (entry : JournalEntry.t) (sourceTxs : list Transaction.t)
    (s : AppState) : AppState :=
  let newReconciledTxs := map (fun tx => newRecon s tx (JournalEntry.id entry)) sourceTxs in
  let postedIds : gset string := list_to_set (map Transaction.id sourceTxs) in
  mkApp (markStatus postedIds posted (statementTransactions s)) (accounts s)
    (journalEntries s ++ [entry]) (reconciledTransactions s ++ newReconciledTxs)
    (activePeriod s) (selectedBankAccountId s) ∅ (journalLinkedTx s)
    (editingJournal s) (isJournalModalOpen s) false (error s) (uuidsDrawn s).

(** [handleDeleteJournal]; [confirmed] is the answer to [confirm(...)]. *)
Definition handleDeleteJournal (confirmed : bool) (id : string) (s : AppState)
  : AppState :=
  if confirmed then
    let linkedReconTxs :=
      List.filter (fun rt => Js.str_eq (ReconciledTransaction.journalEntryId rt) id)
        (reconciledTransactions s) in
    let entries :=
      List.filter (fun je => negb (Js.str_eq (JournalEntry.id je) id))
        (journalEntries s) in
    if (0 <? length linkedReconTxs)%nat then
      let idsToUnpost : gset string :=
        list_to_set (map ReconciledTransaction.id linkedReconTxs) in
      mkApp (markStatus idsToUnpost unposted (statementTransactions s)) (accounts s)
        entries
        (List.filter
           (fun rt => negb (Js.str_eq (ReconciledTransaction.journalEntryId rt) id))
           (reconciledTransactions s))
        (activePeriod s) (selectedBankAccountId s) (selectedTx s)
        (journalLinkedTx s) (editingJournal s) (isJournalModalOpen s)
        (isAiJournalModalOpen s) (error s) (uuidsDrawn s)
    else
      mkApp (statementTransactions s) (accounts s) entries (reconciledTransactions s)
        (activePeriod s) (selectedBankAccountId s) (selectedTx s)
        (journalLinkedTx s) (editingJournal s) (isJournalModalOpen s)
        (isAiJournalModalOpen s) (error s) (uuidsDrawn s)
  else s.

Section Posting.

(** [generateUUID], as the value of the [k]-th call. *)
Variable randomUUID : nat -> string.

(** The two-line entry [handlePostToCashbook] builds for one transaction:
    the bank line carries the amount on the side opposite to the
    transaction's type, the suspense line on the same side. *)
Definition newJournal (s : AppState) (uncategorizedAccount : Account.t) (n : nat)
    (tx : Transaction.t) : JournalEntry.t :=
  JournalEntry.mk (randomUUID n) (Transaction.date tx) (Transaction.description tx) None
    [ JournalLine.mk (randomUUID (n + 1)) (selectedBankAccountId s)
        (if TxType_eqb (Transaction.type tx) Credit then Transaction.amount tx else 0%float)
        (if TxType_eqb (Transaction.type tx) Debit then Transaction.amount tx else 0%float)
        None;
      JournalLine.mk (randomUUID (n + 2)) (Account.id uncategorizedAccount)
        (if TxType_eqb (Transaction.type tx) Debit then Transaction.amount tx else 0%float)
        (if TxType_eqb (Transaction.type tx) Credit then Transaction.amount tx else 0%float)
        None ]
    None.

(** The [forEach] of [handlePostToCashbook]: the entries and links pushed,
    in order, and the number of ids drawn afterwards. *)
Fixpoint postEach (s : AppState) (uncategorizedAccount : Account.t) (n : nat)
    (txsToPost : list Transaction.t)
  : list JournalEntry.t * list ReconciledTransaction.t * nat :=
  match txsToPost with
  | [] => ([], [], n)
  | tx :: rest =>
      if Transaction.is_posted tx then postEach s uncategorizedAccount n rest
      else
        let je := newJournal s uncategorizedAccount n tx in
        let '(newJournalEntries, newReconciledTxs, n') :=
          postEach s uncategorizedAccount (n + 3) rest in
        (je :: newJournalEntries,
         newRecon s tx (JournalEntry.id je) :: newReconciledTxs, n')
  end.

(** [handlePostToCashbook]. *)
Definition handlePostToCashbook (txsToPost : list Transaction.t) (s : AppState)
  : AppState :=
  if (length txsToPost =? 0)%nat || negb (Js.truthy_str (selectedBankAccountId s))
  then s
  else
    match find (fun a => Js.str_eq (Account.code a) UNCATEGORIZED_CODE) (accounts s) with
    | None =>
        mkApp (statementTransactions s) (accounts s) (journalEntries s)
          (reconciledTransactions s) (activePeriod s) (selectedBankAccountId s)
          (selectedTx s) (journalLinkedTx s) (editingJournal s)
          (isJournalModalOpen s) (isAiJournalModalOpen s)
          (Some "Uncategorized suspense account not found!") (uuidsDrawn s)
    | Some uncategorizedAccount =>
        let '(newJournalEntries, newReconciledTxs, n') :=
          postEach s uncategorizedAccount (uuidsDrawn s) txsToPost in
        let postedIds : gset string :=
          list_to_set (map ReconciledTransaction.id newReconciledTxs) in
        mkApp (markStatus postedIds posted (statementTransactions s)) (accounts s)
          (journalEntries s ++ newJournalEntries)
          (reconciledTransactions s ++ newReconciledTxs)
          (activePeriod s) (selectedBankAccountId s) ∅ (journalLinkedTx s)
          (editingJournal s) (isJournalModalOpen s) (isAiJournalModalOpen s)
          (error s) n'
    end.

(** The "Post Selected" button over the rows whose id is in [ids]:
    [handlePostToCashbook(filteredTransactions.filter(tx => selectedTx.has(tx.id)))]
    with no filter set (the sort order of the view apart). *)
Definition postSelected (ids : gset string) (s : AppState) : AppState :=
  handlePostToCashbook
    (List.filter (fun tx => bool_decide (Transaction.id tx ∈ ids))
       (statementTransactions s))
    s.

End Posting.

(** ** Statement processing *)

(** A row the extraction service returns, by the four properties read. *)
Module ParsedTx.
Record t := mk { date : Js.any; description : Js.any; debit : Js.any; credit : Js.any }.
End ParsedTx.

Definition is_digit (c : ascii) : bool :=
  let n := nat_of_ascii c in (48 <=? n)%nat && (n <=? 57)%nat.

(** [s.match(/^\d{4}-\d{2}-\d{2}/)] is not [null]. *)
Definition startsWithIsoDate (s : string) : bool :=
  match s with
  | String y1 (String y2 (String y3 (String y4 (String h1
      (String m1 (String m2 (String h2 (String d1 (String d2 _))))))))) =>
      is_digit y1 && is_digit y2 && is_digit y3 && is_digit y4
      && bool_decide (h1 = "-"%char)
      && is_digit m1 && is_digit m2
      && bool_decide (h2 = "-"%char)
      && is_digit d1 && is_digit d2
  | _ => false
  end.

(** [s.split('T')[0]]. *)
Fixpoint beforeT (s : string) : string :=
  match s with
  | EmptyString => EmptyString
  | String c r => if bool_decide (c = "T"%char) then EmptyString else String c (beforeT r)
  end.

Section Statement.

Variable numberToString : Js.number -> string.

(** [parseFloat]. *)
Variable parseFloat : string -> Js.number.

(** [new Date(v).toISOString()]; [None] when it throws (an invalid date). *)
Variable dateToISOString : Js.any -> option string.

(** [new Date().toISOString()], the clock read while the statement is
    processed. *)
Variable nowISOString : string.

(** [JSON.stringify(v)]; [None] when it throws. *)
Variable jsonStringify : Js.any -> option string.

Definition sanitizeAmount (tx : ParsedTx.t) : Js.number :=
  PrimFloat.abs
    (parseFloat
       (Js.toString numberToString
          (Js.or (Js.or (ParsedTx.debit tx) (ParsedTx.credit tx)) (Js.Num 0%float)))).

Definition sanitizeType (tx : ParsedTx.t) : TxType :=
  if Js.truthy (ParsedTx.debit tx) && Js.gt (sanitizeAmount tx) 0%float
  then Debit else Credit.

Definition today : string := beforeT nowISOString.

Definition sanitizeDate (tx : ParsedTx.t) : string :=
  match ParsedTx.date tx with
  | Js.Str d =>
      if Js.truthy_str d && startsWithIsoDate d then d
      else if Js.truthy_str d then
        match dateToISOString (Js.Str d) with
        | Some iso => beforeT iso
        | None => today
        end
      else today
  | other =>
      if Js.truthy other then
        match dateToISOString other with
        | Some iso => beforeT iso
        | None => today
        end
      else today
  end.

Definition sanitizeDescription (tx : ParsedTx.t) : string :=
  match ParsedTx.description tx with
  | Js.Str rawDescription => Js.trim rawDescription
  | Js.Null | Js.Undefined => "N/A"
  | rawDescription =>
      match jsonStringify rawDescription with
      | Some text => text
      | None => "[Unserializable Content]"
      end
  end.

(** [`${date}-${description}-${amount}-${type}`]. *)
Definition transactionId (date description : string) (amount : Js.number)
    (type : TxType) : string :=
  date +:+ "-" +:+ description +:+ "-" +:+ numberToString amount +:+ "-"
  +:+ TxType_str type.

(** The body of the [map] of [processAndSetTransactions]. *)
Definition toTransaction (reconciledIds : gset string) (tx : ParsedTx.t)
  : Transaction.t :=
  let amount := sanitizeAmount tx in
  let type := sanitizeType tx in
  let date := sanitizeDate tx in
  let description := sanitizeDescription tx in
  let id := transactionId date description amount type in
  let reconciliationStatus :=
    if bool_decide (id ∈ reconciledIds) then posted else unposted in
  Transaction.mk id date description amount type (Some reconciliationStatus) None.

(** [newTransactions]. *)
Definition newTransactions (reconciledIds : gset string) (parsedTxs : list ParsedTx.t)
  : list Transaction.t :=
  List.filter (fun tx => negb (Js.isNaN (Transaction.amount tx)))
    (map (toTransaction reconciledIds) parsedTxs).

(** [processAndSetTransactions]. *)
Definition processAndSetTransactions (parsedTxs : list ParsedTx.t) (s : AppState)
  : AppState :=
  let reconciledIds : gset string :=
    list_to_set (map ReconciledTransaction.id (reconciledTransactions s)) in
  mkApp (newTransactions reconciledIds parsedTxs) (accounts s) (journalEntries s)
    (reconciledTransactions s) (activePeriod s) (selectedBankAccountId s)
    (selectedTx s) (journalLinkedTx s) (editingJournal s) (isJournalModalOpen s)
    (isAiJournalModalOpen s) (error s) (uuidsDrawn s).

End Statement.

(** ** Actions of the user interface on the ledger *)

Inductive Action :=
| SelectTx (id : string)
| OpenJournalModal (tx : option Transaction.t) (entryToEdit : option JournalEntry.t)
| SaveJournal (entry : JournalEntry.t)
| SaveAiJournal (entry : JournalEntry.t) (sourceTxs : list Transaction.t)
| DeleteJournal (confirmed : bool) (id : string)
| PostToCashbook (txsToPost : list Transaction.t).

Definition perform (randomUUID : nat -> string) (a : Action) (s : AppState) : AppState :=
  match a with
  | SelectTx id => handleSelectTx id s
  | OpenJournalModal tx entryToEdit => handleOpenJournalModal tx entryToEdit s
  | SaveJournal entry => handleSaveJournal entry s
  | SaveAiJournal entry sourceTxs => handleSaveAiJournal entry sourceTxs s
  | DeleteJournal confirmed id => handleDeleteJournal confirmed id s
  | PostToCashbook txsToPost => handlePostToCashbook randomUUID txsToPost s
  end.

(** The actions of a list, first to last. *)
Definition performAll (randomUUID : nat -> string) (actions : list Action)
    (s : AppState) : AppState :=
  fold_left (fun st a => perform randomUUID a st) actions s.

(** ** Properties of a state *)

(** The link records of a transaction id. *)
Definition linksOf (T : string) (s : AppState) : list ReconciledTransaction.t :=
  List.filter (fun rt => Js.str_eq (ReconciledTransaction.id rt) T)
    (reconciledTransactions s).

Definition linkCount (T : string) (s : AppState) : nat := length (linksOf T s).

(** Some link record carries the id [T]. *)
Definition hasLink (T : string) (s : AppState) : Prop :=
  exists rt, rt ∈ reconciledTransactions s /\ ReconciledTransaction.id rt = T.

(** Status agreement: a statement transaction is posted exactly when a link
    record carries its id. *)
Definition statusAgrees (s : AppState) : Prop :=
  forall tx, tx ∈ statementTransactions s ->
    (Transaction.is_posted tx = true <-> hasLink (Transaction.id tx) s).

(** A line whose two amounts are zero ([=== 0], so [-0] too). *)
Definition zeroLine (l : JournalLine.t) : Prop :=
  PrimFloat.eqb (JournalLine.debit l) 0 = true
  /\ PrimFloat.eqb (JournalLine.credit l) 0 = true.

(** A line that carries an amount on both sides. *)
Definition bothSides (l : JournalLine.t) : Prop :=
  PrimFloat.eqb (JournalLine.debit l) 0 = false
  /\ PrimFloat.eqb (JournalLine.credit l) 0 = false.

(** What [isBalanced] says of the totals. *)
Definition balanced (numberToString : Js.number -> string) (t : Totals.t) : Prop :=
  Js.toFixed2 numberToString (Totals.debit t) = Js.toFixed2 numberToString (Totals.credit t)
  /\ Js.gt (Totals.debit t) 0%float = true.

(** The sums of the lines' debit and credit amounts as the lines hold them:
    the totals the specification speaks of. *)
Definition sumOfAmounts (lines : list JournalLine.t) : Totals.t :=
  fold_left
    (fun acc line =>
       Totals.mk (Totals.debit acc + JournalLine.debit line)%float
                 (Totals.credit acc + JournalLine.credit line)%float)
    lines (Totals.mk 0%float 0%float).

(** An amount that [x || 0] leaves as it is: a number that is neither [NaN]
    nor [-0]. *)
Definition countedAsIs (x : Js.number) : Prop :=
  Prim2SF x <> S754_nan /\ Prim2SF x <> S754_zero true.

(** The ids of the link records of journal entry [id]. *)
Definition linkedIds (id : string) (s : AppState) : gset string :=
  list_to_set
    (map ReconciledTransaction.id
       (List.filter (fun rt => Js.str_eq (ReconciledTransaction.journalEntryId rt) id)
          (reconciledTransactions s))).

(** The transactions of a batch that the loop does not skip. *)
Definition notYetPosted (txsToPost : list Transaction.t) : list Transaction.t :=
  List.filter (fun tx => negb (Transaction.is_posted tx)) txsToPost.

(** No two link records carry the same transaction id. *)
Definition uniqueLinks (s : AppState) : Prop :=
  NoDup (map ReconciledTransaction.id (reconciledTransactions s)).

(** ** Chart of accounts: editing and validation *)

(** [{ code?: string, name?: string, type?: string }], the errors found for
    one account. *)
Module FieldErrors.
Record t := mk { code : option string; name : option string; type : option string }.

(** [Object.keys(accErrors).length > 0]. *)
Definition nonEmpty (e : t) : bool :=
  match code e, name e, type e with
  | None, None, None => false
  | _, _, _ => true
  end.
End FieldErrors.

(** [handleAddAccount]: a blank account with the id [`new-${Date.now()}`]. *)
Definition handleAddAccount (now : N) (prev : list Account.t) : list Account.t :=
  prev ++ [Account.mk ("new-" +:+ Js.digits now) "" "" "" (Some false)].

(** [handleDeleteAccount]: the accounts afterwards, and what is alerted. *)
Definition handleDeleteAccount (id : string) (accts : list Account.t)
  : list Account.t * option string :=
  match find (fun a => Js.str_eq (Account.id a) id) accts with
  | Some accToDelete =>
      if Js.str_eq (Account.code accToDelete) UNCATEGORIZED_CODE then
        (accts,
         Some ("The '" +:+ Account.name accToDelete
               +:+ "' account is essential and cannot be deleted."))
      else (List.filter (fun acc => negb (Js.str_eq (Account.id acc) id)) accts, None)
  | None => (List.filter (fun acc => negb (Js.str_eq (Account.id acc) id)) accts, None)
  end.

Section Validation.

(** [String.prototype.toLowerCase], a built-in that stays a parameter. *)
Variable toLowerCase : string -> string.

(** The key under which [validateAndSave] remembers a code. *)
Definition codeKey (acc : Account.t) : string :=
  toLowerCase (Js.trim (Account.code acc)).

(** The errors [validateAndSave] finds for one account, given the codes seen
    before it. *)
Definition accountErrors (seenCodes : gset string) (acc : Account.t) : FieldErrors.t :=
  let code :=
    if negb (Js.truthy_str (Js.trim (Account.code acc)))
    then Some "Code cannot be empty." else None in
  let code :=
    if bool_decide (codeKey acc ∈ seenCodes) then Some "Code must be unique." else code in
  let name :=
    if negb (Js.truthy_str (Js.trim (Account.name acc)))
    then Some "Name cannot be empty." else None in
  let type :=
    if negb (Js.truthy_str (Js.trim (Account.type acc)))
    then Some "Type cannot be empty." else None in
  FieldErrors.mk code name type.

(** One turn of the [forEach] of [validateAndSave]: the errors by account id
    and the codes seen, before and after. *)
Definition validateStep (st : gmap string FieldErrors.t * gset string) (acc : Account.t)
  : gmap string FieldErrors.t * gset string :=
  let '(newErrors, seenCodes) := st in
  let accErrors := accountErrors seenCodes acc in
  let newErrors :=
    if FieldErrors.nonEmpty accErrors then <[Account.id acc := accErrors]> newErrors
    else newErrors in
  let seenCodes :=
    if Js.truthy_str (Js.trim (Account.code acc)) then seenCodes ∪ {[codeKey acc]}
    else seenCodes in
  (newErrors, seenCodes).

(** [newErrors] at the end of the [forEach]. *)
Definition validationErrors (accts : list Account.t) : gmap string FieldErrors.t :=
  fst (fold_left validateStep accts (∅, ∅)).

(** [validateAndSave]: the errors shown, and the accounts handed to [onSave]
    when there is none. *)
Definition validateAndSave (accts : list Account.t)
  : gmap string FieldErrors.t * SaveOutcome (list Account.t) :=
  let newErrors := validationErrors accts in
  (newErrors,
   if bool_decide (newErrors = ∅) then OnSave accts
   else Alert "Please fix the errors before saving.").

End Validation.

(** ** The journal builder: a new entry and its lines *)

Section NewEntry.

Variable randomUUID : nat -> string.

(** The entry the builder starts from when it does not edit one: the
    two-line entry of the transaction it was opened on when a bank account
    is selected, and two blank lines otherwise.  [today] is
    [new Date().toISOString().split('T')[0]]. *)
Definition initialNewEntry (today : string) (accts : list Account.t)
    (linkedTx : option Transaction.t) (selectedBankAccountId : string) (n : nat)
  : JournalEntry.t :=
  match linkedTx with
  | Some tx =>
      if Js.truthy_str selectedBankAccountId then
        let uncategorizedAccount :=
          find (fun a => Js.str_eq (Account.code a) UNCATEGORIZED_CODE) accts in
        JournalEntry.mk (randomUUID n) (Transaction.date tx) (Transaction.description tx)
          (Some "")
          [ JournalLine.mk (randomUUID (n + 1)) selectedBankAccountId
              (if TxType_eqb (Transaction.type tx) Credit
               then Transaction.amount tx else 0%float)
              (if TxType_eqb (Transaction.type tx) Debit
               then Transaction.amount tx else 0%float)
              None;
            JournalLine.mk (randomUUID (n + 2))
              (match uncategorizedAccount with
               | Some a => if Js.truthy_str (Account.id a) then Account.id a else ""
               | None => ""
               end)
              (if TxType_eqb (Transaction.type tx) Debit
               then Transaction.amount tx else 0%float)
              (if TxType_eqb (Transaction.type tx) Credit
               then Transaction.amount tx else 0%float)
              None ]
          None
      else
        JournalEntry.mk (randomUUID n) today "" (Some "")
          [ JournalLine.mk (randomUUID (n + 1)) "" 0%float 0%float None;
            JournalLine.mk (randomUUID (n + 2)) "" 0%float 0%float None ]
          None
  | None =>
      JournalEntry.mk (randomUUID n) today "" (Some "")
        [ JournalLine.mk (randomUUID (n + 1)) "" 0%float 0%float None;
          JournalLine.mk (randomUUID (n + 2)) "" 0%float 0%float None ]
        None
  end.

(** [handleAddLine], drawing the id [randomUUID n]. *)
Definition handleAddLine (n : nat) (entry : JournalEntry.t) : JournalEntry.t :=
  JournalEntry.with_lines
    (JournalEntry.lines entry ++ [JournalLine.mk (randomUUID n) "" 0%float 0%float None])
    entry.

End NewEntry.

(** [handleDeleteLine]: the entry afterwards, and what is alerted. *)
Definition handleDeleteLine (lineId : string) (entry : JournalEntry.t)
  : JournalEntry.t * option string :=
  if (length (JournalEntry.lines entry) <=? 2)%nat then
    (entry, Some "A journal entry must have at least two lines.")
  else
    (JournalEntry.with_lines
       (List.filter (fun line => negb (Js.str_eq (JournalLine.id line) lineId))
          (JournalEntry.lines entry))
       entry,
     None).

(** What the user does to the lines of the entry in the builder: the three
    inputs of a row, the button that adds a row and the one that deletes
    it. *)
Inductive LineAction :=
| ChooseAccount (lineId accountId : string)
| TypeDebit (lineId : string) (value : Js.number)
| TypeCredit (lineId : string) (value : Js.number)
| AddLine
| DeleteLine (lineId : string).

(** The entry and the number of ids drawn, after one action. *)
Definition editLines (randomUUID : nat -> string) (a : LineAction)
    (st : JournalEntry.t * nat) : JournalEntry.t * nat :=
  let '(entry, n) := st in
  match a with
  | ChooseAccount lineId accountId =>
      (JournalEntryModal.handleUpdateLine lineId (set_accountId accountId) entry, n)
  | TypeDebit lineId value =>
      (JournalEntryModal.handleUpdateLine lineId (set_debit value) entry, n)
  | TypeCredit lineId value =>
      (JournalEntryModal.handleUpdateLine lineId (set_credit value) entry, n)
  | AddLine => (handleAddLine randomUUID n entry, S n)
  | DeleteLine lineId => (fst (handleDeleteLine lineId entry), n)
  end.

(** ** Looking up the journal of a transaction, selection *)

(** [getJournalForTransaction]. *)
Definition getJournalForTransaction (txId : string) (s : AppState)
  : option JournalEntry.t :=
  match find (fun rt => Js.str_eq (ReconciledTransaction.id rt) txId)
          (reconciledTransactions s) with
  | None => None
  | Some reconciledTx =>
      find (fun je => Js.str_eq (JournalEntry.id je)
                        (ReconciledTransaction.journalEntryId reconciledTx))
        (journalEntries s)
  end.

(** [handleSelectAllTx]; [checked] is [e.target.checked], and
    [filteredTransactions] the rows of the view. *)
Definition handleSelectAllTx (checked : bool) (filteredTransactions : list Transaction.t)
    (s : AppState) : AppState :=
  mkApp (statementTransactions s) (accounts s) (journalEntries s)
    (reconciledTransactions s) (activePeriod s) (selectedBankAccountId s)
    (if checked then
       list_to_set
         (map Transaction.id
            (List.filter (fun t => negb (Transaction.is_posted t)) filteredTransactions))
     else ∅)
    (journalLinkedTx s) (editingJournal s) (isJournalModalOpen s)
    (isAiJournalModalOpen s) (error s) (uuidsDrawn s).

(** An account that [validateAndSave] has nothing to say about on its own:
    code, name and type are not blank. *)
Definition filledIn (acc : Account.t) : Prop :=
  Js.trim (Account.code acc) <> ""
  /\ Js.trim (Account.name acc) <> ""
  /\ Js.trim (Account.type acc) <> "".

(** What the builder keeps of its lines: two at least, ids that differ, each
    one drawn before. *)
Definition linesWellFormed (randomUUID : nat -> string) (st : JournalEntry.t * nat)
  : Prop :=
  2 <= length (JournalEntry.lines (fst st))
  /\ NoDup (map JournalLine.id (JournalEntry.lines (fst st)))
  /\ forall id, id ∈ map JournalLine.id (JournalEntry.lines (fst st)) ->
       exists k, k < snd st /\ id = randomUUID k.

(** ** The daily limit on AI actions *)

Definition DAILY_AI_LIMIT : nat := 50.

(** What the limiter keeps in [localStorage]: the day and the number of
    actions granted on it.  The count is the one the limiter itself wrote, a
    natural number. *)
Module AiUsage.
Record t := mk { date : string; count : nat }.
End AiUsage.

(** [getUsage] on the day [today]; [storedUsage] is [None] when nothing is
    stored (or when what is stored does not parse): the count starts at
    zero, as it does when the stored day is another day. *)
Definition getUsage (today : string) (storedUsage : option AiUsage.t) : AiUsage.t :=
  match storedUsage with
  | Some usageData =>
      if Js.str_eq (AiUsage.date usageData) today
      then AiUsage.mk today (AiUsage.count usageData)
      else AiUsage.mk today 0
  | None => AiUsage.mk today 0
  end.

(** How a call of [tryAiFeature] ends: [true] is returned, or the limit error
    is passed to [onError], or [localStorage.setItem] throws and its error is
    passed on. *)
Inductive AiOutcome :=
| Granted
| LimitReached (message : string)
| StorageFailed.

(** [tryAiFeature] on the day [today]; [writable] says whether
    [localStorage.setItem] succeeds.  The result is the outcome and what the
    storage holds afterwards. *)
Definition tryAiFeature (today : string) (writable : bool)
    (storedUsage : option AiUsage.t) : AiOutcome * option AiUsage.t :=
  let currentUsage := getUsage today storedUsage in
  if (DAILY_AI_LIMIT <=? AiUsage.count currentUsage)%nat then
    (LimitReached
       ("You have reached your daily limit of " +:+ Js.digits (N.of_nat DAILY_AI_LIMIT)
        +:+ " AI actions. Please try again tomorrow."),
     storedUsage)
  else
    let newCount := AiUsage.count currentUsage + 1 in
    if writable then (Granted, Some (AiUsage.mk (AiUsage.date currentUsage) newCount))
    else (StorageFailed, storedUsage).

Definition isGranted (o : AiOutcome) : bool :=
  match o with Granted => true | _ => false end.

(** Calls of [tryAiFeature] one after the other on the same day, one for each
    element of [writables]: how many are granted, and the storage at the
    end. *)
Fixpoint tryAiFeatures (today : string) (writables : list bool)
    (storedUsage : option AiUsage.t) : nat * option AiUsage.t :=
  match writables with
  | [] => (0, storedUsage)
  | writable :: rest =>
      let '(outcome, stored') := tryAiFeature today writable storedUsage in
      let '(granted, final) := tryAiFeatures today rest stored' in
      ((if isGranted outcome then 1 else 0) + granted, final)
  end.

(** ** Reading the answer of the extraction service ([src/utils.ts]) *)

(** [s.startsWith(p)]. *)
Definition startsWith (p s : string) : bool := String.prefix p s.

(** [s.substring(n)]. *)
Fixpoint dropChars (n : nat) (s : string) : string :=
  match n, s with
  | S n', String _ r => dropChars n' r
  | _, _ => s
  end.

(** [s.substring(0, n)]. *)
Fixpoint takeChars (n : nat) (s : string) : string :=
  match n, s with
  | S n', String c r => String c (takeChars n' r)
  | _, _ => EmptyString
  end.

(** [s.substring(a, b)] for two indices that are not negative: the smaller
    one is the start. *)
Definition substring (a b : nat) (s : string) : string :=
  takeChars (Nat.max a b - Nat.min a b) (dropChars (Nat.min a b) s).

(** [s.endsWith(suffix)]: some tail of [s] is [suffix]. *)
Fixpoint endsWith (suffix s : string) : bool :=
  Js.str_eq s suffix
  || match s with
     | String _ r => endsWith suffix r
     | EmptyString => false
     end.

(** [s.indexOf(c)] for one character, [None] for [-1]. *)
Fixpoint indexOf (c : ascii) (s : string) : option nat :=
  match s with
  | EmptyString => None
  | String a r => if bool_decide (a = c) then Some 0 else S <$> indexOf c r
  end.

(** [s.lastIndexOf(c)] for one character, [None] for [-1]. *)
Fixpoint lastIndexOf (c : ascii) (s : string) : option nat :=
  match s with
  | EmptyString => None
  | String a r =>
      match lastIndexOf c r with
      | Some i => Some (S i)
      | None => if bool_decide (a = c) then Some 0 else None
      end
  end.

(** The fence removed by [safeParseJson]: the opening one, and the closing
    one when the text ends with it. *)
Definition stripFence (jsonText : string) : string :=
  if startsWith "```json" jsonText then
    let jsonText := dropChars 7 jsonText in
    if endsWith "```" jsonText
    then takeChars (String.length jsonText - 3) jsonText else jsonText
  else if startsWith "```" jsonText then
    let jsonText := dropChars 3 jsonText in
    if endsWith "```" jsonText
    then takeChars (String.length jsonText - 3) jsonText else jsonText
  else jsonText.

(** Where the JSON text starts: the first of ['['] and ['{']. *)
Definition startOfJson (jsonText : string) : option nat :=
  match indexOf "["%char jsonText, indexOf "{"%char jsonText with
  | None, firstBrace => firstBrace
  | firstBracket, None => firstBracket
  | Some firstBracket, Some firstBrace => Some (Nat.min firstBracket firstBrace)
  end.

(** Where it ends: the last of [']'] and ['}']. *)
Definition endOfJson (jsonText : string) : option nat :=
  match lastIndexOf "]"%char jsonText, lastIndexOf "}"%char jsonText with
  | None, lastBrace => lastBrace
  | lastBracket, None => lastBracket
  | Some lastBracket, Some lastBrace => Some (Nat.max lastBracket lastBrace)
  end.

Section SafeParseJson.

(** [JSON.parse]: the value, or the message of the error it throws. *)
Variable jsonParse : string -> Js.any + string.

(** [safeParseJson]: the value returned, or the message of the error
    thrown. *)
Definition safeParseJson (text : string) : Js.any + string :=
  let jsonText := Js.trim (stripFence (Js.trim text)) in
  match startOfJson jsonText with
  | None => inr "Could not find start of JSON object or array in the AI response."
  | Some start =>
      match endOfJson jsonText with
      | None => inr "Could not find end of JSON object or array in the AI response."
      | Some end_ =>
          match jsonParse (substring start (end_ + 1) jsonText) with
          | inl value => inl value
          | inr message =>
              inr ("File processing error: Failed to parse AI response as JSON. Error: "
                   +:+ message)
          end
      end
  end.

End SafeParseJson.

(** Every character of [s] passes the test [P]. *)
Fixpoint allChars (P : ascii -> bool) (s : string) : bool :=
  match s with
  | EmptyString => true
  | String c r => P c && allChars P r
  end.

(** A byte below 128 that is not white space: it is part of no white space
    of more than one byte either. *)
Definition plainByte (c : ascii) : Prop :=
  Js.is_space c = false /\ nat_of_ascii c < 128.

(** The characters [safeParseJson] looks for. *)
Definition isOpen (c : ascii) : bool :=
  bool_decide (c = "["%char) || bool_decide (c = "{"%char).

Definition isClose (c : ascii) : bool :=
  bool_decide (c = "]"%char) || bool_decide (c = "}"%char).

Definition noOpen (s : string) : bool := allChars (fun c => negb (isOpen c)) s.

Definition noClose (s : string) : bool := allChars (fun c => negb (isClose c)) s.

(** A text that holds the payload [b mid e] between [pre] and [post]. *)
Definition around (b e : ascii) (mid pre post : string) : string :=
  pre +:+ String b (mid +:+ String e post).

(** The payload stands in [s] after a text without opening bracket and
    before a text without closing bracket. *)
Definition Around (b e : ascii) (mid s : string) : Prop :=
  exists pre post,
    s = around b e mid pre post /\ noOpen pre = true /\ noClose post = true.

(** ** Accounting periods *)

(** What is kept for a period, as [saveCurrentPeriod] builds it.
    [reconciledTransactions] is [None] when a stored period has none (the
    load effect reads it with [|| []]). *)
Module Session.
Record t := mk {
  id : string;
  period : string;
  timestamp : N;
  accounts : list Account.t;
  journalEntries : list JournalEntry.t;
  reconciledTransactions : option (list ReconciledTransaction.t);
}.
End Session.

(** The state of [App] with the [periods] state beside the ledger. *)
Record Workspace := mkWorkspace {
  ledger : AppState;
  periods : list Session.t;
}.

(** The object [allPeriods] that [JSON.parse] gives for the stored text: its
    properties in the order [Object.values] lists them.  The keys the
    handlers write are period names ([YYYY-MM]), which a JS object lists in
    the order they were added; every value is a session object. *)
Definition PeriodsObject := list (string * Session.t).

(** [allPeriods[key]]. *)
Definition objGet (key : string) (allPeriods : PeriodsObject) : option Session.t :=
  snd <$> find (fun kv => Js.str_eq (fst kv) key) allPeriods.

(** [allPeriods[key] = value]: in place when the key is there, at the end
    when it is not. *)
Fixpoint objSet (key : string) (value : Session.t) (allPeriods : PeriodsObject)
  : PeriodsObject :=
  match allPeriods with
  | [] => [(key, value)]
  | kv :: rest =>
      if Js.str_eq (fst kv) key then (key, value) :: rest
      else kv :: objSet key value rest
  end.

(** [delete allPeriods[key]]. *)
Definition objDelete (key : string) (allPeriods : PeriodsObject) : PeriodsObject :=
  List.filter (fun kv => negb (Js.str_eq (fst kv) key)) allPeriods.

(** [Object.values(allPeriods)]. *)
Definition objValues (allPeriods : PeriodsObject) : list Session.t := map snd allPeriods.

(** What [localStorage.getItem('aiBookkeeper_periods')] holds. *)
Inductive StoredPeriods :=
| NothingStored
| Unreadable
| Stored (allPeriods : PeriodsObject).

(** [storedPeriods ? JSON.parse(storedPeriods) : {}]; [None] when
    [JSON.parse] throws. *)
Definition parseStored (storedPeriods : StoredPeriods) : option PeriodsObject :=
  match storedPeriods with
  | NothingStored => Some []
  | Unreadable => None
  | Stored allPeriods => Some allPeriods
  end.

(** [/^\d{4}-\d{2}$/.test(s)]. *)
Definition isPeriod (s : string) : bool :=
  match s with
  | String y1 (String y2 (String y3 (String y4 (String h
      (String m1 (String m2 EmptyString)))))) =>
      is_digit y1 && is_digit y2 && is_digit y3 && is_digit y4
      && bool_decide (h = "-"%char)
      && is_digit m1 && is_digit m2
  | _ => false
  end.

Definition setError (message : string) (w : Workspace) : Workspace :=
  let s := ledger w in
  mkWorkspace
    (mkApp (statementTransactions s) (accounts s) (journalEntries s)
       (reconciledTransactions s) (activePeriod s) (selectedBankAccountId s)
       (selectedTx s) (journalLinkedTx s) (editingJournal s) (isJournalModalOpen s)
       (isAiJournalModalOpen s) (Some message) (uuidsDrawn s))
    (periods w).

Definition withActivePeriod (period : string) (s : AppState) : AppState :=
  mkApp (statementTransactions s) (accounts s) (journalEntries s)
    (reconciledTransactions s) period (selectedBankAccountId s)
    (selectedTx s) (journalLinkedTx s) (editingJournal s) (isJournalModalOpen s)
    (isAiJournalModalOpen s) (error s) (uuidsDrawn s).

(** The effect that depends on [activePeriod] and [periods]: it loads the
    ledger of the active period, or the defaults when the period has not
    been saved, and clears what belongs to the statement. *)
Definition loadActivePeriod (w : Workspace) : Workspace :=
  let s := ledger w in
  let periodData :=
    find (fun p => Js.str_eq (Session.period p) (activePeriod s)) (periods w) in
  let '(accts, entries, reconciled) :=
    match periodData with
    | Some periodData =>
        (Session.accounts periodData, Session.journalEntries periodData,
         default [] (Session.reconciledTransactions periodData))
    | None => (DEFAULT_ACCOUNTS, [], [])
    end in
  mkWorkspace
    (mkApp [] accts entries reconciled (activePeriod s) "" ∅
       (journalLinkedTx s) (editingJournal s) (isJournalModalOpen s)
       (isAiJournalModalOpen s) (error s) (uuidsDrawn s))
    (periods w).

(** [setPeriods(newPeriods)] with a new array: the effect runs after it. *)
Definition setPeriods (newPeriods : list Session.t) (w : Workspace) : Workspace :=
  loadActivePeriod (mkWorkspace (ledger w) newPeriods).

(** [setActivePeriod(period)]: the effect runs when the period changes. *)
Definition setActivePeriod (period : string) (w : Workspace) : Workspace :=
  if Js.str_eq period (activePeriod (ledger w)) then w
  else loadActivePeriod (mkWorkspace (withActivePeriod period (ledger w)) (periods w)).

(** The handlers below return the new state and what they write to the
    storage, [None] when they write nothing; [writable] says whether
    [localStorage.setItem] succeeds.  A handler that sets [periods] and
    [activePeriod] is followed by one run of the effect, on both new
    values. *)

(** [saveCurrentPeriod]; [now] is [Date.now()]. *)
Definition saveCurrentPeriod (now : N) (storedPeriods : StoredPeriods) (writable : bool)
    (w : Workspace) : Workspace * option PeriodsObject :=
  let s := ledger w in
  let failed :=
    (setError
       "Failed to save period. Your browser's local storage might be full or disabled." w,
     None) in
  match parseStored storedPeriods with
  | None => failed
  | Some allPeriods =>
      let allPeriods :=
        objSet (activePeriod s)
          (Session.mk (activePeriod s) (activePeriod s) now (accounts s)
             (journalEntries s) (Some (reconciledTransactions s)))
          allPeriods in
      if writable then (setPeriods (objValues allPeriods) w, Some allPeriods)
      else failed
  end.

(** [handleDeletePeriod]; [confirmed] is the answer to [confirm], and
    [thisMonth] is [new Date().toISOString().slice(0, 7)]. *)
Definition handleDeletePeriod (thisMonth : string) (confirmed : bool)
    (storedPeriods : StoredPeriods) (writable : bool) (periodToDelete : string)
    (w : Workspace) : Workspace * option PeriodsObject :=
  let failed := (setError "Failed to delete period from local storage." w, None) in
  if confirmed then
    match parseStored storedPeriods with
    | None => failed
    | Some allPeriods =>
        let allPeriods := objDelete periodToDelete allPeriods in
        if writable then
          let updatedPeriods := objValues allPeriods in
          let nextPeriod :=
            match updatedPeriods with
            | first :: _ => Session.period first
            | [] => thisMonth
            end in
          (loadActivePeriod
             (mkWorkspace
                (if Js.str_eq (activePeriod (ledger w)) periodToDelete
                 then withActivePeriod nextPeriod (ledger w) else ledger w)
                updatedPeriods),
           Some allPeriods)
        else failed
    end
  else (w, None).

(** [handleRenamePeriod]. *)
Definition handleRenamePeriod (storedPeriods : StoredPeriods) (writable : bool)
    (oldPeriod newPeriod : string) (w : Workspace) : Workspace * option PeriodsObject :=
  if negb (isPeriod newPeriod) then (w, None)
  else if Js.str_eq oldPeriod newPeriod then (w, None)
  else
    let failed := (setError "Failed to rename period." w, None) in
    match parseStored storedPeriods with
    | None => failed
    | Some allPeriods =>
        match objGet newPeriod allPeriods with
        | Some _ => (w, None)
        | None =>
            match objGet oldPeriod allPeriods with
            | None => (w, None)
            | Some periodData =>
                let periodData :=
                  Session.mk newPeriod newPeriod (Session.timestamp periodData)
                    (Session.accounts periodData) (Session.journalEntries periodData)
                    (Session.reconciledTransactions periodData) in
                let allPeriods :=
                  objDelete oldPeriod (objSet newPeriod periodData allPeriods) in
                if writable then
                  (loadActivePeriod
                     (mkWorkspace
                        (if Js.str_eq (activePeriod (ledger w)) oldPeriod
                         then withActivePeriod newPeriod (ledger w) else ledger w)
                        (objValues allPeriods)),
                   Some allPeriods)
                else failed
            end
        end
    end.

(** [handleCreatePeriod]. *)
Definition handleCreatePeriod (period : string) (w : Workspace) : Workspace :=
  if negb (isPeriod period) then w
  else if existsb (fun p => Js.str_eq (Session.period p) period) (periods w) then w
  else setActivePeriod period w.

(** Every session of the object is kept under its own period, and no key
    is there twice. *)
Definition keyedByPeriod (allPeriods : PeriodsObject) : Prop :=
  Forall (fun kv => Session.period (snd kv) = fst kv) allPeriods
  /\ NoDup (map fst allPeriods).

(** ** Sample data for the closed statements below *)

Definition sampleUUID (n : nat) : string := "uuid-" +:+ pretty n.

(** Stands for [Number::toString] where no number is printed. *)
Definition noNumberToString (x : Js.number) : string := "".

(** A card payment of 250.00, as statement processing yields it. *)
Definition sampleTx : Transaction.t :=
  Transaction.mk "2024-07-03-Card payment-250-debit" "2024-07-03" "Card payment"
    250%float Debit (Some unposted) None.

Definition sampleEntry (id : string) : JournalEntry.t :=
  JournalEntry.mk id "2024-07-03" "Card payment" None
    [ JournalLine.mk "l1" "acc-1" 0%float 250%float None;
      JournalLine.mk "l2" "acc-4" 250%float 0%float None ]
    None.

(** The row of the extraction service that the payment comes from. *)
Definition sampleParsedTx : ParsedTx.t :=
  ParsedTx.mk (Js.Str "2024-07-03") (Js.Str " Card payment ") (Js.Num 250%float) Js.Null.

(** [Number::toString] and [parseFloat] at the one number of the samples. *)
Definition sampleNumberToString (x : Js.number) : string := "250".
Definition sampleParseFloat (text : string) : Js.number := 250%float.

(** One statement row, a bank account selected, nothing posted yet. *)
Definition oneRowState : AppState :=
  mkApp [sampleTx] DEFAULT_ACCOUNTS [] [] "2024-07" "acc-1" ∅ None None false false None 0.

(** A statement that lists the same payment twice. *)
Definition twoRowsState : AppState :=
  mkApp [sampleTx; sampleTx] DEFAULT_ACCOUNTS [] [] "2024-07" "acc-1" ∅ None None
    false false None 0.

(** A second payment, and a ledger in which both payments have their own
    journal entry: each was saved from the builder opened on its row. *)
Definition otherTx : Transaction.t :=
  Transaction.mk "2024-07-04-Rent-900-debit" "2024-07-04" "Rent"
    900%float Debit (Some unposted) None.

Definition linkedState : AppState :=
  performAll sampleUUID
    [ OpenJournalModal (Some sampleTx) None; SaveJournal (sampleEntry "je-1");
      OpenJournalModal (Some otherTx) None; SaveJournal (sampleEntry "je-2") ]
    (mkApp [sampleTx; otherTx] DEFAULT_ACCOUNTS [] [] "2024-07" "acc-1" ∅ None None
       false false None 0).

(** A period saved a month earlier, and the object that holds it. *)
Definition sampleSession (period : string) : Session.t :=
  Session.mk period period 1719792000000 DEFAULT_ACCOUNTS [sampleEntry "je-1"] (Some []).

Definition samplePeriods : PeriodsObject := [("2024-06", sampleSession "2024-06")].

(** Two stored periods, the later one first. *)
Definition twoPeriods : PeriodsObject :=
  [ ("2024-06", sampleSession "2024-06");
    ("2024-05",
     Session.mk "2024-05" "2024-05" 1717200000000 DEFAULT_ACCOUNTS [sampleEntry "je-0"]
       None) ].

(** * Theorems *)

(** ** The runtime model on examples *)

Example toFixed2_examples :
  Js.toFixed2 noNumberToString (0.1 + 0.2)%float = "0.30"
  /\ Js.toFixed2 noNumberToString 0.3%float = "0.30"
  /\ PrimFloat.eqb (0.1 + 0.2) 0.3 = false
  /\ Js.toFixed2 noNumberToString 1.005%float = "1.00"
  /\ Js.toFixed2 noNumberToString (-0.001)%float = "-0.00"
  /\ Js.toFixed2 noNumberToString 1234.5%float = "1234.50"
  /\ Js.toFixed2 noNumberToString 0.125%float = "0.13"
  /\ Js.toFixed2 noNumberToString PrimFloat.nan = "NaN".
Proof. vm_compute. repeat split; reflexivity. Qed.

Example trim_examples :
  Js.trim "  1000 " = "1000" /\ Js.trim "Cash Dup" = "Cash Dup" /\ Js.trim "   " = "".
Proof. vm_compute. repeat split; reflexivity. Qed.

(** A no-break space (C2 A0) before, an ideographic space (E3 80 80) after,
    and a name that is a no-break space and nothing else. *)
Example trim_unicode_examples :
  Js.trim (String (ascii_of_nat 194) (String (ascii_of_nat 160) "Cash")
           +:+ String (ascii_of_nat 227)
                 (String (ascii_of_nat 128) (String (ascii_of_nat 128) "")))
  = "Cash"
  /\ Js.trim (String (ascii_of_nat 194) (String (ascii_of_nat 160) "")) = "".
Proof. vm_compute. split; reflexivity. Qed.

(** ** The scenarios of the specification, run on the model *)

(** A bank line of credit 500 against a suspense line of debit 500 is
    balanced; saving it from the builder opened on a transaction links the
    transaction and sets it to posted. *)
Example scenario_balanced_entry_links_transaction :
  let entry :=
    JournalEntry.mk "je-1" "2024-07-03" "Card payment" None
      [ JournalLine.mk "l1" "acc-1" 0%float 500%float None;
        JournalLine.mk "l2" "acc-0" 500%float 0%float None ] None in
  let s := performAll sampleUUID
             [ OpenJournalModal (Some sampleTx) None; SaveJournal entry ] oneRowState in
  JournalEntryModal.handleSave noNumberToString entry = OnSave entry
  /\ linkCount (Transaction.id sampleTx) s = 1
  /\ map Transaction.reconciliationStatus (statementTransactions s) = [Some posted].
Proof. vm_compute. repeat split; reflexivity. Qed.

(** Debit 100 against credit 90 is refused with the balance alert. *)
Example scenario_unbalanced_entry_refused :
  JournalEntryModal.handleSave noNumberToString
    (JournalEntry.mk "je-1" "2024-07-03" "Mismatch" None
       [ JournalLine.mk "l1" "acc-4" 100%float 0%float None;
         JournalLine.mk "l2" "acc-1" 0%float 90%float None ] None)
  = Alert "Journal entry must be balanced (debits must equal credits).".
Proof. vm_compute. reflexivity. Qed.

(** Bulk posting three transactions of which one is posted already makes two
    entries and two links and raises no error. *)
Example scenario_bulk_post_skips_posted :
  let t1 := sampleTx in
  let t2 := Transaction.mk "2024-07-04-Salary-1000-credit" "2024-07-04" "Salary"
              1000%float Credit (Some posted) None in
  let t3 := Transaction.mk "2024-07-05-Rent-400-debit" "2024-07-05" "Rent"
              400%float Debit (Some unposted) None in
  let s := mkApp [t1; t2; t3] DEFAULT_ACCOUNTS [] [] "2024-07" "acc-1" ∅ None None
             false false None 0 in
  let s' := handlePostToCashbook sampleUUID [t1; t2; t3] s in
  map ReconciledTransaction.id (reconciledTransactions s')
  = [Transaction.id t1; Transaction.id t3]
  /\ map JournalEntry.id (journalEntries s') = ["uuid-0"; "uuid-3"]
  /\ map Transaction.reconciliationStatus (statementTransactions s')
     = [Some posted; Some posted; Some posted]
  /\ error s' = None.
Proof. vm_compute. repeat split; reflexivity. Qed.

(** ** Booleans of the model as propositions *)

Lemma str_eq_true a b : Js.str_eq a b = true <-> a = b.
Proof. unfold Js.str_eq. apply bool_decide_eq_true. Qed.

Lemma str_eq_false a b : Js.str_eq a b = false <-> a <> b.
Proof. unfold Js.str_eq. apply bool_decide_eq_false. Qed.

Lemma str_eq_refl a : Js.str_eq a a = true.
Proof. now apply str_eq_true. Qed.

Lemma truthy_str_false s : Js.truthy_str s = false <-> s = "".
Proof.
  unfold Js.truthy_str. rewrite negb_false_iff. apply str_eq_true.
Qed.

Lemma or_zero_of_zero x : PrimFloat.eqb x 0 = true -> Js.or_zero x = 0%float.
Proof. intros H. unfold Js.or_zero, Js.truthy_num. now rewrite H. Qed.

(** ** Lists and sets of ids *)

Lemma elem_of_List_filter {A} (f : A -> bool) (l : list A) (x : A) :
  x ∈ List.filter f l <-> x ∈ l /\ f x = true.
Proof. rewrite !list_elem_of_In. apply filter_In. Qed.

Lemma List_filter_all {A} (f : A -> bool) (l : list A) :
  (forall x, x ∈ l -> f x = true) -> List.filter f l = l.
Proof.
  induction l as [|a l IH]; intros H; [reflexivity|].
  cbn [List.filter]. rewrite (H a) by constructor.
  f_equal. apply IH. intros x Hx. apply H. now constructor.
Qed.

Lemma List_filter_none {A} (f : A -> bool) (l : list A) :
  length (List.filter f l) = 0 -> forall x, x ∈ l -> f x = false.
Proof.
  intros Hlen x Hx. destruct (f x) eqn:E; [|reflexivity].
  assert (Hin : x ∈ List.filter f l) by now apply elem_of_List_filter.
  destruct (List.filter f l); [inversion Hin | discriminate Hlen].
Qed.

Lemma existsb_elem_of {A} (f : A -> bool) (l : list A) :
  existsb f l = true <-> exists x, x ∈ l /\ f x = true.
Proof. rewrite existsb_exists. now setoid_rewrite list_elem_of_In. Qed.

Lemma markStatus_empty v txs : markStatus ∅ v txs = txs.
Proof.
  unfold markStatus. induction txs as [|t txs IH]; [reflexivity|].
  cbn [map]. rewrite IH. now rewrite bool_decide_eq_false_2 by set_solver.
Qed.

Lemma markStatus_elem_of ids v txs st' :
  st' ∈ markStatus ids v txs ->
  exists st, st ∈ txs /\ Transaction.id st' = Transaction.id st
    /\ (Transaction.id st ∈ ids ->
        st' = Transaction.with_reconciliationStatus v st)
    /\ (Transaction.id st ∉ ids -> st' = st).
Proof.
  unfold markStatus. rewrite list_elem_of_fmap. intros (st & -> & Hin).
  exists st. split; [exact Hin|]. case_bool_decide; repeat split; now intros.
Qed.

(** ** Totals *)

Lemma sumLines_zero lines :
  Forall zeroLine lines -> sumLines lines = Totals.mk 0%float 0%float.
Proof.
  unfold sumLines. induction 1 as [|l ls [Hd Hc] _ IH]; [reflexivity|].
  cbn [fold_left Totals.debit Totals.credit]. unfold Js.Number.
  rewrite (or_zero_of_zero _ Hd), (or_zero_of_zero _ Hc). exact IH.
Qed.

Lemma someLineWithoutAccount_true lines :
  someLineWithoutAccount lines = true
  <-> Exists (fun l => JournalLine.accountId l = "") lines.
Proof.
  unfold someLineWithoutAccount. rewrite existsb_exists, Exists_exists.
  setoid_rewrite <- list_elem_of_In.
  split; intros (l & Hin & H); exists l; (split; [exact Hin|]).
  - apply truthy_str_false. now apply negb_true_iff.
  - apply negb_true_iff. now apply truthy_str_false.
Qed.

Lemma someLineWithoutAccount_false lines :
  someLineWithoutAccount lines = false
  <-> Forall (fun l => JournalLine.accountId l <> "") lines.
Proof.
  rewrite <- not_true_iff_false, someLineWithoutAccount_true.
  rewrite <- Forall_Exists_neg. reflexivity.
Qed.

Lemma isBalanced_true nts t : isBalanced nts t = true <-> balanced nts t.
Proof.
  unfold isBalanced, balanced. rewrite andb_true_iff, str_eq_true. reflexivity.
Qed.

Lemma manual_save_inv nts entry saved :
  JournalEntryModal.handleSave nts entry = OnSave saved ->
  saved = entry
  /\ balanced nts (sumLines (JournalEntry.lines entry))
  /\ Forall (fun l => JournalLine.accountId l <> "") (JournalEntry.lines entry).
Proof.
  unfold JournalEntryModal.handleSave, JournalEntryModal.totals.
  destruct (isBalanced nts _) eqn:Hb; cbn [negb]; [|discriminate].
  destruct (someLineWithoutAccount _) eqn:Ha; [discriminate|].
  intros [= <-]. split; [reflexivity|]. split.
  - now apply isBalanced_true.
  - now apply someLineWithoutAccount_false.
Qed.

Lemma ai_save_inv nts entry txs saved :
  AiJournalEntryModal.handleSave nts entry txs = OnSave saved ->
  exists e, entry = Some e /\ saved = (e, txs)
  /\ balanced nts (sumLines (JournalEntry.lines e))
  /\ Forall (fun l => JournalLine.accountId l <> "") (JournalEntry.lines e).
Proof.
  unfold AiJournalEntryModal.handleSave, AiJournalEntryModal.totals.
  destruct entry as [e|]; [|discriminate].
  destruct (isBalanced nts _) eqn:Hb; cbn [negb]; [|discriminate].
  destruct (someLineWithoutAccount _) eqn:Ha; [discriminate|].
  intros [= <-]. exists e. split; [reflexivity|]. split; [reflexivity|]. split.
  - now apply isBalanced_true.
  - now apply someLineWithoutAccount_false.
Qed.

Lemma isBalanced_zero nts : isBalanced nts (Totals.mk 0%float 0%float) = false.
Proof. unfold isBalanced. cbn [Totals.debit]. apply andb_false_r. Qed.

(** [x || 0] is [x] for a number that is neither [NaN] nor [-0]. *)
Lemma or_zero_countedAsIs x : countedAsIs x -> Js.or_zero x = x.
Proof.
  intros [Hnan Hneg]. unfold Js.or_zero, Js.truthy_num, Js.isNaN, PrimFloat.is_nan.
  destruct (PrimFloat.eqb x 0) eqn:E; cbn [orb negb].
  - rewrite FloatAxioms.eqb_spec in E. change (Prim2SF 0) with (S754_zero false) in E.
    rewrite <- (SF2Prim_Prim2SF x), <- (SF2Prim_Prim2SF 0). f_equal.
    change (Prim2SF 0) with (S754_zero false).
    destruct (Prim2SF x) as [[]|[]| |sg m ex]; cbn in E; try discriminate E;
      try contradiction; try reflexivity.
    destruct sg; discriminate E.
  - destruct (PrimFloat.eqb x x) eqn:Ex; [reflexivity|]. exfalso.
    rewrite FloatAxioms.eqb_spec in Ex.
    destruct (Prim2SF x) as [[]|[]| |sg m ex]; try discriminate Ex; try contradiction.
    unfold SFeqb in Ex. cbn [SFcompare] in Ex. rewrite Z.compare_refl in Ex.
    destruct sg; cbn in Ex; rewrite ?Pos.compare_cont_refl in Ex; discriminate Ex.
Qed.

Lemma sumLines_countedAsIs lines :
  Forall (fun l => countedAsIs (JournalLine.debit l) /\ countedAsIs (JournalLine.credit l))
    lines ->
  sumLines lines = sumOfAmounts lines.
Proof.
  intros H. unfold sumLines, sumOfAmounts. generalize (Totals.mk 0%float 0%float) as acc.
  induction H as [|l ls [Hd Hc] _ IH]; intros acc; [reflexivity|].
  cbn [fold_left]. unfold Js.Number.
  rewrite (or_zero_countedAsIs _ Hd), (or_zero_countedAsIs _ Hc). apply IH.
Qed.

(** C1 as the code has it. An entry that either journal builder hands to
    [onSave] has totals that print the same with two decimals, a debit total
    above zero, and an account on every line, where the totals are the
    builders' own: an amount that is [0], [-0] or [NaN] counts as [0].  They
    are the sums of the lines' amounts whenever no amount is [NaN] or [-0].
    An entry whose lines are all zero is refused as unbalanced by both
    builders, and so is, with one alert or the other, an entry with a line
    whose [accountId] is empty. *)
Theorem C1_saved_entries_are_balanced
    (numberToString : Js.number -> string) (entry : JournalEntry.t) :
  (forall saved, JournalEntryModal.handleSave numberToString entry = OnSave saved ->
     saved = entry
     /\ balanced numberToString (sumLines (JournalEntry.lines entry))
     /\ Forall (fun l => JournalLine.accountId l <> "") (JournalEntry.lines entry))
  /\ (forall txs saved,
        AiJournalEntryModal.handleSave numberToString (Some entry) txs = OnSave saved ->
        saved = (entry, txs)
        /\ balanced numberToString (sumLines (JournalEntry.lines entry))
        /\ Forall (fun l => JournalLine.accountId l <> "") (JournalEntry.lines entry))
  /\ (Forall (fun l => countedAsIs (JournalLine.debit l)
                       /\ countedAsIs (JournalLine.credit l))
        (JournalEntry.lines entry) ->
      sumLines (JournalEntry.lines entry) = sumOfAmounts (JournalEntry.lines entry))
  /\ (Forall zeroLine (JournalEntry.lines entry) ->
        JournalEntryModal.handleSave numberToString entry
        = Alert "Journal entry must be balanced (debits must equal credits)."
        /\ forall txs,
             AiJournalEntryModal.handleSave numberToString (Some entry) txs
             = Alert "Journal entry must be balanced.")
  /\ (Exists (fun l => JournalLine.accountId l = "") (JournalEntry.lines entry) ->
        (exists message, JournalEntryModal.handleSave numberToString entry = Alert message)
        /\ forall txs, exists message,
             AiJournalEntryModal.handleSave numberToString (Some entry) txs = Alert message).
Proof.
  split; [|split; [|split; [|split]]].
  - intros saved H. now apply manual_save_inv.
  - intros txs saved H. apply ai_save_inv in H as (e & [= <-] & -> & Hb & Ha).
    split; [reflexivity|]. split; assumption.
  - apply sumLines_countedAsIs.
  - intros Hz.
    unfold JournalEntryModal.handleSave, AiJournalEntryModal.handleSave,
      JournalEntryModal.totals, AiJournalEntryModal.totals.
    rewrite (sumLines_zero _ Hz), isBalanced_zero. cbn [negb]. now split.
  - intros He. apply someLineWithoutAccount_true in He.
    unfold JournalEntryModal.handleSave, AiJournalEntryModal.handleSave.
    rewrite He. split; [|intros txs];
      destruct (negb (isBalanced numberToString _)); eauto.
Qed.

(** The builders accept the entry of the sample, and the theorem applies:
    its totals are balanced, and they are the sums of its amounts. *)
Lemma C1_saved_entries_are_balanced_witness :
  JournalEntryModal.handleSave noNumberToString (sampleEntry "je-1")
  = OnSave (sampleEntry "je-1")
  /\ balanced noNumberToString (sumLines (JournalEntry.lines (sampleEntry "je-1")))
  /\ balanced noNumberToString (sumOfAmounts (JournalEntry.lines (sampleEntry "je-1"))).
Proof.
  pose proof (C1_saved_entries_are_balanced noNumberToString (sampleEntry "je-1"))
    as (Hsave & _ & Hsum & _).
  split; [vm_compute; reflexivity|].
  destruct (Hsave (sampleEntry "je-1")) as (_ & Hb & _); [vm_compute; reflexivity|].
  split; [exact Hb|]. rewrite <- Hsum; [exact Hb|].
  repeat constructor; discriminate.
Defined.

(** C1 as written fails: the sums of the lines' amounts need not agree.  A
    line of debit 100 whose credit field was filled with 0 and then emptied
    holds [NaN] as its credit; with a second line of credit 100 the builders'
    totals are 100 and 100 and both builders save the entry, while the
    credit amounts sum to [NaN]. *)
Lemma C1_counterexample :
  let blank :=
    JournalEntry.mk "je-1" "2024-07-03" "Card payment" None
      [ JournalLine.mk "l1" "acc-4" 0%float 0%float None;
        JournalLine.mk "l2" "acc-1" 0%float 0%float None ] None in
  let entry :=
    JournalEntryModal.handleUpdateLine "l2" (set_credit 100%float)
      (JournalEntryModal.handleUpdateLine "l1" (set_credit PrimFloat.nan)
         (JournalEntryModal.handleUpdateLine "l1" (set_credit 0%float)
            (JournalEntryModal.handleUpdateLine "l1" (set_debit 100%float) blank))) in
  JournalEntry.lines entry
  = [ JournalLine.mk "l1" "acc-4" 100%float PrimFloat.nan None;
      JournalLine.mk "l2" "acc-1" 0%float 100%float None ]
  /\ JournalEntryModal.handleSave noNumberToString entry = OnSave entry
  /\ AiJournalEntryModal.handleSave noNumberToString (Some entry) [sampleTx]
     = OnSave (entry, [sampleTx])
  /\ Js.toFixed2 noNumberToString (Totals.debit (sumOfAmounts (JournalEntry.lines entry)))
     = "100.00"
  /\ Js.toFixed2 noNumberToString (Totals.credit (sumOfAmounts (JournalEntry.lines entry)))
     = "NaN"
  /\ ~ (forall numberToString e saved,
          JournalEntryModal.handleSave numberToString e = OnSave saved ->
          balanced numberToString (sumOfAmounts (JournalEntry.lines e))).
Proof.
  cbv zeta. split; [vm_compute; reflexivity|]. split; [vm_compute; reflexivity|].
  split; [vm_compute; reflexivity|]. split; [vm_compute; reflexivity|].
  split; [vm_compute; reflexivity|]. intros H.
  specialize (H noNumberToString
                (JournalEntry.mk "je-1" "2024-07-03" "Card payment" None
                   [ JournalLine.mk "l1" "acc-4" 100%float PrimFloat.nan None;
                     JournalLine.mk "l2" "acc-1" 0%float 100%float None ] None)
                _ ltac:(vm_compute; reflexivity)).
  destruct H as [H _]. vm_compute in H. discriminate H.
Qed.

(** ** Updating a line *)

Lemma updateLine_debit lineId x l :
  Js.gt x 0%float = true -> JournalLine.id l = lineId ->
  updateLine lineId (set_debit x) l
  = JournalLine.mk (JournalLine.id l) (JournalLine.accountId l) x 0%float
      (JournalLine.description l).
Proof.
  intros Hx Hid. unfold updateLine. rewrite (proj2 (str_eq_true _ _) Hid).
  cbn [negb assignField]. rewrite Hx. reflexivity.
Qed.

Lemma updateLine_credit lineId x l :
  Js.gt x 0%float = true -> JournalLine.id l = lineId ->
  updateLine lineId (set_credit x) l
  = JournalLine.mk (JournalLine.id l) (JournalLine.accountId l) 0%float x
      (JournalLine.description l).
Proof.
  intros Hx Hid. unfold updateLine. rewrite (proj2 (str_eq_true _ _) Hid).
  cbn [negb assignField]. rewrite Hx. reflexivity.
Qed.

Lemma updateLine_other lineId u l :
  JournalLine.id l <> lineId -> updateLine lineId u l = l.
Proof.
  intros Hid. unfold updateLine. now rewrite (proj2 (str_eq_false _ _) Hid).
Qed.

Lemma updated_lines_debit lineId x lines l :
  Js.gt x 0%float = true ->
  l ∈ map (updateLine lineId (set_debit x)) lines -> JournalLine.id l = lineId ->
  JournalLine.debit l = x /\ JournalLine.credit l = 0%float.
Proof.
  intros Hx Hin Hid. apply list_elem_of_fmap in Hin as (l0 & -> & _).
  destruct (decide (JournalLine.id l0 = lineId)) as [E|E].
  - rewrite (updateLine_debit _ _ _ Hx E). now split.
  - rewrite (updateLine_other _ _ _ E) in Hid. contradiction.
Qed.

Lemma updated_lines_credit lineId x lines l :
  Js.gt x 0%float = true ->
  l ∈ map (updateLine lineId (set_credit x)) lines -> JournalLine.id l = lineId ->
  JournalLine.credit l = x /\ JournalLine.debit l = 0%float.
Proof.
  intros Hx Hin Hid. apply list_elem_of_fmap in Hin as (l0 & -> & _).
  destruct (decide (JournalLine.id l0 = lineId)) as [E|E].
  - rewrite (updateLine_credit _ _ _ Hx E). now split.
  - rewrite (updateLine_other _ _ _ E) in Hid. contradiction.
Qed.

Lemma updateLine_not_above_zero lineId x l :
  Js.gt x 0%float = false ->
  updateLine lineId (set_debit x) l
  = (if Js.str_eq (JournalLine.id l) lineId then JournalLine.with_debit x l else l)
  /\ updateLine lineId (set_credit x) l
     = (if Js.str_eq (JournalLine.id l) lineId then JournalLine.with_credit x l else l).
Proof.
  intros Hx. unfold updateLine. destruct (Js.str_eq (JournalLine.id l) lineId);
    cbn [negb assignField]; rewrite ?Hx; now split.
Qed.

Lemma mapAiLines_amounts nts stn randomUUID n aiLines :
  map (fun l => (JournalLine.debit l, JournalLine.credit l))
    (mapAiLines nts stn randomUUID n aiLines)
  = map (fun a =>
           (Js.toNumber nts stn (Js.or (AiLine.debit a) (Js.Num 0%float)),
            Js.toNumber nts stn (Js.or (AiLine.credit a) (Js.Num 0%float))))
      aiLines.
Proof.
  revert n. induction aiLines as [|a rest IH]; intros n; [reflexivity|].
  cbn [mapAiLines map JournalLine.debit JournalLine.credit]. now rewrite IH.
Qed.

(** C6 as the code has it. In both builders, after [handleUpdateLine] sets
    the debit of the line [lineId] to a value [x > 0], every line of that id
    has debit [x] and credit [0]; after it sets the credit to [x > 0], every
    line of that id has credit [x] and debit [0].  When [x] is not above zero
    the update sets that side of the lines of that id and leaves everything
    else, the other side included, as it was.  The lines mapped from an AI
    suggestion carry [Number(line.debit || 0)] and [Number(line.credit || 0)],
    each whatever the other is. *)
Theorem C6_positive_update_clears_other_side
    (lineId : string) (x : Js.number) (entry : JournalEntry.t) :
  (Js.gt x 0%float = true ->
   (forall l,
      l ∈ JournalEntry.lines (JournalEntryModal.handleUpdateLine lineId (set_debit x) entry)
      -> JournalLine.id l = lineId ->
      JournalLine.debit l = x /\ JournalLine.credit l = 0%float)
   /\ (forall l,
         l ∈ JournalEntry.lines
               (JournalEntryModal.handleUpdateLine lineId (set_credit x) entry)
         -> JournalLine.id l = lineId ->
         JournalLine.credit l = x /\ JournalLine.debit l = 0%float)
   /\ (forall e' l,
         AiJournalEntryModal.handleUpdateLine lineId (set_debit x) (Some entry) = Some e'
         -> l ∈ JournalEntry.lines e' -> JournalLine.id l = lineId ->
         JournalLine.debit l = x /\ JournalLine.credit l = 0%float)
   /\ (forall e' l,
         AiJournalEntryModal.handleUpdateLine lineId (set_credit x) (Some entry) = Some e'
         -> l ∈ JournalEntry.lines e' -> JournalLine.id l = lineId ->
         JournalLine.credit l = x /\ JournalLine.debit l = 0%float))
  /\ (Js.gt x 0%float = false ->
      let debitOnly l :=
        if Js.str_eq (JournalLine.id l) lineId then JournalLine.with_debit x l else l in
      let creditOnly l :=
        if Js.str_eq (JournalLine.id l) lineId then JournalLine.with_credit x l else l in
      JournalEntry.lines (JournalEntryModal.handleUpdateLine lineId (set_debit x) entry)
      = map debitOnly (JournalEntry.lines entry)
      /\ JournalEntry.lines (JournalEntryModal.handleUpdateLine lineId (set_credit x) entry)
         = map creditOnly (JournalEntry.lines entry)
      /\ (forall e',
            AiJournalEntryModal.handleUpdateLine lineId (set_debit x) (Some entry) = Some e'
            -> JournalEntry.lines e' = map debitOnly (JournalEntry.lines entry))
      /\ (forall e',
            AiJournalEntryModal.handleUpdateLine lineId (set_credit x) (Some entry) = Some e'
            -> JournalEntry.lines e' = map creditOnly (JournalEntry.lines entry)))
  /\ (forall numberToString stringToNumber randomUUID n aiLines,
        map (fun l => (JournalLine.debit l, JournalLine.credit l))
          (mapAiLines numberToString stringToNumber randomUUID n aiLines)
        = map (fun a =>
                 (Js.toNumber numberToString stringToNumber
                    (Js.or (AiLine.debit a) (Js.Num 0%float)),
                  Js.toNumber numberToString stringToNumber
                    (Js.or (AiLine.credit a) (Js.Num 0%float))))
            aiLines).
Proof.
  split; [|split].
  - intros Hx. repeat apply conj.
    + intros l. now apply updated_lines_debit.
    + intros l. now apply updated_lines_credit.
    + intros e' l [= <-]. now apply updated_lines_debit.
    + intros e' l [= <-]. now apply updated_lines_credit.
  - intros Hx debitOnly creditOnly.
    assert (Hd : map (updateLine lineId (set_debit x)) (JournalEntry.lines entry)
                 = map debitOnly (JournalEntry.lines entry)).
    { apply map_ext. intros l. apply (updateLine_not_above_zero lineId x l Hx). }
    assert (Hc : map (updateLine lineId (set_credit x)) (JournalEntry.lines entry)
                 = map creditOnly (JournalEntry.lines entry)).
    { apply map_ext. intros l. apply (updateLine_not_above_zero lineId x l Hx). }
    repeat apply conj.
    + exact Hd.
    + exact Hc.
    + intros e' [= <-]. exact Hd.
    + intros e' [= <-]. exact Hc.
  - intros. apply mapAiLines_amounts.
Qed.

Lemma C6_positive_update_clears_other_side_witness :
  Js.gt 80%float 0%float = true
  /\ JournalEntry.lines
       (JournalEntryModal.handleUpdateLine "l1" (set_debit 80%float) (sampleEntry "je-1"))
     = [ JournalLine.mk "l1" "acc-1" 80%float 0%float None;
         JournalLine.mk "l2" "acc-4" 250%float 0%float None ]
  /\ forall l,
       l ∈ JournalEntry.lines
             (JournalEntryModal.handleUpdateLine "l1" (set_debit 80%float)
                (sampleEntry "je-1"))
       -> JournalLine.id l = "l1" ->
       JournalLine.debit l = 80%float /\ JournalLine.credit l = 0%float.
Proof.
  split; [reflexivity|]. split; [reflexivity|].
  apply (proj1 (proj1 (C6_positive_update_clears_other_side "l1" 80%float
                         (sampleEntry "je-1"))
                  eq_refl)).
Defined.

(** C6 as written fails: a line can carry an amount on both sides. An
    update whose value is not above zero leaves the other side as it was,
    the lines of a suggestion are taken with both amounts as given, and both
    builders save such an entry. *)
Lemma C6_counterexample :
  (let l := updateLine "l1" (set_debit (-5)%float)
              (JournalLine.mk "l1" "acc-1" 0%float 250%float None) in
   l = JournalLine.mk "l1" "acc-1" (-5)%float 250%float None /\ bothSides l)
  /\ (let lines :=
        mapAiLines noNumberToString (fun _ => PrimFloat.nan) sampleUUID 0
          [AiLine.mk "acc-4" (Js.Num 5%float) (Js.Num 5%float)] in
      let entry := JournalEntry.mk "je-1" "2024-07-03" "Cards" None lines None in
      lines = [JournalLine.mk "uuid-0" "acc-4" 5%float 5%float None]
      /\ Forall bothSides lines
      /\ JournalEntryModal.handleSave noNumberToString entry = OnSave entry
      /\ AiJournalEntryModal.handleSave noNumberToString (Some entry) [sampleTx]
         = OnSave (entry, [sampleTx]))
  /\ ~ (forall lineId u entry,
          Forall (fun l => ~ bothSides l) (JournalEntry.lines entry) ->
          Forall (fun l => ~ bothSides l)
            (JournalEntry.lines (JournalEntryModal.handleUpdateLine lineId u entry))).
Proof.
  cbv zeta. split; [|split].
  - split; [reflexivity|]. split; reflexivity.
  - split; [vm_compute; reflexivity|]. split.
    + vm_compute. repeat constructor.
    + split; vm_compute; reflexivity.
  - intros H.
    specialize (H "l1" (set_debit (-5)%float)
                  (JournalEntry.mk "je-1" "2024-07-03" "Cards" None
                     [JournalLine.mk "l1" "acc-1" 0%float 250%float None] None)).
    assert (Hno : Forall (fun l => ~ bothSides l)
                    [JournalLine.mk "l1" "acc-1" 0%float 250%float None]).
    { constructor; [|constructor]. intros [Hd _]. discriminate Hd. }
    specialize (H Hno). apply Forall_cons in H as [H _].
    apply H. split; reflexivity.
Qed.

(** ** Importing account rows *)

Section ImportFacts.

Variable numberToString : Js.number -> string.
Variable now : N.

(** X20. What the import keeps: the accounts already there stay in place,
    every account added has a code that none of them has, and only rows
    with the three fields can add one. *)
Lemma import_skips_existing_codes (data : list (list Cell)) (accts : list Account.t) :
  fst (ChartOfAccountsModal.parseAndImportData numberToString now data accts)
  = accts ++ ChartOfAccountsModal.uniqueImported numberToString now accts data
  /\ snd (ChartOfAccountsModal.parseAndImportData numberToString now data accts)
     = length (ChartOfAccountsModal.uniqueImported numberToString now accts data)
  /\ (forall imp exist,
        imp ∈ ChartOfAccountsModal.uniqueImported numberToString now accts data ->
        exist ∈ accts -> Account.code exist <> Account.code imp)
  /\ (length (ChartOfAccountsModal.uniqueImported numberToString now accts data)
      <= length (List.filter ChartOfAccountsModal.hasThreeFields data))%nat.
Proof.
  split; [reflexivity|]. split; [reflexivity|]. split.
  - intros imp exist Himp Hex. unfold ChartOfAccountsModal.uniqueImported in Himp.
    apply elem_of_List_filter in Himp as [_ Hnone].
    apply negb_true_iff in Hnone. intros Heq.
    assert (Hsome : existsb (fun e => Js.str_eq (Account.code e) (Account.code imp)) accts
                    = true).
    { apply existsb_elem_of. exists exist. split; [exact Hex|]. now apply str_eq_true. }
    congruence.
  - unfold ChartOfAccountsModal.uniqueImported, ChartOfAccountsModal.importedAccounts.
    etransitivity; [apply List.filter_length_le|]. now rewrite length_imap.
Qed.

End ImportFacts.

(** C7, the code at the two rows of the scenario. No default account has the
    code "1000", and the import adds both rows, two accounts of code "1000":
    the second row is compared with the accounts that were there before the
    import, not with the first row. *)
Theorem C7_duplicate_rows_are_both_imported (numberToString : Js.number -> string) (now : N) :
  let rows := [ [CellStr "1000"; CellStr "Cash"; CellStr "Asset"];
                [CellStr "1000"; CellStr "Cash Dup"; CellStr "Asset"] ] in
  let added := ChartOfAccountsModal.uniqueImported numberToString now DEFAULT_ACCOUNTS rows in
  existsb (fun a => Js.str_eq (Account.code a) "1000") DEFAULT_ACCOUNTS = false
  /\ snd (ChartOfAccountsModal.parseAndImportData numberToString now rows DEFAULT_ACCOUNTS) = 2
  /\ map Account.code added = ["1000"; "1000"]
  /\ map Account.name added = ["Cash"; "Cash Dup"].
Proof.
  cbv zeta. split; [vm_compute; reflexivity|]. split; [vm_compute; reflexivity|].
  split; vm_compute; reflexivity.
Qed.

(** ** Editing an entry *)

(** C8. Saving an entry whose id is already in the collection puts it in the
    place of every entry of that id and leaves the other entries, the link
    records and the statement transactions (so every reconciliation status)
    as they were. *)
Theorem C8_edit_replaces_entry_only (entry : JournalEntry.t) (s : AppState) :
  (exists je, je ∈ journalEntries s /\ JournalEntry.id je = JournalEntry.id entry) ->
  reconciledTransactions (handleSaveJournal entry s) = reconciledTransactions s
  /\ statementTransactions (handleSaveJournal entry s) = statementTransactions s
  /\ journalEntries (handleSaveJournal entry s)
     = map (fun je =>
              if bool_decide (JournalEntry.id je = JournalEntry.id entry)
              then entry else je)
         (journalEntries s).
Proof.
  intros (je & Hin & Hid). unfold handleSaveJournal.
  assert (He : existsb (fun je => Js.str_eq (JournalEntry.id je) (JournalEntry.id entry))
                 (journalEntries s) = true).
  { apply existsb_elem_of. exists je. split; [exact Hin|]. now apply str_eq_true. }
  rewrite He. cbn. repeat split.
Qed.

Lemma C8_edit_replaces_entry_only_witness :
  let s := handleSaveJournal (sampleEntry "je-1") oneRowState in
  let edited :=
    JournalEntry.mk "je-1" "2024-07-04" "Card payment (edited)" None
      (JournalEntry.lines (sampleEntry "je-1")) None in
  reconciledTransactions (handleSaveJournal edited s) = reconciledTransactions s
  /\ statementTransactions (handleSaveJournal edited s) = statementTransactions s
  /\ journalEntries (handleSaveJournal edited s) = [edited].
Proof.
  intros s edited.
  destruct (C8_edit_replaces_entry_only edited s) as (H1 & H2 & H3).
  - exists (sampleEntry "je-1"). split; [vm_compute; constructor | reflexivity].
  - split; [exact H1|]. split; [exact H2|]. rewrite H3. vm_compute. reflexivity.
Defined.

(** ** Deleting an entry *)

Lemma elem_of_linkedIds id s T :
  T ∈ linkedIds id s
  <-> exists rt, rt ∈ reconciledTransactions s
        /\ ReconciledTransaction.journalEntryId rt = id
        /\ ReconciledTransaction.id rt = T.
Proof.
  unfold linkedIds. rewrite elem_of_list_to_set, list_elem_of_fmap.
  split.
  - intros (rt & -> & Hin). apply elem_of_List_filter in Hin as [Hin He].
    exists rt. repeat split; [exact Hin|]. now apply str_eq_true.
  - intros (rt & Hin & He & <-). exists rt. split; [reflexivity|].
    apply elem_of_List_filter. split; [exact Hin|]. now apply str_eq_true.
Qed.

(** [handleDeleteJournal] after a confirmation, in one formula for zero, one
    or many linked transactions. *)
Lemma handleDeleteJournal_confirmed id s :
  handleDeleteJournal true id s
  = mkApp (markStatus (linkedIds id s) unposted (statementTransactions s)) (accounts s)
      (List.filter (fun je => negb (Js.str_eq (JournalEntry.id je) id)) (journalEntries s))
      (List.filter
         (fun rt => negb (Js.str_eq (ReconciledTransaction.journalEntryId rt) id))
         (reconciledTransactions s))
      (activePeriod s) (selectedBankAccountId s) (selectedTx s) (journalLinkedTx s)
      (editingJournal s) (isJournalModalOpen s) (isAiJournalModalOpen s) (error s)
      (uuidsDrawn s).
Proof.
  unfold handleDeleteJournal, linkedIds.
  destruct (0 <? length _)%nat eqn:Hlen; [reflexivity|].
  apply Nat.ltb_ge in Hlen.
  assert (Hnone : forall rt, rt ∈ reconciledTransactions s ->
            Js.str_eq (ReconciledTransaction.journalEntryId rt) id = false).
  { apply List_filter_none. lia. }
  rewrite (List_filter_all
             (fun rt => negb (Js.str_eq (ReconciledTransaction.journalEntryId rt) id))).
  2:{ intros rt Hrt. now rewrite (Hnone rt Hrt). }
  destruct (List.filter _ (reconciledTransactions s)) as [|rt l] eqn:E.
  - cbn [map list_to_set]. now rewrite markStatus_empty.
  - cbn [length] in Hlen. lia.
Qed.

(** C4. Deleting a journal entry, once confirmed, yields in one step a state
    without the entry, without any link record whose [journalEntryId] is the
    deleted id, and with every statement transaction whose id such a record
    carried set to unposted (the others untouched), whether the entry had
    zero, one or many links; when the confirmation is declined the state is
    the one before. *)
Theorem C4_delete_cascades (id : string) (s : AppState) :
  handleDeleteJournal false id s = s
  /\ (forall je, je ∈ journalEntries (handleDeleteJournal true id s)
        <-> je ∈ journalEntries s /\ JournalEntry.id je <> id)
  /\ (forall rt, rt ∈ reconciledTransactions (handleDeleteJournal true id s)
        <-> rt ∈ reconciledTransactions s
            /\ ReconciledTransaction.journalEntryId rt <> id)
  /\ statementTransactions (handleDeleteJournal true id s)
     = map (fun st =>
              if bool_decide (Transaction.id st ∈ linkedIds id s)
              then Transaction.with_reconciliationStatus unposted st else st)
         (statementTransactions s)
  /\ (forall st, st ∈ statementTransactions (handleDeleteJournal true id s) ->
        (exists rt, rt ∈ reconciledTransactions s
           /\ ReconciledTransaction.journalEntryId rt = id
           /\ ReconciledTransaction.id rt = Transaction.id st) ->
        Transaction.reconciliationStatus st = Some unposted).
Proof.
  split; [reflexivity|]. rewrite handleDeleteJournal_confirmed.
  cbn [journalEntries reconciledTransactions statementTransactions].
  split; [|split; [|split]].
  - intros je. rewrite elem_of_List_filter, negb_true_iff, str_eq_false. reflexivity.
  - intros rt. rewrite elem_of_List_filter, negb_true_iff, str_eq_false. reflexivity.
  - reflexivity.
  - intros st' Hin Hlink.
    apply markStatus_elem_of in Hin as (st & _ & Hid & Hyes & _).
    rewrite Hid in Hlink. apply elem_of_linkedIds in Hlink.
    rewrite (Hyes Hlink). reflexivity.
Qed.

(** The payment of the sample, linked to one entry and then unlinked by the
    deletion of that entry. *)
Lemma C4_delete_cascades_witness :
  let s1 := performAll sampleUUID
              [ OpenJournalModal (Some sampleTx) None; SaveJournal (sampleEntry "je-1") ]
              oneRowState in
  statementTransactions s1 = [Transaction.with_reconciliationStatus posted sampleTx]
  /\ map ReconciledTransaction.journalEntryId (reconciledTransactions s1) = ["je-1"]
  /\ reconciledTransactions (handleDeleteJournal true "je-1" s1) = []
  /\ forall st, st ∈ statementTransactions (handleDeleteJournal true "je-1" s1) ->
       Transaction.reconciliationStatus st = Some unposted.
Proof.
  intros s1. split; [vm_compute; reflexivity|]. split; [vm_compute; reflexivity|].
  split; [vm_compute; reflexivity|].
  destruct (C4_delete_cascades "je-1" s1) as (_ & _ & _ & _ & H).
  intros st Hst. apply (H st Hst).
  assert (E : st = sampleTx).
  { vm_compute in Hst. apply list_elem_of_singleton in Hst. exact Hst. }
  subst st. eexists. split; [vm_compute; constructor|]. split; reflexivity.
Defined.

(** ** Adding zero *)

Lemma add_zero_l x : Prim2SF x <> S754_zero true -> (0 + x)%float = x.
Proof.
  intros H. rewrite <- (SF2Prim_Prim2SF (0 + x)), add_spec.
  rewrite <- (SF2Prim_Prim2SF x) at 2. f_equal.
  change (Prim2SF 0) with (S754_zero false).
  destruct (Prim2SF x) as [[]| | |]; try reflexivity. congruence.
Qed.

Lemma add_zero_r x : Prim2SF x <> S754_zero true -> (x + 0)%float = x.
Proof.
  intros H. rewrite <- (SF2Prim_Prim2SF (x + 0)), add_spec.
  rewrite <- (SF2Prim_Prim2SF x) at 2. f_equal.
  change (Prim2SF 0) with (S754_zero false).
  destruct (Prim2SF x) as [[]| | |]; try reflexivity. congruence.
Qed.

(** [x || 0] is never [-0]. *)
Lemma or_zero_not_negzero x : Prim2SF (Js.or_zero x) <> S754_zero true.
Proof.
  unfold Js.or_zero, Js.truthy_num.
  destruct (PrimFloat.eqb x 0) eqn:E; cbn [orb negb].
  - discriminate.
  - destruct (Js.isNaN x); cbn [negb]; [discriminate|].
    rewrite FloatAxioms.eqb_spec in E. change (Prim2SF 0) with (S754_zero false) in E.
    intros H. rewrite H in E. discriminate E.
Qed.

Lemma SFcompare_refl_finite s m e :
  SFcompare (S754_finite s m e) (S754_finite s m e) = Some Eq.
Proof.
  cbn [SFcompare]. rewrite Z.compare_refl.
  destruct s; cbn; now rewrite ?Pos.compare_cont_refl.
Qed.

(** [0 < x] fails for every falsy number. *)
Lemma gt_zero_falsy x : Js.truthy_num x = false -> Js.gt x 0%float = false.
Proof.
  unfold Js.truthy_num, Js.gt, Js.isNaN, PrimFloat.is_nan.
  rewrite negb_false_iff, orb_true_iff, negb_true_iff.
  rewrite FloatAxioms.ltb_spec, !FloatAxioms.eqb_spec.
  change (Prim2SF 0) with (S754_zero false).
  destruct (Prim2SF x) as [s| s | |s m e]; intros [H|H]; try reflexivity;
    try discriminate H; try (destruct s; discriminate H).
  unfold SFeqb in H. rewrite SFcompare_refl_finite in H. discriminate H.
Qed.

Lemma gt_or_zero x : Js.gt (Js.or_zero x) 0%float = Js.gt x 0%float.
Proof.
  unfold Js.or_zero. destruct (Js.truthy_num x) eqn:E; [reflexivity|].
  now rewrite (gt_zero_falsy _ E).
Qed.

(** ** Bulk posting *)

Section PostingFacts.

Variable randomUUID : nat -> string.

(** The entry made for a transaction carries the transaction's amount (with
    [0] for a falsy amount) as its debit total and as its credit total. *)
Lemma newJournal_totals s unc n tx :
  sumLines (JournalEntry.lines (newJournal randomUUID s unc n tx))
  = Totals.mk (Js.or_zero (Transaction.amount tx)) (Js.or_zero (Transaction.amount tx)).
Proof.
  unfold sumLines, newJournal. cbn [JournalEntry.lines fold_left].
  cbn [JournalLine.debit JournalLine.credit Totals.debit Totals.credit].
  unfold Js.Number.
  assert (Hz : Js.or_zero 0%float = 0%float) by reflexivity.
  assert (H00 : (0 + 0)%float = 0%float) by reflexivity.
  pose proof (or_zero_not_negzero (Transaction.amount tx)) as Ha.
  destruct (Transaction.type tx); cbn [TxType_eqb];
    rewrite ?Hz, ?H00, ?(add_zero_l _ Ha), ?(add_zero_r _ Ha); reflexivity.
Qed.

(** X21. The entry that bulk posting makes for a transaction passes the
    builders' balance test exactly when the amount of the transaction is
    above zero. *)
Lemma newJournal_isBalanced numberToString s unc n tx :
  isBalanced numberToString
    (sumLines (JournalEntry.lines (newJournal randomUUID s unc n tx)))
  = Js.gt (Transaction.amount tx) 0%float.
Proof.
  rewrite newJournal_totals. unfold isBalanced. cbn [Totals.debit Totals.credit].
  rewrite str_eq_refl, gt_or_zero. reflexivity.
Qed.

(** The loop makes one entry and one link for each transaction it does not
    skip, in order, the link pointing at the entry, and draws three ids for
    each. *)
Lemma postEach_spec s unc txsToPost n :
  postEach randomUUID s unc n txsToPost
  = (imap (fun k tx => newJournal randomUUID s unc (n + 3 * k) tx) (notYetPosted txsToPost),
     imap (fun k tx => newRecon s tx (randomUUID (n + 3 * k))) (notYetPosted txsToPost),
     n + 3 * length (notYetPosted txsToPost)).
Proof.
  unfold notYetPosted. revert n.
  induction txsToPost as [|tx rest IH]; intros n; cbn [postEach List.filter].
  - cbn. now rewrite Nat.add_0_r.
  - destruct (Transaction.is_posted tx); cbn [negb]; [apply IH|].
    rewrite IH. cbn [imap length]. rewrite !Nat.mul_0_r, !Nat.add_0_r.
    f_equal; [f_equal|lia].
    + f_equal. apply imap_ext. intros k x _. cbn. f_equal. lia.
    + f_equal. apply imap_ext. intros k x _. cbn. do 2 f_equal. lia.
Qed.

Lemma postEach_link_ids s unc txsToPost n :
  map ReconciledTransaction.id (snd (fst (postEach randomUUID s unc n txsToPost)))
  = map Transaction.id (notYetPosted txsToPost).
Proof.
  rewrite postEach_spec. cbn [fst snd].
  generalize (notYetPosted txsToPost) n. clear.
  induction l as [|tx l IH]; intros n; [reflexivity|].
  cbn [imap map]. f_equal. rewrite <- (IH (n + 3)).
  f_equal. apply imap_ext. intros k x _. cbn. do 2 f_equal. lia.
Qed.

Lemma notYetPosted_all_posted txs :
  Forall (fun tx => Transaction.is_posted tx = true) txs -> notYetPosted txs = [].
Proof.
  unfold notYetPosted. induction 1 as [|tx txs H _ IH]; [reflexivity|].
  cbn [List.filter]. now rewrite H.
Qed.

(** Bulk posting past its two guards. *)
Lemma handlePostToCashbook_posts txsToPost s unc :
  txsToPost <> [] -> selectedBankAccountId s <> "" ->
  find (fun a => Js.str_eq (Account.code a) UNCATEGORIZED_CODE) (accounts s) = Some unc ->
  handlePostToCashbook randomUUID txsToPost s
  = mkApp
      (markStatus (list_to_set (map Transaction.id (notYetPosted txsToPost))) posted
         (statementTransactions s))
      (accounts s)
      (journalEntries s
       ++ imap (fun k tx => newJournal randomUUID s unc (uuidsDrawn s + 3 * k) tx)
            (notYetPosted txsToPost))
      (reconciledTransactions s
       ++ imap (fun k tx => newRecon s tx (randomUUID (uuidsDrawn s + 3 * k)))
            (notYetPosted txsToPost))
      (activePeriod s) (selectedBankAccountId s) ∅ (journalLinkedTx s)
      (editingJournal s) (isJournalModalOpen s) (isAiJournalModalOpen s) (error s)
      (uuidsDrawn s + 3 * length (notYetPosted txsToPost)).
Proof.
  intros Htxs Hbank Hfind. unfold handlePostToCashbook.
  destruct txsToPost as [|tx rest]; [contradiction|]. cbn [length Nat.eqb orb].
  destruct (Js.truthy_str (selectedBankAccountId s)) eqn:Hb.
  2:{ apply truthy_str_false in Hb. contradiction. }
  cbn [negb]. rewrite Hfind.
  pose proof (postEach_link_ids s unc (tx :: rest) (uuidsDrawn s)) as Hids.
  rewrite postEach_spec in Hids |- *. cbn [fst snd] in Hids. now rewrite Hids.
Qed.

(** X22. A batch in which every transaction is already posted creates
    nothing and changes no status. *)
Lemma handlePostToCashbook_all_posted txsToPost s :
  Forall (fun tx => Transaction.is_posted tx = true) txsToPost ->
  journalEntries (handlePostToCashbook randomUUID txsToPost s) = journalEntries s
  /\ reconciledTransactions (handlePostToCashbook randomUUID txsToPost s)
     = reconciledTransactions s
  /\ statementTransactions (handlePostToCashbook randomUUID txsToPost s)
     = statementTransactions s.
Proof.
  intros Hall. unfold handlePostToCashbook.
  destruct (_ || _); [now repeat split|].
  destruct (find _ _) as [unc|]; [|now repeat split].
  rewrite postEach_spec, (notYetPosted_all_posted _ Hall). cbn.
  rewrite !app_nil_r, markStatus_empty. now repeat split.
Qed.

End PostingFacts.

Lemma handlePostToCashbook_all_posted_witness :
  let txsToPost := [Transaction.with_reconciliationStatus posted sampleTx] in
  journalEntries (handlePostToCashbook sampleUUID txsToPost oneRowState)
  = journalEntries oneRowState
  /\ reconciledTransactions (handlePostToCashbook sampleUUID txsToPost oneRowState)
     = reconciledTransactions oneRowState
  /\ statementTransactions (handlePostToCashbook sampleUUID txsToPost oneRowState)
     = statementTransactions oneRowState.
Proof.
  intros txsToPost.
  apply (handlePostToCashbook_all_posted sampleUUID txsToPost oneRowState).
  now repeat constructor.
Defined.

Section PostingTwice.

Variable randomUUID : nat -> string.

Lemma handlePostToCashbook_guard txsToPost s :
  txsToPost = [] \/ selectedBankAccountId s = "" ->
  handlePostToCashbook randomUUID txsToPost s = s.
Proof.
  intros H. unfold handlePostToCashbook.
  destruct txsToPost as [|tx rest]; [reflexivity|]. cbn [length Nat.eqb orb].
  destruct H as [H|H]; [discriminate H|].
  now rewrite (proj2 (truthy_str_false _) H).
Qed.

Lemma handlePostToCashbook_no_suspense txsToPost s :
  txsToPost <> [] -> selectedBankAccountId s <> "" ->
  find (fun a => Js.str_eq (Account.code a) UNCATEGORIZED_CODE) (accounts s) = None ->
  handlePostToCashbook randomUUID txsToPost s
  = mkApp (statementTransactions s) (accounts s) (journalEntries s)
      (reconciledTransactions s) (activePeriod s) (selectedBankAccountId s)
      (selectedTx s) (journalLinkedTx s) (editingJournal s) (isJournalModalOpen s)
      (isAiJournalModalOpen s) (Some "Uncategorized suspense account not found!")
      (uuidsDrawn s).
Proof.
  intros Htxs Hbank Hfind. unfold handlePostToCashbook.
  destruct txsToPost as [|tx rest]; [contradiction|]. cbn [length Nat.eqb orb].
  destruct (Js.truthy_str (selectedBankAccountId s)) eqn:Hb.
  2:{ apply truthy_str_false in Hb. contradiction. }
  cbn [negb]. now rewrite Hfind.
Qed.

(** After "Post Selected", every row of the selection is posted. *)
Lemma selection_posted_after (ids : gset string) (rows : list Transaction.t) :
  let selected := List.filter (fun tx => bool_decide (Transaction.id tx ∈ ids)) rows in
  Forall (fun tx => Transaction.is_posted tx = true)
    (List.filter (fun tx => bool_decide (Transaction.id tx ∈ ids))
       (markStatus (list_to_set (map Transaction.id (notYetPosted selected))) posted rows)).
Proof.
  intros selected. apply Forall_forall. intros st' Hin.
  apply elem_of_List_filter in Hin as [Hin Hsel].
  apply bool_decide_eq_true in Hsel.
  apply markStatus_elem_of in Hin as (st & Hst & Hid & Hyes & Hno).
  destruct (decide (Transaction.id st
                    ∈ (list_to_set (map Transaction.id (notYetPosted selected))
                       : gset string))) as [Hp|Hp].
  - now rewrite (Hyes Hp).
  - rewrite (Hno Hp). destruct (Transaction.is_posted st) eqn:E; [reflexivity|].
    exfalso. apply Hp. apply elem_of_list_to_set, list_elem_of_fmap.
    exists st. split; [reflexivity|].
    apply elem_of_List_filter. split; [|now rewrite E].
    apply elem_of_List_filter. split; [exact Hst|].
    apply bool_decide_eq_true. now rewrite <- Hid.
Qed.

(** X23. "Post Selected" twice on the same selection is "Post Selected"
    once: the second call finds every row of the selection posted and leaves
    the state as it is. *)
Lemma postSelected_twice (ids : gset string) (s : AppState) :
  postSelected randomUUID ids (postSelected randomUUID ids s)
  = postSelected randomUUID ids s.
Proof.
  unfold postSelected at 2 3.
  set (selected := List.filter _ (statementTransactions s)).
  destruct (decide (selected = [] \/ selectedBankAccountId s = "")) as [Hg|Hg].
  { rewrite (handlePostToCashbook_guard _ _ Hg). unfold postSelected.
    fold selected. now apply handlePostToCashbook_guard. }
  assert (Hsel : selected <> []) by tauto.
  assert (Hbank : selectedBankAccountId s <> "") by tauto.
  destruct (find (fun a => Js.str_eq (Account.code a) UNCATEGORIZED_CODE) (accounts s))
    as [unc|] eqn:Hfind.
  - rewrite (handlePostToCashbook_posts _ _ _ unc Hsel Hbank Hfind).
    unfold postSelected. cbn [statementTransactions].
    pose proof (selection_posted_after ids (statementTransactions s)) as Hall.
    cbv zeta in Hall. fold selected in Hall.
    set (again := List.filter _ (markStatus _ posted (statementTransactions s))) in *.
    destruct (decide (again = [])) as [Hnil|Hnil].
    { rewrite Hnil. reflexivity. }
    rewrite (handlePostToCashbook_posts _ _ _ unc Hnil); [|exact Hbank|exact Hfind].
    rewrite (notYetPosted_all_posted _ Hall).
    cbn [map list_to_set imap length Nat.mul
         statementTransactions accounts journalEntries reconciledTransactions
         activePeriod selectedBankAccountId journalLinkedTx editingJournal
         isJournalModalOpen isAiJournalModalOpen error uuidsDrawn].
    rewrite !app_nil_r, markStatus_empty, Nat.add_0_r. reflexivity.
  - rewrite (handlePostToCashbook_no_suspense _ _ Hsel Hbank Hfind).
    unfold postSelected. cbn [statementTransactions]. fold selected.
    now rewrite handlePostToCashbook_no_suspense.
Qed.

End PostingTwice.

(** ** Bulk posting without a suspense account *)

Lemma find_suspense_none accts :
  (forall a, a ∈ accts -> Account.code a <> UNCATEGORIZED_CODE) ->
  find (fun a => Js.str_eq (Account.code a) UNCATEGORIZED_CODE) accts = None.
Proof.
  intros H. destruct (find _ accts) as [a|] eqn:E; [|reflexivity].
  apply find_some in E as [Hin He]. apply str_eq_true in He.
  apply list_elem_of_In in Hin. now destruct (H a Hin).
Qed.

(** C9 as the code has it. With no account of code "0000", bulk posting
    leaves the journal entries, the link records and the statement
    transactions as they were; it sets the error message when it was given at
    least one transaction and a bank account is selected, and otherwise
    returns before the check, with the state unchanged and no message. *)
Theorem C9_missing_suspense_account_is_noop
    (randomUUID : nat -> string) (txsToPost : list Transaction.t) (s : AppState) :
  (forall a, a ∈ accounts s -> Account.code a <> UNCATEGORIZED_CODE) ->
  journalEntries (handlePostToCashbook randomUUID txsToPost s) = journalEntries s
  /\ reconciledTransactions (handlePostToCashbook randomUUID txsToPost s)
     = reconciledTransactions s
  /\ statementTransactions (handlePostToCashbook randomUUID txsToPost s)
     = statementTransactions s
  /\ (txsToPost <> [] -> selectedBankAccountId s <> "" ->
      error (handlePostToCashbook randomUUID txsToPost s)
      = Some "Uncategorized suspense account not found!")
  /\ (txsToPost = [] \/ selectedBankAccountId s = "" ->
      handlePostToCashbook randomUUID txsToPost s = s).
Proof.
  intros Hno. unfold handlePostToCashbook. rewrite (find_suspense_none _ Hno).
  destruct txsToPost as [|tx rest]; cbn [length Nat.eqb orb].
  - repeat split; try reflexivity. intros H. now destruct H.
  - destruct (Js.truthy_str (selectedBankAccountId s)) eqn:Hb; cbn [negb].
    + repeat split. intros [H|H]; [discriminate H|].
      apply truthy_str_false in H. congruence.
    + repeat split. intros _ H. apply truthy_str_false in Hb. now destruct H.
Qed.

Lemma C9_missing_suspense_account_is_noop_witness :
  let s := mkApp [sampleTx] [] [] [] "2024-07" "acc-1" ∅ None None false false None 0 in
  journalEntries (handlePostToCashbook sampleUUID [sampleTx] s) = []
  /\ error (handlePostToCashbook sampleUUID [sampleTx] s)
     = Some "Uncategorized suspense account not found!".
Proof.
  intros s.
  destruct (C9_missing_suspense_account_is_noop sampleUUID [sampleTx] s)
    as (H1 & _ & _ & H4 & _).
  - intros a Ha. inversion Ha.
  - split; [exact H1|]. apply H4; discriminate.
Defined.

(** C9 as written fails: with no account of code "0000" and no bank
    account selected (or no transaction given), bulk posting returns without
    reporting any error. *)
Lemma C9_counterexample :
  let s := mkApp [sampleTx] [] [] [] "2024-07" "" ∅ None None false false None 0 in
  (forall a, a ∈ accounts s -> Account.code a <> UNCATEGORIZED_CODE)
  /\ error (handlePostToCashbook sampleUUID [sampleTx] s) = None
  /\ error (handlePostToCashbook sampleUUID []
              (mkApp [sampleTx] [] [] [] "2024-07" "acc-1" ∅ None None false false None 0))
     = None
  /\ ~ (forall randomUUID txsToPost st,
          (forall a, a ∈ accounts st -> Account.code a <> UNCATEGORIZED_CODE) ->
          error (handlePostToCashbook randomUUID txsToPost st)
          = Some "Uncategorized suspense account not found!").
Proof.
  cbv zeta. split; [intros a Ha; inversion Ha|]. split; [reflexivity|].
  split; [reflexivity|]. intros H.
  specialize (H sampleUUID [sampleTx]
                (mkApp [sampleTx] [] [] [] "2024-07" "" ∅ None None false false None 0)).
  cbn in H. discriminate H. intros a Ha. inversion Ha.
Qed.

(** ** Bulk posting a statement that repeats a row *)

(** C5, the code on a statement that lists one payment twice. Both rows are
    unposted when "Post Selected" runs, so the batch creates two entries and
    two link records of the one transaction id; posting the same selection
    again changes nothing. *)
Theorem C5_duplicate_rows_are_posted_twice (randomUUID : nat -> string) :
  let T := Transaction.id sampleTx in
  let s0 := handleSelectTx T twoRowsState in
  let s1 := postSelected randomUUID (selectedTx s0) s0 in
  let s2 := postSelected randomUUID {[T]} s1 in
  map JournalEntry.id (journalEntries s1) = [randomUUID 0; randomUUID 3]
  /\ map ReconciledTransaction.id (reconciledTransactions s1) = [T; T]
  /\ map ReconciledTransaction.journalEntryId (reconciledTransactions s1)
     = [randomUUID 0; randomUUID 3]
  /\ linkCount T s1 = 2
  /\ journalEntries s2 = journalEntries s1
  /\ reconciledTransactions s2 = reconciledTransactions s1
  /\ statementTransactions s2 = statementTransactions s1.
Proof. vm_compute. repeat split; reflexivity. Qed.

(** ** Transaction ids *)

Section StatementFacts.

Variable numberToString : Js.number -> string.
Variable parseFloat : string -> Js.number.
Variable dateToISOString : Js.any -> option string.
Variable nowISOString : string.
Variable jsonStringify : Js.any -> option string.

Abbreviation process := (processAndSetTransactions numberToString parseFloat dateToISOString
                       nowISOString jsonStringify).

(** A processed row is determined by its four sanitized fields and the set
    of reconciled ids. *)
Lemma processed_row parsedTxs s t :
  t ∈ statementTransactions (process parsedTxs s) ->
  t = Transaction.mk
        (transactionId numberToString (Transaction.date t) (Transaction.description t)
           (Transaction.amount t) (Transaction.type t))
        (Transaction.date t) (Transaction.description t) (Transaction.amount t)
        (Transaction.type t)
        (Some (if bool_decide
                    (transactionId numberToString (Transaction.date t)
                       (Transaction.description t) (Transaction.amount t)
                       (Transaction.type t)
                     ∈ (list_to_set (map ReconciledTransaction.id (reconciledTransactions s))
                        : gset string))
               then posted else unposted))
        None.
Proof.
  unfold processAndSetTransactions, newTransactions. cbn [statementTransactions].
  rewrite elem_of_List_filter, list_elem_of_fmap. intros [(p & -> & _) _].
  reflexivity.
Qed.

End StatementFacts.

(** The ledger actions change the statement rows one by one, each row by a
    function of the row alone. *)
Lemma perform_maps_rows randomUUID (a : Action) (s : AppState) :
  exists f, statementTransactions (perform randomUUID a s) = map f (statementTransactions s).
Proof.
  destruct a as [id|tx e|entry|entry txs|confirmed id|txs]; cbn [perform].
  - exists (fun st => st). now rewrite map_id.
  - exists (fun st => st). now rewrite map_id.
  - unfold handleSaveJournal.
    destruct (existsb _ (journalEntries s)).
    { exists (fun st => st). now rewrite map_id. }
    destruct (journalLinkedTx s) as [linkedTx|].
    2:{ exists (fun st => st). now rewrite map_id. }
    destruct (negb _).
    + eexists. reflexivity.
    + exists (fun st => st). now rewrite map_id.
  - eexists. reflexivity.
  - destruct confirmed.
    + rewrite handleDeleteJournal_confirmed. eexists. reflexivity.
    + exists (fun st => st). now rewrite map_id.
  - unfold handlePostToCashbook.
    destruct (_ || _). { exists (fun st => st). now rewrite map_id. }
    destruct (find _ _). 2:{ exists (fun st => st). now rewrite map_id. }
    destruct (postEach _ _ _ _ _) as [[js rs] n']. eexists. reflexivity.
Qed.

Lemma performAll_maps_rows randomUUID (actions : list Action) (s : AppState) :
  exists f,
    statementTransactions (performAll randomUUID actions s)
    = map f (statementTransactions s).
Proof.
  unfold performAll. revert s.
  induction actions as [|a actions IH]; intros s; cbn [fold_left].
  - exists (fun st => st). now rewrite map_id.
  - destruct (IH (perform randomUUID a s)) as [g Hg].
    destruct (perform_maps_rows randomUUID a s) as [f Hf].
    exists (fun st => g (f st)). rewrite Hg, Hf. apply map_map.
Qed.

(** C10. Every transaction that statement processing yields has the id
    [date-description-amount-type] of its own sanitized fields; two of them
    with the same four fields have the same id and are the same record; and
    two rows holding the same record hold the same record again after any
    sequence of ledger actions (selection, opening the builder, saving,
    AI save, deletion, bulk posting). *)
Theorem C10_id_is_the_content_key
    (numberToString : Js.number -> string) (parseFloat : string -> Js.number)
    (dateToISOString : Js.any -> option string) (nowISOString : string)
    (jsonStringify : Js.any -> option string) (randomUUID : nat -> string)
    (parsedTxs : list ParsedTx.t) (s : AppState) :
  let s' := processAndSetTransactions numberToString parseFloat dateToISOString
              nowISOString jsonStringify parsedTxs s in
  (forall t, t ∈ statementTransactions s' ->
     Transaction.id t
     = Transaction.date t +:+ "-" +:+ Transaction.description t +:+ "-"
       +:+ numberToString (Transaction.amount t) +:+ "-"
       +:+ TxType_str (Transaction.type t))
  /\ (forall t1 t2,
        t1 ∈ statementTransactions s' -> t2 ∈ statementTransactions s' ->
        Transaction.date t1 = Transaction.date t2 ->
        Transaction.description t1 = Transaction.description t2 ->
        Transaction.amount t1 = Transaction.amount t2 ->
        Transaction.type t1 = Transaction.type t2 ->
        Transaction.id t1 = Transaction.id t2 /\ t1 = t2)
  /\ (forall actions i j t,
        statementTransactions s' !! i = Some t ->
        statementTransactions s' !! j = Some t ->
        exists t',
          statementTransactions (performAll randomUUID actions s') !! i = Some t'
          /\ statementTransactions (performAll randomUUID actions s') !! j = Some t').
Proof.
  intros s'. split; [|split].
  - intros t Ht. apply processed_row in Ht. rewrite Ht at 1. reflexivity.
  - intros t1 t2 H1 H2 Hd He Ha Hty.
    apply processed_row in H1, H2.
    assert (E : t1 = t2).
    { rewrite H1, H2, Hd, He, Ha, Hty. reflexivity. }
    now rewrite E.
  - intros actions i j t Hi Hj.
    destruct (performAll_maps_rows randomUUID actions s') as [f Hf].
    exists (f t). rewrite Hf, !list_lookup_fmap, Hi, Hj. now split.
Qed.

(** A statement that lists the payment of the sample twice: the two rows
    come out as one record, twice. *)
Lemma C10_id_is_the_content_key_witness :
  let s' := processAndSetTransactions sampleNumberToString sampleParseFloat
              (fun _ => None) "2024-07-05T10:00:00.000Z" (fun _ => None)
              [sampleParsedTx; sampleParsedTx] (initialState "2024-07") in
  statementTransactions s' = [sampleTx; sampleTx]
  /\ forall t1 t2,
       t1 ∈ statementTransactions s' -> t2 ∈ statementTransactions s' ->
       Transaction.id t1 = Transaction.id t2 /\ t1 = t2.
Proof.
  intros s'.
  assert (E : statementTransactions s' = [sampleTx; sampleTx])
    by (vm_compute; reflexivity).
  split; [exact E|].
  destruct (C10_id_is_the_content_key sampleNumberToString sampleParseFloat
              (fun _ => None) "2024-07-05T10:00:00.000Z" (fun _ => None) sampleUUID
              [sampleParsedTx; sampleParsedTx] (initialState "2024-07"))
    as (_ & H & _).
  intros t1 t2 H1 H2. apply (H t1 t2 H1 H2); fold s' in H1, H2; rewrite E in H1, H2;
    apply elem_of_cons in H1 as [->|H1];
    apply elem_of_cons in H2 as [->|H2];
    try apply list_elem_of_singleton in H1 as ->;
    try apply list_elem_of_singleton in H2 as ->;
    reflexivity.
Defined.

(** ** What the handlers keep when every transaction id has one link at most *)

Lemma NoDup_map_inj {A B} (f : A -> B) (l : list A) (x y : A) :
  NoDup (map f l) -> x ∈ l -> y ∈ l -> f x = f y -> x = y.
Proof.
  induction l as [|a l IH]; intros Hnd Hx Hy Hf; [inversion Hx|].
  cbn [map] in Hnd. apply NoDup_cons in Hnd as [Hna Hnd].
  apply elem_of_cons in Hx as [->|Hx]; apply elem_of_cons in Hy as [->|Hy].
  - reflexivity.
  - exfalso. apply Hna. rewrite Hf. apply list_elem_of_fmap. now exists y.
  - exfalso. apply Hna. rewrite <- Hf. apply list_elem_of_fmap. now exists x.
  - now apply IH.
Qed.

Lemma with_status_posted v st :
  Transaction.is_posted (Transaction.with_reconciliationStatus v st)
  = match v with posted => true | unposted => false end.
Proof. now destruct v. Qed.

(** New links for the ids [P], and the rows of those ids marked posted. *)
Lemma statusAgrees_add_links s s' newLinks :
  statementTransactions s'
  = markStatus (list_to_set (map ReconciledTransaction.id newLinks)) posted
      (statementTransactions s) ->
  reconciledTransactions s' = reconciledTransactions s ++ newLinks ->
  statusAgrees s -> statusAgrees s'.
Proof.
  intros Hst Hl Hag st' Hin. rewrite Hst in Hin.
  apply markStatus_elem_of in Hin as (st & Hin & Hid & Hyes & Hno).
  unfold hasLink. rewrite Hl, Hid. setoid_rewrite elem_of_app.
  destruct (decide (Transaction.id st
                    ∈ (list_to_set (map ReconciledTransaction.id newLinks)
                       : gset string))) as [Hp|Hp].
  - rewrite (Hyes Hp). split; [|reflexivity]. intros _.
    apply elem_of_list_to_set, list_elem_of_fmap in Hp as (rt & Hrt & Hin').
    exists rt. split; [now right | now symmetry].
  - rewrite (Hno Hp). rewrite (Hag st Hin). unfold hasLink. split.
    + intros (rt & Hrt & He). exists rt. split; [now left | exact He].
    + intros (rt & [Hrt|Hrt] & He); [now exists rt|].
      exfalso. apply Hp. apply elem_of_list_to_set, list_elem_of_fmap.
      now exists rt.
Qed.

Lemma handleSaveJournal_statusAgrees entry s :
  statusAgrees s -> statusAgrees (handleSaveJournal entry s).
Proof.
  intros Hag. unfold handleSaveJournal.
  destruct (existsb _ (journalEntries s)); [exact Hag|].
  destruct (journalLinkedTx s) as [linkedTx|]; [|exact Hag].
  destruct (negb _); [|exact Hag].
  eapply (statusAgrees_add_links s _ [newRecon s linkedTx (JournalEntry.id entry)]);
    [|reflexivity|exact Hag].
  cbn [statementTransactions]. unfold markStatus. apply map_ext. intros st.
  unfold Js.str_eq.
  rewrite (bool_decide_ext (Transaction.id st = Transaction.id linkedTx)
             (Transaction.id st
              ∈ (list_to_set
                   (map ReconciledTransaction.id
                      [newRecon s linkedTx (JournalEntry.id entry)]) : gset string)));
    [reflexivity|].
  cbn [map list_to_set newRecon ReconciledTransaction.id].
  rewrite elem_of_union, elem_of_singleton. split; [now left|].
  intros [H|H]; [exact H | now apply not_elem_of_empty in H].
Qed.

Lemma handleSaveAiJournal_statusAgrees entry sourceTxs s :
  statusAgrees s -> statusAgrees (handleSaveAiJournal entry sourceTxs s).
Proof.
  intros Hag.
  eapply (statusAgrees_add_links s _
            (map (fun tx => newRecon s tx (JournalEntry.id entry)) sourceTxs));
    [|reflexivity|exact Hag].
  cbn [handleSaveAiJournal statementTransactions].
  now rewrite map_map.
Qed.

Lemma handlePostToCashbook_statusAgrees randomUUID txsToPost s :
  statusAgrees s -> statusAgrees (handlePostToCashbook randomUUID txsToPost s).
Proof.
  intros Hag. unfold handlePostToCashbook.
  destruct (_ || _); [exact Hag|].
  destruct (find _ _) as [unc|]; [|exact Hag].
  destruct (postEach _ _ _ _ _) as [[js rs] n'].
  now apply (statusAgrees_add_links s _ rs).
Qed.

(** Deletion keeps status and links in agreement when no transaction id has
    two links. *)
Lemma handleDeleteJournal_statusAgrees confirmed id s :
  uniqueLinks s -> statusAgrees s -> statusAgrees (handleDeleteJournal confirmed id s).
Proof.
  intros Hu Hag. destruct confirmed; [|exact Hag].
  rewrite handleDeleteJournal_confirmed. intros st' Hin.
  cbn [statementTransactions] in Hin.
  apply markStatus_elem_of in Hin as (st & Hin & Hid & Hyes & Hno).
  unfold hasLink. cbn [reconciledTransactions]. rewrite Hid.
  setoid_rewrite elem_of_List_filter.
  destruct (decide (Transaction.id st ∈ linkedIds id s)) as [Hp|Hp].
  - rewrite (Hyes Hp), with_status_posted. split; [discriminate|].
    intros (rt' & [Hrt' Hje'] & He'). exfalso.
    apply elem_of_linkedIds in Hp as (rt & Hrt & Hje & He).
    assert (rt = rt').
    { apply (NoDup_map_inj ReconciledTransaction.id (reconciledTransactions s));
        [exact Hu|exact Hrt|exact Hrt'|congruence]. }
    subst rt'. apply negb_true_iff, str_eq_false in Hje'. contradiction.
  - rewrite (Hno Hp), (Hag st Hin). unfold hasLink. split.
    + intros (rt & Hrt & He). exists rt. split; [|exact He]. split; [exact Hrt|].
      apply negb_true_iff, str_eq_false. intros Hje. apply Hp.
      apply elem_of_linkedIds. now exists rt.
    + intros (rt & [Hrt _] & He). now exists rt.
Qed.

Lemma oneRowState_uniqueLinks : uniqueLinks oneRowState.
Proof. apply NoDup_nil_2. Qed.

Lemma oneRowState_statusAgrees : statusAgrees oneRowState.
Proof.
  intros tx Htx. apply list_elem_of_singleton in Htx. subst tx. split.
  - discriminate.
  - intros (rt & Hrt & _). inversion Hrt.
Qed.

(** X24. Every action keeps status and links in agreement from a state where
    no transaction id has two links. *)
Lemma perform_statusAgrees randomUUID (a : Action) (s : AppState) :
  uniqueLinks s -> statusAgrees s -> statusAgrees (perform randomUUID a s).
Proof.
  intros Hu Hag. destruct a; cbn [perform].
  - exact Hag.
  - exact Hag.
  - now apply handleSaveJournal_statusAgrees.
  - now apply handleSaveAiJournal_statusAgrees.
  - now apply handleDeleteJournal_statusAgrees.
  - now apply handlePostToCashbook_statusAgrees.
Qed.

Lemma perform_statusAgrees_witness :
  statusAgrees (perform sampleUUID (PostToCashbook [sampleTx]) oneRowState).
Proof.
  apply (perform_statusAgrees sampleUUID (PostToCashbook [sampleTx]) oneRowState).
  - exact oneRowState_uniqueLinks.
  - exact oneRowState_statusAgrees.
Defined.

(** X25. The guard of [handleSaveJournal]: it never adds a link for a
    transaction id that has one. *)
Lemma handleSaveJournal_uniqueLinks entry s :
  uniqueLinks s -> uniqueLinks (handleSaveJournal entry s).
Proof.
  unfold uniqueLinks, handleSaveJournal. intros Hu.
  destruct (existsb _ (journalEntries s)); [exact Hu|].
  destruct (journalLinkedTx s) as [linkedTx|]; [|exact Hu].
  destruct (existsb _ (reconciledTransactions s)) eqn:Hex; cbn [negb]; [exact Hu|].
  cbn [reconciledTransactions]. rewrite map_app. apply NoDup_app.
  split; [exact Hu|]. split; [|apply NoDup_singleton].
  intros T HT Hnew. cbn in Hnew. apply list_elem_of_singleton in Hnew. subst T.
  apply list_elem_of_fmap in HT as (rt & He & Hrt).
  assert (Hyes : existsb
                   (fun rt => Js.str_eq (ReconciledTransaction.id rt)
                                (Transaction.id linkedTx))
                   (reconciledTransactions s) = true).
  { apply existsb_elem_of. exists rt. split; [exact Hrt|]. now apply str_eq_true. }
  congruence.
Qed.

Lemma handleSaveJournal_uniqueLinks_witness :
  uniqueLinks
    (handleSaveJournal (sampleEntry "je-1")
       (handleOpenJournalModal (Some sampleTx) None oneRowState)).
Proof.
  apply (handleSaveJournal_uniqueLinks (sampleEntry "je-1")
           (handleOpenJournalModal (Some sampleTx) None oneRowState)).
  exact oneRowState_uniqueLinks.
Defined.

(** X26. Deleting a journal entry keeps one link at most for each
    transaction id. *)
Lemma handleDeleteJournal_uniqueLinks confirmed id s :
  uniqueLinks s -> uniqueLinks (handleDeleteJournal confirmed id s).
Proof.
  unfold uniqueLinks. intros Hu. destruct confirmed; [|exact Hu].
  rewrite handleDeleteJournal_confirmed. cbn [reconciledTransactions].
  induction (reconciledTransactions s) as [|rt l IH]; [constructor|].
  cbn [map] in Hu. apply NoDup_cons in Hu as [Hna Hu].
  cbn [List.filter]. destruct (negb _); [|now apply IH].
  cbn [map]. apply NoDup_cons. split; [|now apply IH].
  intros Hin. apply Hna. apply list_elem_of_fmap in Hin as (rt' & He & Hin).
  apply elem_of_List_filter in Hin as [Hin _]. apply list_elem_of_fmap. now exists rt'.
Qed.

(** In [linkedState] each of the two payments is linked to its own entry. *)
Lemma linkedState_uniqueLinks : uniqueLinks linkedState.
Proof. apply (bool_decide_unpack _). vm_compute. exact I. Qed.

(** Deleting the entry of the first payment removes its link and keeps the
    link of the second. *)
Lemma handleDeleteJournal_uniqueLinks_witness :
  map JournalEntry.id (journalEntries linkedState) = ["je-1"; "je-2"]
  /\ map ReconciledTransaction.id (reconciledTransactions linkedState)
     = [Transaction.id sampleTx; Transaction.id otherTx]
  /\ map ReconciledTransaction.id
       (reconciledTransactions (handleDeleteJournal true "je-1" linkedState))
     = [Transaction.id otherTx]
  /\ uniqueLinks (handleDeleteJournal true "je-1" linkedState).
Proof.
  split; [vm_compute; reflexivity|]. split; [vm_compute; reflexivity|].
  split; [vm_compute; reflexivity|].
  apply (handleDeleteJournal_uniqueLinks true "je-1" linkedState).
  exact linkedState_uniqueLinks.
Defined.

(** Bulk posting keeps one link per id when the transactions it does not
    skip have ids that differ from one another and from the ids already
    linked. *)
Lemma handlePostToCashbook_uniqueLinks randomUUID txsToPost s :
  uniqueLinks s ->
  NoDup (map Transaction.id (notYetPosted txsToPost)) ->
  (forall tx, tx ∈ notYetPosted txsToPost -> ~ hasLink (Transaction.id tx) s) ->
  uniqueLinks (handlePostToCashbook randomUUID txsToPost s).
Proof.
  unfold uniqueLinks. intros Hu Hnd Hfresh. unfold handlePostToCashbook.
  destruct (_ || _); [exact Hu|].
  destruct (find _ _) as [unc|]; [|exact Hu].
  pose proof (postEach_link_ids randomUUID s unc txsToPost (uuidsDrawn s)) as Hids.
  destruct (postEach _ _ _ _ _) as [[js rs] n']. cbn [fst snd] in Hids.
  cbn [reconciledTransactions]. rewrite map_app, Hids. apply NoDup_app.
  split; [exact Hu|]. split; [|exact Hnd].
  intros T HT Hnew.
  apply list_elem_of_fmap in Hnew as (tx & -> & Htx).
  apply (Hfresh tx Htx).
  apply list_elem_of_fmap in HT as (rt & He & Hrt).
  exists rt. split; [exact Hrt | now symmetry].
Qed.

Section StatementAgreement.

Variable numberToString : Js.number -> string.
Variable parseFloat : string -> Js.number.
Variable dateToISOString : Js.any -> option string.
Variable nowISOString : string.
Variable jsonStringify : Js.any -> option string.

(** X27. Statement processing sets every status from the link records:
    a row is posted exactly when a link carries its id. *)
Lemma processAndSetTransactions_statusAgrees parsedTxs s :
  statusAgrees
    (processAndSetTransactions numberToString parseFloat dateToISOString nowISOString
       jsonStringify parsedTxs s).
Proof.
  intros t Ht. pose proof (processed_row _ _ _ _ _ _ _ _ Ht) as E.
  unfold hasLink. cbn [processAndSetTransactions reconciledTransactions].
  assert (Hid : Transaction.id t
                = transactionId numberToString (Transaction.date t)
                    (Transaction.description t) (Transaction.amount t)
                    (Transaction.type t)).
  { rewrite E at 1. reflexivity. }
  assert (Hp : Transaction.is_posted t
               = bool_decide
                   (Transaction.id t
                    ∈ (list_to_set
                         (map ReconciledTransaction.id (reconciledTransactions s))
                       : gset string))).
  { rewrite E at 1. rewrite <- Hid. unfold Transaction.is_posted.
    cbn [Transaction.reconciliationStatus].
    match goal with |- context [bool_decide ?P] => now destruct (bool_decide P) end. }
  rewrite Hp, bool_decide_eq_true, elem_of_list_to_set, list_elem_of_fmap.
  split; intros (rt & H1 & H2); exists rt; now split.
Qed.

End StatementAgreement.

(** Rows kept by a filter have ids that differ when all rows do. *)
Lemma filtered_rows_distinct (keep : Transaction.t -> bool) (rows : list Transaction.t) :
  NoDup (map Transaction.id rows) ->
  NoDup (map Transaction.id (List.filter keep rows)).
Proof.
  induction rows as [|tx rows IH]; intros Hnd; [constructor|].
  cbn [map] in Hnd. apply NoDup_cons in Hnd as [Hfresh Hnd].
  cbn [List.filter]. destruct (keep tx); [|now apply IH].
  cbn [map]. apply NoDup_cons. split; [|now apply IH].
  intros Hin. apply Hfresh. apply list_elem_of_fmap in Hin as (x & He & Hin).
  apply elem_of_List_filter in Hin as [Hin _]. apply list_elem_of_fmap. now exists x.
Qed.

(** X28. On a statement whose rows have ids that differ from one another,
    "Post Selected" keeps one link per transaction id and keeps status and
    links in agreement. *)
Lemma postSelected_keeps_invariants randomUUID (ids : gset string) (s : AppState) :
  NoDup (map Transaction.id (statementTransactions s)) ->
  uniqueLinks s -> statusAgrees s ->
  uniqueLinks (postSelected randomUUID ids s)
  /\ statusAgrees (postSelected randomUUID ids s).
Proof.
  intros Hnd Hu Hag. unfold postSelected. split.
  - apply handlePostToCashbook_uniqueLinks; [exact Hu| |].
    + unfold notYetPosted. now do 2 apply filtered_rows_distinct.
    + intros tx Htx Hlink. unfold notYetPosted in Htx.
      apply elem_of_List_filter in Htx as [Htx Hnp].
      apply elem_of_List_filter in Htx as [Htx _].
      apply (Hag tx Htx) in Hlink. rewrite Hlink in Hnp. discriminate Hnp.
  - now apply handlePostToCashbook_statusAgrees.
Qed.

Lemma postSelected_keeps_invariants_witness :
  uniqueLinks (postSelected sampleUUID {[Transaction.id sampleTx]} oneRowState)
  /\ statusAgrees (postSelected sampleUUID {[Transaction.id sampleTx]} oneRowState).
Proof.
  apply (postSelected_keeps_invariants sampleUUID {[Transaction.id sampleTx]} oneRowState).
  - apply NoDup_singleton.
  - exact oneRowState_uniqueLinks.
  - exact oneRowState_statusAgrees.
Defined.

(** ** One transaction, two links *)

(** C2, the code on a trace of the user interface. The row is ticked, its
    journal is created by hand (first link), the tick is still there, and
    the AI journal saved for the ticked rows adds a second link record of
    the same transaction id: [handleSaveAiJournal] does not look at the
    links that exist. *)
Theorem C2_ai_save_links_a_linked_transaction :
  let T := Transaction.id sampleTx in
  let s1 := performAll sampleUUID
              [ SelectTx T; OpenJournalModal (Some sampleTx) None;
                SaveJournal (sampleEntry "je-1") ]
              oneRowState in
  let sourceTxs :=
    List.filter (fun tx => bool_decide (Transaction.id tx ∈ selectedTx s1))
      (statementTransactions s1) in
  let s2 := perform sampleUUID (SaveAiJournal (sampleEntry "je-2") sourceTxs) s1 in
  linkCount T s1 = 1
  /\ sourceTxs = [Transaction.with_reconciliationStatus posted sampleTx]
  /\ AiJournalEntryModal.handleSave noNumberToString (Some (sampleEntry "je-2")) sourceTxs
     = OnSave (sampleEntry "je-2", sourceTxs)
  /\ linkCount T s2 = 2
  /\ map ReconciledTransaction.journalEntryId (linksOf T s2) = ["je-1"; "je-2"].
Proof. vm_compute. repeat split; reflexivity. Qed.

(** C3, the code on the same trace, one step further. Deleting the second
    journal sets the transaction back to unposted while the link record of
    the first journal is still there: status and links disagree. *)
Theorem C3_status_and_links_disagree :
  let T := Transaction.id sampleTx in
  let s3 := performAll sampleUUID
              [ SelectTx T; OpenJournalModal (Some sampleTx) None;
                SaveJournal (sampleEntry "je-1");
                SaveAiJournal (sampleEntry "je-2")
                  [Transaction.with_reconciliationStatus posted sampleTx];
                DeleteJournal true "je-2" ]
              oneRowState in
  statementTransactions s3 = [sampleTx]
  /\ Transaction.is_posted sampleTx = false
  /\ map ReconciledTransaction.journalEntryId (linksOf T s3) = ["je-1"]
  /\ ~ statusAgrees s3.
Proof.
  cbv zeta. split; [vm_compute; reflexivity|]. split; [reflexivity|].
  split; [vm_compute; reflexivity|].
  intros H. specialize (H sampleTx).
  assert (Hp : Transaction.is_posted sampleTx = true).
  { apply H.
    - vm_compute. constructor.
    - eexists. split; [vm_compute; constructor | reflexivity]. }
  discriminate Hp.
Qed.

(** * Further properties of the code *)

(** ** Validation of the chart of accounts *)

Section ValidationFacts.

Variable toLowerCase : string -> string.

Lemma truthy_str_true s : Js.truthy_str s = true <-> s <> "".
Proof.
  unfold Js.truthy_str. rewrite negb_true_iff. apply str_eq_false.
Qed.

Lemma accountErrors_none seen acc :
  FieldErrors.nonEmpty (accountErrors toLowerCase seen acc) = false
  <-> filledIn acc /\ codeKey toLowerCase acc ∉ seen.
Proof.
  unfold accountErrors, filledIn, FieldErrors.nonEmpty.
  cbn [FieldErrors.code FieldErrors.name FieldErrors.type].
  rewrite <- !truthy_str_true.
  destruct (Js.truthy_str (Js.trim (Account.code acc)));
    destruct (Js.truthy_str (Js.trim (Account.name acc)));
    destruct (Js.truthy_str (Js.trim (Account.type acc)));
    case_bool_decide; cbn [negb]; split; try discriminate; try tauto;
    intros [(? & ? & ?) ?]; try discriminate; tauto.
Qed.

Lemma validate_errors_stay accts errs seen :
  errs <> ∅ -> fst (fold_left (validateStep toLowerCase) accts (errs, seen)) <> ∅.
Proof.
  revert errs seen. induction accts as [|acc accts IH]; intros errs seen Hne; [exact Hne|].
  cbn [fold_left validateStep]. apply IH.
  destruct (FieldErrors.nonEmpty _); [|exact Hne]. apply insert_non_empty.
Qed.

Lemma validate_no_errors accts errs seen :
  fst (fold_left (validateStep toLowerCase) accts (errs, seen)) = ∅
  <-> errs = ∅
      /\ Forall filledIn accts
      /\ NoDup (map (codeKey toLowerCase) accts)
      /\ (forall k, k ∈ map (codeKey toLowerCase) accts -> k ∉ seen).
Proof.
  revert errs seen. induction accts as [|acc accts IH]; intros errs seen.
  - cbn. split.
    + intros ->. split; [reflexivity|]. split; [constructor|]. split; [constructor|].
      intros k Hk. inversion Hk.
    + now intros [-> _].
  - cbn [fold_left validateStep map].
    destruct (FieldErrors.nonEmpty (accountErrors toLowerCase seen acc)) eqn:Herr.
    + split.
      * intros H. exfalso. revert H. apply validate_errors_stay, insert_non_empty.
      * intros (_ & Hall & Hnd & Hfresh). exfalso.
        apply Forall_cons in Hall as [Hacc _].
        assert (Hn : FieldErrors.nonEmpty (accountErrors toLowerCase seen acc) = false).
        { apply accountErrors_none. split; [exact Hacc|]. apply Hfresh. now left. }
        congruence.
    + apply accountErrors_none in Herr as [Hacc Hfresh0].
      assert (Ht : Js.truthy_str (Js.trim (Account.code acc)) = true).
      { apply truthy_str_true. apply Hacc. }
      rewrite Ht, IH. rewrite Forall_cons, NoDup_cons. split.
      * intros (-> & Hall & Hnd & Hfresh).
        split; [reflexivity|]. split; [now split|]. split; [split; [|exact Hnd]|].
        -- intros Hin. apply (Hfresh _ Hin). apply elem_of_union. right.
           now apply elem_of_singleton.
        -- intros k Hk. apply elem_of_cons in Hk as [->|Hk]; [exact Hfresh0|].
           intros Hs. apply (Hfresh _ Hk). apply elem_of_union. now left.
      * intros (-> & [_ Hall] & [Hnin Hnd] & Hfresh).
        split; [reflexivity|]. split; [exact Hall|]. split; [exact Hnd|].
        intros k Hk Hs. apply elem_of_union in Hs as [Hs|Hs].
        -- apply (Hfresh k); [now right | exact Hs].
        -- apply elem_of_singleton in Hs. subst k. contradiction.
Qed.

(** X1. [validateAndSave] hands the accounts to [onSave] exactly when no
    code, name or type is blank and no two accounts have the same code once
    trimmed and put in lower case; otherwise it alerts and saves nothing. *)
Theorem validateAndSave_saves_iff (accts : list Account.t) :
  (snd (validateAndSave toLowerCase accts) = OnSave accts
   <-> Forall filledIn accts /\ NoDup (map (codeKey toLowerCase) accts))
  /\ (snd (validateAndSave toLowerCase accts) = OnSave accts
      \/ snd (validateAndSave toLowerCase accts)
         = Alert "Please fix the errors before saving.").
Proof.
  unfold validateAndSave, validationErrors. cbn [snd]. split.
  - case_bool_decide as He.
    + split; [|reflexivity]. intros _.
      apply validate_no_errors in He as (_ & Hall & Hnd & _). now split.
    + split; [discriminate|]. intros [Hall Hnd]. exfalso. apply He.
      apply validate_no_errors. split; [reflexivity|]. split; [exact Hall|].
      split; [exact Hnd|]. intros k _. apply not_elem_of_empty.
  - case_bool_decide; [now left | now right].
Qed.

End ValidationFacts.

(** ** Deleting an account *)

Lemma find_elem_of {A} (f : A -> bool) (l : list A) (x : A) :
  find f l = Some x -> x ∈ l /\ f x = true.
Proof. intros H. apply find_some in H as [Hin Hf]. now rewrite list_elem_of_In. Qed.

Lemma find_is_none {A} (f : A -> bool) (l : list A) :
  find f l = None -> forall x, x ∈ l -> f x = false.
Proof.
  intros H x Hx. apply list_elem_of_In in Hx. exact (find_none f l H x Hx).
Qed.

(** X2. When account ids are distinct, [handleDeleteAccount] never removes
    an account of code "0000": asked to delete it, it alerts and leaves the
    list as it is.  Asked to delete an id that no account of code "0000"
    has, it removes the accounts of that id and no other. *)
Theorem handleDeleteAccount_keeps_suspense
    (id : string) (accts : list Account.t) (suspense : Account.t) :
  NoDup (map Account.id accts) ->
  suspense ∈ accts ->
  Account.code suspense = UNCATEGORIZED_CODE ->
  suspense ∈ fst (handleDeleteAccount id accts)
  /\ (Account.id suspense = id ->
      handleDeleteAccount id accts
      = (accts,
         Some ("The '" +:+ Account.name suspense
               +:+ "' account is essential and cannot be deleted.")))
  /\ ((forall a, a ∈ accts -> Account.id a = id -> Account.code a <> UNCATEGORIZED_CODE) ->
      snd (handleDeleteAccount id accts) = None
      /\ forall a, a ∈ fst (handleDeleteAccount id accts)
                   <-> a ∈ accts /\ Account.id a <> id).
Proof.
  intros Hnd Hin Hcode.
  assert (Hfilter : forall a,
            a ∈ List.filter (fun acc => negb (Js.str_eq (Account.id acc) id)) accts
            <-> a ∈ accts /\ Account.id a <> id).
  { intros a. now rewrite elem_of_List_filter, negb_true_iff, str_eq_false. }
  unfold handleDeleteAccount.
  destruct (find _ accts) as [accToDelete|] eqn:Hfind.
  - apply find_elem_of in Hfind as [Hin' Hid']. apply str_eq_true in Hid'.
    destruct (Js.str_eq (Account.code accToDelete) UNCATEGORIZED_CODE) eqn:Hc.
    + apply str_eq_true in Hc. cbn [fst snd]. split; [exact Hin|]. split.
      * intros Hid.
        assert (accToDelete = suspense) as ->; [|reflexivity].
        apply (NoDup_map_inj Account.id accts); [exact Hnd|exact Hin'|exact Hin|congruence].
      * intros Hnone. exfalso. exact (Hnone accToDelete Hin' Hid' Hc).
    + apply str_eq_false in Hc. cbn [fst snd].
      assert (Hid : Account.id suspense <> id).
      { intros Hid. apply Hc.
        assert (accToDelete = suspense) as ->; [|exact Hcode].
        apply (NoDup_map_inj Account.id accts); [exact Hnd|exact Hin'|exact Hin|congruence]. }
      split; [now apply Hfilter|]. split; [intros; contradiction|].
      intros _. split; [reflexivity | exact Hfilter].
  - cbn [fst snd]. assert (Hid : Account.id suspense <> id).
    { apply str_eq_false. exact (find_is_none _ _ Hfind suspense Hin). }
    split; [now apply Hfilter|]. split; [intros; contradiction|].
    intros _. split; [reflexivity | exact Hfilter].
Qed.

Lemma handleDeleteAccount_keeps_suspense_witness :
  Account.mk "acc-0" UNCATEGORIZED_CODE "Uncategorized Transactions" "Suspense" None
  ∈ fst (handleDeleteAccount "acc-0" DEFAULT_ACCOUNTS)
  /\ length (fst (handleDeleteAccount "acc-4" DEFAULT_ACCOUNTS)) = 8.
Proof.
  split; [|vm_compute; reflexivity].
  apply (handleDeleteAccount_keeps_suspense "acc-0" DEFAULT_ACCOUNTS).
  - apply (bool_decide_unpack _). vm_compute. exact I.
  - constructor.
  - reflexivity.
Defined.

(** ** Import, then save *)

(** X3. An import that brings in the same code twice cannot be saved as it
    is: [validateAndSave] refuses the accounts that [parseAndImportData]
    leaves whenever two of the imported accounts have the same code. *)
Theorem import_with_repeated_code_is_not_saved
    (numberToString : Js.number -> string) (now : N) (toLowerCase : string -> string)
    (data : list (list Cell)) (accts : list Account.t) :
  ~ NoDup (map Account.code
             (ChartOfAccountsModal.uniqueImported numberToString now accts data)) ->
  snd (validateAndSave toLowerCase
         (fst (ChartOfAccountsModal.parseAndImportData numberToString now data accts)))
  = Alert "Please fix the errors before saving.".
Proof.
  intros Hdup. unfold validateAndSave, validationErrors. cbn [snd fst].
  case_bool_decide as He; [|reflexivity]. exfalso. apply Hdup.
  apply validate_no_errors in He as (_ & _ & Hnd & _).
  unfold ChartOfAccountsModal.parseAndImportData in Hnd. cbn [fst] in Hnd.
  rewrite map_app in Hnd. apply NoDup_app in Hnd as (_ & _ & Hnd).
  unfold codeKey in Hnd.
  change (map (fun acc => toLowerCase (Js.trim (Account.code acc))) ?l)
    with ((fun acc => toLowerCase (Js.trim (Account.code acc))) <$> l) in Hnd.
  assert (E : forall l : list Account.t,
            (fun acc => toLowerCase (Js.trim (Account.code acc))) <$> l
            = (fun c => toLowerCase (Js.trim c)) <$> (Account.code <$> l)).
  { intros l. now rewrite <- list_fmap_compose. }
  rewrite E in Hnd. now apply NoDup_fmap_1 in Hnd.
Qed.

Lemma import_with_repeated_code_is_not_saved_witness :
  let rows := [ [CellStr "1000"; CellStr "Cash"; CellStr "Asset"];
                [CellStr "1000"; CellStr "Cash Dup"; CellStr "Asset"] ] in
  snd (validateAndSave (fun s => s)
         (fst (ChartOfAccountsModal.parseAndImportData noNumberToString 0 rows
                 DEFAULT_ACCOUNTS)))
  = Alert "Please fix the errors before saving.".
Proof.
  intros rows. apply import_with_repeated_code_is_not_saved.
  intros H. apply (bool_decide_pack _) in H. vm_compute in H. exact H.
Defined.

(** ** Add, then save *)

(** X30. An account added with "Add Account" is blank, so the chart cannot be
    saved until it is filled in: right after [handleAddAccount],
    [validateAndSave] alerts and saves nothing, whatever the other accounts
    are. *)
Theorem added_account_blocks_saving (toLowerCase : string -> string) (now : N)
    (accts : list Account.t) :
  snd (validateAndSave toLowerCase (handleAddAccount now accts))
  = Alert "Please fix the errors before saving.".
Proof.
  unfold validateAndSave, validationErrors. cbn [snd].
  case_bool_decide as He; [|reflexivity]. exfalso.
  apply validate_no_errors in He as (_ & Hall & _).
  unfold handleAddAccount in Hall. apply Forall_app in Hall as [_ Hblank].
  apply Forall_cons in Hblank as [(Hcode & _) _]. now apply Hcode.
Qed.

(** ** The lines of the entry in the builder *)

Lemma updateLine_keeps_id lineId u l :
  (forall v, u <> set_id v) ->
  JournalLine.id (updateLine lineId u l) = JournalLine.id l.
Proof.
  intros Hu. unfold updateLine.
  destruct (negb _); [reflexivity|].
  destruct u as [v|v|v|v|v]; cbn [assignField].
  - now destruct (Hu v).
  - reflexivity.
  - now destruct (Js.gt v 0).
  - now destruct (Js.gt v 0).
  - reflexivity.
Qed.

Lemma handleUpdateLine_keeps_ids lineId u entry :
  (forall v, u <> set_id v) ->
  map JournalLine.id (JournalEntry.lines (JournalEntryModal.handleUpdateLine lineId u entry))
  = map JournalLine.id (JournalEntry.lines entry).
Proof.
  intros Hu. unfold JournalEntryModal.handleUpdateLine. cbn [JournalEntry.lines JournalEntry.with_lines].
  rewrite map_map. apply map_ext. intros l. now apply updateLine_keeps_id.
Qed.

(** Deleting by an id removes one line at most when line ids are distinct. *)
Lemma delete_one_line lineId (lines : list JournalLine.t) :
  NoDup (map JournalLine.id lines) ->
  length lines
  <= S (length (List.filter (fun line => negb (Js.str_eq (JournalLine.id line) lineId))
                  lines)).
Proof.
  induction lines as [|l lines IH]; intros Hnd; [cbn; lia|].
  cbn [map] in Hnd. apply NoDup_cons in Hnd as [Hfresh Hnd].
  cbn [List.filter length].
  destruct (Js.str_eq (JournalLine.id l) lineId) eqn:E; cbn [negb length].
  - apply str_eq_true in E. rewrite List_filter_all; [lia|].
    intros x Hx. apply negb_true_iff, str_eq_false. intros Hx'.
    apply Hfresh. rewrite E, <- Hx'. apply list_elem_of_fmap. now exists x.
  - specialize (IH Hnd). lia.
Qed.

Lemma lines_filter_distinct (keep : JournalLine.t -> bool) (lines : list JournalLine.t) :
  NoDup (map JournalLine.id lines) ->
  NoDup (map JournalLine.id (List.filter keep lines)).
Proof.
  induction lines as [|l lines IH]; intros Hnd; [constructor|].
  cbn [map] in Hnd. apply NoDup_cons in Hnd as [Hfresh Hnd].
  cbn [List.filter]. destruct (keep l); [|now apply IH].
  cbn [map]. apply NoDup_cons. split; [|now apply IH].
  intros Hin. apply Hfresh. apply list_elem_of_fmap in Hin as (x & He & Hin).
  apply elem_of_List_filter in Hin as [Hin _]. apply list_elem_of_fmap. now exists x.
Qed.

Section BuilderLines.

Variable randomUUID : nat -> string.
Hypothesis randomUUID_distinct : forall a b, randomUUID a = randomUUID b -> a = b.

Lemma initialNewEntry_wellFormed today accts linkedTx bank n :
  linesWellFormed randomUUID (initialNewEntry randomUUID today accts linkedTx bank n, n + 3).
Proof.
  assert (H : exists a1 d1 c1 a2 d2 c2,
            JournalEntry.lines (initialNewEntry randomUUID today accts linkedTx bank n)
            = [ JournalLine.mk (randomUUID (n + 1)) a1 d1 c1 None;
                JournalLine.mk (randomUUID (n + 2)) a2 d2 c2 None ]).
  { unfold initialNewEntry. destruct linkedTx as [tx|]; [destruct (Js.truthy_str bank)|];
      cbn [JournalEntry.lines]; repeat eexists. }
  destruct H as (a1 & d1 & c1 & a2 & d2 & c2 & E).
  unfold linesWellFormed. cbn [fst snd]. rewrite E. cbn [length map JournalLine.id].
  split; [lia|]. split.
  - apply NoDup_cons. split; [|apply NoDup_singleton].
    intros Hin. apply list_elem_of_singleton in Hin.
    apply randomUUID_distinct in Hin. lia.
  - intros id Hid. apply elem_of_cons in Hid as [->|Hid].
    + exists (n + 1). split; [lia|reflexivity].
    + apply list_elem_of_singleton in Hid as ->. exists (n + 2). split; [lia|reflexivity].
Qed.

Lemma editLines_wellFormed a st :
  linesWellFormed randomUUID st -> linesWellFormed randomUUID (editLines randomUUID a st).
Proof.
  destruct st as [entry n]. unfold linesWellFormed. cbn [fst snd].
  intros (Hlen & Hnd & Hdrawn).
  assert (Hupd : forall lineId u, (forall v, u <> set_id v) ->
            2 <= length (JournalEntry.lines
                           (JournalEntryModal.handleUpdateLine lineId u entry))
            /\ NoDup (map JournalLine.id
                        (JournalEntry.lines
                           (JournalEntryModal.handleUpdateLine lineId u entry)))
            /\ forall id,
                 id ∈ map JournalLine.id
                        (JournalEntry.lines
                           (JournalEntryModal.handleUpdateLine lineId u entry)) ->
                 exists k, k < n /\ id = randomUUID k).
  { intros lineId u Hu. rewrite (handleUpdateLine_keeps_ids _ _ _ Hu).
    split; [|now split].
    unfold JournalEntryModal.handleUpdateLine.
    cbn [JournalEntry.lines JournalEntry.with_lines]. now rewrite length_map. }
  destruct a as [lineId accountId|lineId value|lineId value| |lineId];
    cbn [editLines fst snd].
  - apply Hupd. intros v. discriminate.
  - apply Hupd. intros v. discriminate.
  - apply Hupd. intros v. discriminate.
  - unfold handleAddLine. cbn [JournalEntry.lines JournalEntry.with_lines].
    rewrite length_app, map_app. cbn [length map JournalLine.id]. split; [lia|]. split.
    + apply NoDup_app. split; [exact Hnd|]. split; [|apply NoDup_singleton].
      intros id Hid Hnew. apply list_elem_of_singleton in Hnew. subst id.
      destruct (Hdrawn _ Hid) as (k & Hk & Ek). apply randomUUID_distinct in Ek. lia.
    + intros id Hid. apply elem_of_app in Hid as [Hid|Hid].
      * destruct (Hdrawn _ Hid) as (k & Hk & Ek). exists k. split; [lia|exact Ek].
      * apply list_elem_of_singleton in Hid as ->. exists n. split; [lia|reflexivity].
  - unfold handleDeleteLine.
    destruct (length (JournalEntry.lines entry) <=? 2)%nat eqn:Hle; cbn [fst].
    + now split.
    + apply Nat.leb_gt in Hle. cbn [JournalEntry.lines JournalEntry.with_lines].
      split; [|split].
      * pose proof (delete_one_line lineId _ Hnd). lia.
      * now apply lines_filter_distinct.
      * intros id Hid. apply Hdrawn.
        apply list_elem_of_fmap in Hid as (l & -> & Hl).
        apply elem_of_List_filter in Hl as [Hl _]. apply list_elem_of_fmap. now exists l.
Qed.

(** X4. Whatever the user does to the lines of a new entry in the builder
    (choosing accounts, typing amounts, adding and deleting rows), the entry
    keeps two lines at least and line ids that differ from one another, as
    long as [generateUUID] never returns the same id twice. *)
Theorem builder_keeps_two_lines today accts linkedTx bank n (actions : list LineAction) :
  let st := fold_left (fun st a => editLines randomUUID a st) actions
              (initialNewEntry randomUUID today accts linkedTx bank n, n + 3) in
  2 <= length (JournalEntry.lines (fst st))
  /\ NoDup (map JournalLine.id (JournalEntry.lines (fst st))).
Proof.
  intros st.
  assert (H : linesWellFormed randomUUID st).
  { subst st. generalize (initialNewEntry_wellFormed today accts linkedTx bank n).
    generalize (initialNewEntry randomUUID today accts linkedTx bank n, n + 3).
    induction actions as [|a actions IH]; intros st0 H0; [exact H0|].
    cbn [fold_left]. apply IH. now apply editLines_wellFormed. }
  destruct H as (H1 & H2 & _). now split.
Qed.

End BuilderLines.

Lemma sampleUUID_distinct a b : sampleUUID a = sampleUUID b -> a = b.
Proof.
  unfold sampleUUID. intros H. apply (inj (String.append "uuid-")) in H.
  now apply (inj pretty) in H.
Qed.

Lemma builder_keeps_two_lines_witness :
  let st := fold_left (fun st a => editLines sampleUUID a st)
              [ AddLine; DeleteLine "uuid-1"; DeleteLine "uuid-2"; DeleteLine "uuid-3" ]
              (initialNewEntry sampleUUID "2024-07-05" DEFAULT_ACCOUNTS (Some sampleTx)
                 "acc-1" 0, 0 + 3) in
  map JournalLine.id (JournalEntry.lines (fst st)) = ["uuid-2"; "uuid-3"]
  /\ 2 <= length (JournalEntry.lines (fst st)).
Proof.
  intros st. split; [vm_compute; reflexivity|].
  apply (builder_keeps_two_lines sampleUUID sampleUUID_distinct "2024-07-05"
           DEFAULT_ACCOUNTS (Some sampleTx) "acc-1" 0).
Defined.

(** ** The entry the builder proposes for a transaction *)

Section ProposedEntry.

Variable numberToString : Js.number -> string.
Variable randomUUID : nat -> string.

Lemma initialNewEntry_totals today accts tx bank n :
  Js.truthy_str bank = true ->
  sumLines (JournalEntry.lines (initialNewEntry randomUUID today accts (Some tx) bank n))
  = Totals.mk (Js.or_zero (Transaction.amount tx)) (Js.or_zero (Transaction.amount tx)).
Proof.
  intros Hb. unfold sumLines, initialNewEntry. rewrite Hb.
  cbn [JournalEntry.lines fold_left].
  cbn [JournalLine.debit JournalLine.credit Totals.debit Totals.credit].
  unfold Js.Number.
  assert (Hz : Js.or_zero 0%float = 0%float) by reflexivity.
  assert (H00 : (0 + 0)%float = 0%float) by reflexivity.
  pose proof (or_zero_not_negzero (Transaction.amount tx)) as Ha.
  destruct (Transaction.type tx); cbn [TxType_eqb];
    rewrite ?Hz, ?H00, ?(add_zero_l _ Ha), ?(add_zero_r _ Ha); reflexivity.
Qed.

(** X5. Opened on a transaction with a bank account selected, the builder
    proposes an entry that [handleSave] accepts as it stands exactly when
    the amount of the transaction is above zero and the chart of accounts
    has an account of code "0000" whose id is not empty; otherwise the
    proposal is refused until the user completes it. *)
Theorem proposed_entry_is_saved_iff today accts tx bank n :
  bank <> "" ->
  JournalEntryModal.handleSave numberToString
    (initialNewEntry randomUUID today accts (Some tx) bank n)
  = OnSave (initialNewEntry randomUUID today accts (Some tx) bank n)
  <-> Js.gt (Transaction.amount tx) 0%float = true
      /\ exists a,
           find (fun a => Js.str_eq (Account.code a) UNCATEGORIZED_CODE) accts = Some a
           /\ Account.id a <> "".
Proof.
  intros Hbank. apply truthy_str_true in Hbank.
  unfold JournalEntryModal.handleSave, JournalEntryModal.totals.
  rewrite (initialNewEntry_totals _ _ _ _ _ Hbank).
  unfold isBalanced. cbn [Totals.debit Totals.credit].
  rewrite str_eq_refl, gt_or_zero. cbn [andb].
  unfold initialNewEntry. rewrite Hbank.
  cbn [JournalEntry.lines someLineWithoutAccount existsb JournalLine.accountId].
  rewrite Hbank. cbn [negb orb]. rewrite orb_false_r.
  destruct (Js.gt (Transaction.amount tx) 0) eqn:Hgt; cbn [negb].
  2:{ split; [discriminate|]. now intros [H _]. }
  destruct (find _ accts) as [a|].
  - destruct (Js.truthy_str (Account.id a)) eqn:Hid.
    + rewrite Hid. cbn [negb]. split; [|reflexivity]. intros _. split; [reflexivity|].
      exists a. split; [reflexivity|]. now apply truthy_str_true.
    + cbn [Js.truthy_str Js.str_eq]. split; [discriminate|].
      intros (_ & a' & [= <-] & Hne). apply truthy_str_true in Hne. congruence.
  - split; [discriminate|]. intros (_ & a' & Hsome & _). discriminate Hsome.
Qed.

End ProposedEntry.

Lemma proposed_entry_is_saved_iff_witness :
  JournalEntryModal.handleSave noNumberToString
    (initialNewEntry sampleUUID "2024-07-05" DEFAULT_ACCOUNTS (Some sampleTx) "acc-1" 0)
  = OnSave (initialNewEntry sampleUUID "2024-07-05" DEFAULT_ACCOUNTS (Some sampleTx)
              "acc-1" 0).
Proof.
  apply (proposed_entry_is_saved_iff noNumberToString sampleUUID "2024-07-05"
           DEFAULT_ACCOUNTS sampleTx "acc-1" 0); [discriminate|].
  split; [reflexivity|]. eexists. split; [reflexivity | discriminate].
Defined.

(** ** Looking up the journal of a transaction *)

Lemma find_snoc {A} (f : A -> bool) (l : list A) (x : A) :
  (forall y, y ∈ l -> f y = false) -> f x = true -> find f (l ++ [x]) = Some x.
Proof.
  intros Hl Hx. induction l as [|a l IH]; cbn [app find].
  - now rewrite Hx.
  - rewrite (Hl a) by constructor. apply IH. intros y Hy. apply Hl. now constructor.
Qed.

Lemma existsb_is_false {A} (f : A -> bool) (l : list A) :
  (forall y, y ∈ l -> f y = false) -> existsb f l = false.
Proof.
  intros H. apply not_true_iff_false. intros He.
  apply existsb_elem_of in He as (y & Hy & Hf). rewrite (H y Hy) in Hf. discriminate.
Qed.

(** X6. Saving a new entry from the builder opened on a transaction that
    has no link yet makes the entry the journal of that transaction:
    [getJournalForTransaction] returns it, and every statement row of that
    id is posted. *)
Theorem saved_journal_is_found (entry : JournalEntry.t) (tx : Transaction.t) (s : AppState) :
  journalLinkedTx s = Some tx ->
  (forall je, je ∈ journalEntries s -> JournalEntry.id je <> JournalEntry.id entry) ->
  ~ hasLink (Transaction.id tx) s ->
  getJournalForTransaction (Transaction.id tx) (handleSaveJournal entry s) = Some entry
  /\ forall st, st ∈ statementTransactions (handleSaveJournal entry s) ->
       Transaction.id st = Transaction.id tx -> Transaction.is_posted st = true.
Proof.
  intros Hlinked Hnew Hnolink.
  assert (Hentries : forall je, je ∈ journalEntries s ->
            Js.str_eq (JournalEntry.id je) (JournalEntry.id entry) = false).
  { intros je Hje. apply str_eq_false. now apply Hnew. }
  assert (Hlinks : forall rt, rt ∈ reconciledTransactions s ->
            Js.str_eq (ReconciledTransaction.id rt) (Transaction.id tx) = false).
  { intros rt Hrt. apply str_eq_false. intros He. apply Hnolink. now exists rt. }
  unfold handleSaveJournal, getJournalForTransaction.
  rewrite (existsb_is_false _ _ Hentries), Hlinked, (existsb_is_false _ _ Hlinks).
  cbn [negb reconciledTransactions journalEntries statementTransactions]. split.
  - rewrite (find_snoc _ _ _ Hlinks) by (cbn; apply str_eq_refl).
    cbn [newRecon ReconciledTransaction.journalEntryId].
    apply find_snoc; [exact Hentries | apply str_eq_refl].
  - intros st Hst Hid. apply list_elem_of_fmap in Hst as (st0 & -> & _).
    destruct (Js.str_eq (Transaction.id st0) (Transaction.id tx)) eqn:E; [reflexivity|].
    apply str_eq_false in E. contradiction.
Qed.

Lemma saved_journal_is_found_witness :
  let s := handleOpenJournalModal (Some sampleTx) None oneRowState in
  getJournalForTransaction (Transaction.id sampleTx)
    (handleSaveJournal (sampleEntry "je-1") s)
  = Some (sampleEntry "je-1").
Proof.
  intros s.
  apply (saved_journal_is_found (sampleEntry "je-1") sampleTx s).
  - reflexivity.
  - intros je Hje. inversion Hje.
  - intros (rt & Hrt & _). inversion Hrt.
Defined.

(** X7. After the deletion of a journal entry no transaction resolves to an
    entry of the deleted id, and, when every transaction id has one link at
    most, the transactions that were linked to it resolve to no journal at
    all. *)
Theorem deleted_journal_is_not_found (id : string) (s : AppState) :
  (forall txId je,
     getJournalForTransaction txId (handleDeleteJournal true id s) = Some je ->
     JournalEntry.id je <> id)
  /\ (uniqueLinks s ->
      forall txId, txId ∈ linkedIds id s ->
        getJournalForTransaction txId (handleDeleteJournal true id s) = None).
Proof.
  rewrite handleDeleteJournal_confirmed. unfold getJournalForTransaction.
  cbn [reconciledTransactions journalEntries]. split.
  - intros txId je H. destruct (find _ (List.filter _ (reconciledTransactions s)));
      [|discriminate].
    apply find_elem_of in H as [Hin _]. apply elem_of_List_filter in Hin as [_ Hne].
    now apply negb_true_iff, str_eq_false in Hne.
  - intros Hu txId Hlinked.
    destruct (find _ (List.filter _ (reconciledTransactions s))) as [rt'|] eqn:Hfind;
      [|reflexivity].
    exfalso. apply find_elem_of in Hfind as [Hin' Hid'].
    apply elem_of_List_filter in Hin' as [Hin' Hje']. apply str_eq_true in Hid'.
    apply elem_of_linkedIds in Hlinked as (rt & Hin & Hje & Hid).
    assert (rt = rt').
    { apply (NoDup_map_inj ReconciledTransaction.id (reconciledTransactions s));
        [exact Hu|exact Hin|exact Hin'|congruence]. }
    subst rt'. apply negb_true_iff, str_eq_false in Hje'. contradiction.
Qed.

(** ** Selecting rows *)

(** X8. Clicking the checkbox of a row twice gives back the selection, and
    the whole state, as it was. *)
Theorem handleSelectTx_twice (id : string) (s : AppState) :
  handleSelectTx id (handleSelectTx id s) = s.
Proof.
  destruct s as [txs accts entries links period bank sel linked editing jm am err n].
  unfold handleSelectTx. cbn. f_equal.
  destruct (decide (id ∈ sel)) as [Hin|Hout].
  - rewrite (bool_decide_eq_true_2 _ Hin).
    rewrite bool_decide_eq_false_2 by (rewrite elem_of_difference, elem_of_singleton; tauto).
    apply set_eq. intros x.
    rewrite elem_of_union, elem_of_difference, elem_of_singleton.
    destruct (decide (x = id)) as [->|]; tauto.
  - rewrite (bool_decide_eq_false_2 _ Hout).
    rewrite bool_decide_eq_true_2 by (rewrite elem_of_union, elem_of_singleton; tauto).
    apply set_eq. intros x.
    rewrite elem_of_difference, elem_of_union, elem_of_singleton.
    destruct (decide (x = id)) as [->|]; tauto.
Qed.

(** ** The daily limit on AI actions *)

Lemma getUsage_date today stored : AiUsage.date (getUsage today stored) = today.
Proof.
  unfold getUsage. destruct stored as [u|]; [|reflexivity].
  now destruct (Js.str_eq _ _).
Qed.

Lemma getUsage_written today n :
  getUsage today (Some (AiUsage.mk today n)) = AiUsage.mk today n.
Proof. unfold getUsage. cbn. now rewrite str_eq_refl. Qed.

(** One call: the count read back afterwards has grown by one when the call
    is granted and is the same otherwise, and a call is granted only below
    the limit. *)
Lemma tryAiFeature_count today writable stored :
  let before := AiUsage.count (getUsage today stored) in
  let '(outcome, stored') := tryAiFeature today writable stored in
  AiUsage.count (getUsage today stored')
  = before + (if isGranted outcome then 1 else 0)
  /\ (isGranted outcome = true -> before < DAILY_AI_LIMIT)
  /\ (isGranted outcome = false -> stored' = stored).
Proof.
  cbv zeta. unfold tryAiFeature.
  destruct (DAILY_AI_LIMIT <=? _)%nat eqn:Hlimit.
  - cbn. split; [lia|]. split; [discriminate|reflexivity].
  - apply Nat.leb_gt in Hlimit. destruct writable; cbn [isGranted].
    + rewrite getUsage_date, getUsage_written. cbn. split; [reflexivity|].
      split; [intros _; exact Hlimit|discriminate].
    + split; [lia|]. split; [discriminate|reflexivity].
Qed.

(** X9. However many AI actions are asked for on one day, and whatever the
    storage does, the number granted is at most what is left of the daily
    limit of 50; the count read back from the storage is the count before
    plus the number granted. *)
Theorem tryAiFeatures_within_limit (today : string) (writables : list bool)
    (storedUsage : option AiUsage.t) :
  fst (tryAiFeatures today writables storedUsage)
  <= DAILY_AI_LIMIT - AiUsage.count (getUsage today storedUsage)
  /\ AiUsage.count (getUsage today (snd (tryAiFeatures today writables storedUsage)))
     = AiUsage.count (getUsage today storedUsage)
       + fst (tryAiFeatures today writables storedUsage).
Proof.
  revert storedUsage. induction writables as [|writable rest IH]; intros stored.
  - cbn. split; lia.
  - cbn [tryAiFeatures].
    pose proof (tryAiFeature_count today writable stored) as H. cbv zeta in H.
    destruct (tryAiFeature today writable stored) as [outcome stored'].
    destruct H as (Hcount & Hbelow & _).
    specialize (IH stored'). destruct (tryAiFeatures today rest stored') as [granted final].
    cbn [fst snd] in *. rewrite Hcount in IH.
    destruct (isGranted outcome).
    + specialize (Hbelow eq_refl). lia.
    + lia.
Qed.

(** X10. While the storage can be written, the actions are granted until the
    limit is reached and refused from then on: of [n] actions asked for,
    exactly the smaller of [n] and what is left of the limit are granted. *)
Theorem tryAiFeatures_grants_what_is_left (today : string) (n : nat)
    (storedUsage : option AiUsage.t) :
  fst (tryAiFeatures today (repeat true n) storedUsage)
  = Nat.min n (DAILY_AI_LIMIT - AiUsage.count (getUsage today storedUsage)).
Proof.
  revert storedUsage. induction n as [|n IH]; intros stored; [reflexivity|].
  cbn [repeat tryAiFeatures].
  pose proof (tryAiFeature_count today true stored) as H. cbv zeta in H.
  assert (Hout : isGranted (fst (tryAiFeature today true stored))
                 = (AiUsage.count (getUsage today stored) <? DAILY_AI_LIMIT)%nat).
  { unfold tryAiFeature. destruct (DAILY_AI_LIMIT <=? _)%nat eqn:Hlimit; cbn [fst isGranted].
    - apply Nat.leb_le in Hlimit. symmetry. apply Nat.ltb_ge. exact Hlimit.
    - apply Nat.leb_gt in Hlimit. symmetry. apply Nat.ltb_lt. exact Hlimit. }
  destruct (tryAiFeature today true stored) as [outcome stored'].
  destruct H as (Hcount & _ & _). cbn [fst] in Hout.
  specialize (IH stored'). destruct (tryAiFeatures today (repeat true n) stored') as [granted final].
  cbn [fst] in *. rewrite IH, Hcount, Hout.
  destruct (_ <? _)%nat eqn:Hlt.
  - apply Nat.ltb_lt in Hlt. lia.
  - apply Nat.ltb_ge in Hlt. lia.
Qed.

(** ** Reading the answer of the extraction service *)

#[local] Arguments String.append !s1 s2 : simpl nomatch.

Lemma allChars_app P a b : allChars P (a +:+ b) = allChars P a && allChars P b.
Proof.
  induction a as [|c a IH]; [reflexivity|]. cbn [String.append allChars].
  now rewrite IH, andb_assoc.
Qed.

Lemma is_space2_plain_l c b : plainByte c -> Js.is_space2 c b = false.
Proof.
  intros [_ H]. unfold Js.is_space2. apply andb_false_iff. left.
  apply Nat.eqb_neq. lia.
Qed.

Lemma is_space2_plain_r a c : plainByte c -> Js.is_space2 a c = false.
Proof.
  intros [_ H]. unfold Js.is_space2. apply andb_false_iff. right.
  apply Nat.eqb_neq. lia.
Qed.

Lemma is_space3_plain_1 c b z : plainByte c -> Js.is_space3 c b z = false.
Proof.
  intros [_ H]. unfold Js.is_space3. cbv zeta.
  rewrite (proj2 (Nat.eqb_neq (nat_of_ascii c) 225)) by lia.
  rewrite (proj2 (Nat.eqb_neq (nat_of_ascii c) 226)) by lia.
  rewrite (proj2 (Nat.eqb_neq (nat_of_ascii c) 227)) by lia.
  rewrite (proj2 (Nat.eqb_neq (nat_of_ascii c) 239)) by lia.
  reflexivity.
Qed.

Lemma is_space3_plain_2 a c z : plainByte c -> Js.is_space3 a c z = false.
Proof.
  intros [_ H]. unfold Js.is_space3. cbv zeta.
  rewrite (proj2 (Nat.eqb_neq (nat_of_ascii c) 154)) by lia.
  rewrite (proj2 (Nat.eqb_neq (nat_of_ascii c) 128)) by lia.
  rewrite (proj2 (Nat.eqb_neq (nat_of_ascii c) 129)) by lia.
  rewrite (proj2 (Nat.eqb_neq (nat_of_ascii c) 187)) by lia.
  now rewrite !andb_false_r.
Qed.

Lemma is_space3_plain_3 a b c : plainByte c -> Js.is_space3 a b c = false.
Proof.
  intros [_ H]. unfold Js.is_space3. cbv zeta.
  rewrite (proj2 (Nat.leb_gt 128 (nat_of_ascii c))) by lia.
  rewrite (proj2 (Nat.eqb_neq (nat_of_ascii c) 128)) by lia.
  rewrite (proj2 (Nat.eqb_neq (nat_of_ascii c) 168)) by lia.
  rewrite (proj2 (Nat.eqb_neq (nat_of_ascii c) 169)) by lia.
  rewrite (proj2 (Nat.eqb_neq (nat_of_ascii c) 175)) by lia.
  rewrite (proj2 (Nat.eqb_neq (nat_of_ascii c) 159)) by lia.
  rewrite (proj2 (Nat.eqb_neq (nat_of_ascii c) 191)) by lia.
  cbn [andb orb]. now rewrite !andb_false_r.
Qed.

Lemma trimStart_cons a r :
  Js.trimStart (String a r)
  = if Js.is_space a then Js.trimStart r
    else
      match r with
      | String b r2 =>
          if Js.is_space2 a b then Js.trimStart r2
          else
            match r2 with
            | String c r3 =>
                if Js.is_space3 a b c then Js.trimStart r3 else String a r
            | EmptyString => String a r
            end
      | EmptyString => String a r
      end.
Proof. reflexivity. Qed.

Lemma allSpace_cons a r :
  Js.allSpace (String a r)
  = if Js.is_space a then Js.allSpace r
    else
      match r with
      | String b r2 =>
          if Js.is_space2 a b then Js.allSpace r2
          else
            match r2 with
            | String c r3 => Js.is_space3 a b c && Js.allSpace r3
            | EmptyString => false
            end
      | EmptyString => false
      end.
Proof. reflexivity. Qed.

Lemma trimEnd_cons c r :
  Js.trimEnd (String c r)
  = if Js.allSpace (String c r) then EmptyString else String c (Js.trimEnd r).
Proof. reflexivity. Qed.

(** [trimStart] drops bytes from the head and no other. *)
Lemma trimStart_drops s : exists dropped, s = dropped +:+ Js.trimStart s.
Proof.
  assert (H : forall n s, String.length s <= n ->
                exists dropped, s = dropped +:+ Js.trimStart s).
  { clear s. induction n as [|n IH]; intros s Hn.
    - destruct s; [now exists ""|cbn in Hn; lia].
    - destruct s as [|a r]; [now exists ""|]. rewrite trimStart_cons.
      cbn [String.length] in Hn. destruct (Js.is_space a).
      { destruct (IH r ltac:(lia)) as [d Hd]. exists (String a d). cbn. now f_equal. }
      destruct r as [|b r2]; [now exists ""|]. cbn [String.length] in Hn.
      destruct (Js.is_space2 a b).
      { destruct (IH r2 ltac:(lia)) as [d Hd]. exists (String a (String b d)).
        cbn. now do 2 f_equal. }
      destruct r2 as [|c r3]; [now exists ""|]. cbn [String.length] in Hn.
      destruct (Js.is_space3 a b c); [|now exists ""].
      destruct (IH r3 ltac:(lia)) as [d Hd].
      exists (String a (String b (String c d))). cbn. now do 3 f_equal. }
  now apply (H (String.length s)).
Qed.

Lemma allChars_trimStart P s : allChars P s = true -> allChars P (Js.trimStart s) = true.
Proof.
  destruct (trimStart_drops s) as [dropped E]. rewrite E at 1.
  rewrite allChars_app. now intros [_ H]%andb_true_iff.
Qed.

Lemma allChars_trimEnd P s : allChars P s = true -> allChars P (Js.trimEnd s) = true.
Proof.
  induction s as [|c r IH]; [easy|]. rewrite trimEnd_cons.
  destruct (Js.allSpace (String c r)); [reflexivity|].
  cbn [allChars]. intros [Hc Hr]%andb_true_iff. now rewrite Hc, IH.
Qed.

Lemma allChars_trim P s : allChars P s = true -> allChars P (Js.trim s) = true.
Proof. intros H. unfold Js.trim. now apply allChars_trimEnd, allChars_trimStart. Qed.

Lemma allChars_dropChars P n s : allChars P s = true -> allChars P (dropChars n s) = true.
Proof.
  revert s. induction n as [|n IH]; intros [|c r]; try easy.
  cbn. intros [_ H]%andb_true_iff. auto.
Qed.

Lemma allChars_takeChars P n s : allChars P s = true -> allChars P (takeChars n s) = true.
Proof.
  revert s. induction n as [|n IH]; intros [|c r]; try easy.
  cbn. intros [Hc H]%andb_true_iff. rewrite Hc. cbn. auto.
Qed.

Lemma allChars_stripFence P s : allChars P s = true -> allChars P (stripFence s) = true.
Proof.
  intros H. unfold stripFence.
  repeat match goal with
         | |- context [if ?b then _ else _] => destruct b
         end;
    auto using allChars_dropChars, allChars_takeChars.
Qed.

Lemma indexOf_absent P c s :
  P c = false -> allChars P s = true -> indexOf c s = None.
Proof.
  intros Hc. induction s as [|a r IH]; [reflexivity|]. cbn.
  intros [Ha Hr]%andb_true_iff. rewrite bool_decide_eq_false_2 by congruence.
  now rewrite IH.
Qed.

Lemma lastIndexOf_absent P c s :
  P c = false -> allChars P s = true -> lastIndexOf c s = None.
Proof.
  intros Hc. induction s as [|a r IH]; [reflexivity|]. cbn.
  intros [Ha Hr]%andb_true_iff. rewrite IH by assumption.
  now rewrite bool_decide_eq_false_2 by congruence.
Qed.

Lemma indexOf_app P c pre s :
  P c = false -> allChars P pre = true ->
  indexOf c (pre +:+ s) = (fun i => String.length pre + i) <$> indexOf c s.
Proof.
  intros Hc. induction pre as [|a r IH].
  - intros _. cbn. now destruct (indexOf c s).
  - cbn. intros [Ha Hr]%andb_true_iff. rewrite bool_decide_eq_false_2 by congruence.
    rewrite IH by assumption. now destruct (indexOf c s).
Qed.

Lemma lastIndexOf_lt c s i : lastIndexOf c s = Some i -> i < String.length s.
Proof.
  revert i. induction s as [|a r IH]; [discriminate|]. cbn. intros i.
  destruct (lastIndexOf c r) as [j|].
  - intros [= <-]. specialize (IH j eq_refl). lia.
  - destruct (bool_decide _); [|discriminate]. intros [= <-]. lia.
Qed.

Lemma lastIndexOf_app P c front e post :
  P c = false -> allChars P post = true ->
  lastIndexOf c (front +:+ String e post)
  = if bool_decide (e = c) then Some (String.length front) else lastIndexOf c front.
Proof.
  intros Hc Hpost. induction front as [|a r IH].
  - cbn. now rewrite (lastIndexOf_absent P c post Hc Hpost).
  - cbn. rewrite IH. now destruct (bool_decide (e = c)).
Qed.

Lemma string_length_app a b :
  String.length (a +:+ b) = String.length a + String.length b.
Proof. induction a as [|c a IH]; [reflexivity|]. cbn. now rewrite IH. Qed.

Lemma string_app_assoc a b c : (a +:+ b) +:+ c = a +:+ (b +:+ c).
Proof. induction a as [|x a IH]; [reflexivity|]. cbn. now rewrite IH. Qed.

Lemma string_app_empty a : a +:+ "" = a.
Proof. induction a as [|x a IH]; [reflexivity|]. cbn. now rewrite IH. Qed.

Lemma dropChars_app a b : dropChars (String.length a) (a +:+ b) = b.
Proof. induction a as [|c a IH]; [now destruct b|]. exact IH. Qed.

Lemma takeChars_app a b : takeChars (String.length a) (a +:+ b) = a.
Proof.
  induction a as [|c a IH]; [now destruct b|]. cbn. now rewrite IH.
Qed.

Lemma trimStart_plain c rest :
  plainByte c -> Js.trimStart (String c rest) = String c rest.
Proof.
  intros Hc. rewrite trimStart_cons, (proj1 Hc).
  destruct rest as [|b r2]; [reflexivity|]. rewrite (is_space2_plain_l _ _ Hc).
  destruct r2 as [|z r3]; [reflexivity|]. now rewrite (is_space3_plain_1 _ _ _ Hc).
Qed.

Lemma trimStart_keeps P pre c rest :
  plainByte c -> allChars P pre = true ->
  exists pre', Js.trimStart (pre +:+ String c rest) = pre' +:+ String c rest
               /\ allChars P pre' = true.
Proof.
  intros Hc.
  assert (H : forall n pre, String.length pre <= n -> allChars P pre = true ->
                exists pre', Js.trimStart (pre +:+ String c rest) = pre' +:+ String c rest
                             /\ allChars P pre' = true).
  { induction n as [|n IH]; intros pre0 Hn Hpre.
    - destruct pre0; [|cbn in Hn; lia]. exists "". split; [|reflexivity].
      now apply trimStart_plain.
    - destruct pre0 as [|a pre1].
      { exists "". split; [|reflexivity]. now apply trimStart_plain. }
      cbn [String.length] in Hn. cbn [allChars] in Hpre.
      apply andb_true_iff in Hpre as [Ha Hpre1].
      cbn [String.append]. rewrite trimStart_cons.
      destruct (Js.is_space a); [apply IH; [lia|exact Hpre1]|].
      destruct pre1 as [|b pre2]; cbn [String.append].
      { rewrite (is_space2_plain_r _ _ Hc).
        exists (String a ""). split; [|cbn; now rewrite Ha].
        destruct rest as [|z r3]; [reflexivity|].
        now rewrite (is_space3_plain_2 _ _ _ Hc). }
      cbn [String.length] in Hn. cbn [allChars] in Hpre1.
      apply andb_true_iff in Hpre1 as [Hb Hpre2].
      destruct (Js.is_space2 a b); [apply IH; [lia|exact Hpre2]|].
      destruct pre2 as [|z pre3]; cbn [String.append].
      { rewrite (is_space3_plain_3 _ _ _ Hc).
        exists (String a (String b "")). split; [reflexivity|]. cbn. now rewrite Ha, Hb. }
      cbn [String.length] in Hn. cbn [allChars] in Hpre2.
      apply andb_true_iff in Hpre2 as [Hz Hpre3].
      destruct (Js.is_space3 a b z); [apply IH; [lia|exact Hpre3]|].
      exists (String a (String b (String z pre3))). split; [reflexivity|].
      cbn. now rewrite Ha, Hb, Hz. }
  now apply (H (String.length pre)).
Qed.

(** A text that holds a plain byte is not white space throughout. *)
Lemma allSpace_plain front c post :
  plainByte c -> Js.allSpace (front +:+ String c post) = false.
Proof.
  intros Hc.
  assert (H : forall n front, String.length front <= n ->
                Js.allSpace (front +:+ String c post) = false).
  { induction n as [|n IH]; intros front0 Hn.
    - destruct front0; [|cbn in Hn; lia]. cbn [String.append].
      rewrite allSpace_cons, (proj1 Hc).
      destruct post as [|b r2]; [reflexivity|]. rewrite (is_space2_plain_l _ _ Hc).
      destruct r2 as [|z r3]; [reflexivity|]. now rewrite (is_space3_plain_1 _ _ _ Hc).
    - destruct front0 as [|a f1]; [apply (IH ""); cbn; lia|].
      cbn [String.length] in Hn. cbn [String.append]. rewrite allSpace_cons.
      destruct (Js.is_space a); [apply IH; lia|].
      destruct f1 as [|b f2]; cbn [String.append].
      { rewrite (is_space2_plain_r _ _ Hc). destruct post as [|z r3]; [reflexivity|].
        now rewrite (is_space3_plain_2 _ _ _ Hc). }
      cbn [String.length] in Hn.
      destruct (Js.is_space2 a b); [apply IH; lia|].
      destruct f2 as [|z f3]; cbn [String.append].
      { now rewrite (is_space3_plain_3 _ _ _ Hc). }
      cbn [String.length] in Hn.
      destruct (Js.is_space3 a b z); [apply IH; lia|reflexivity]. }
  now apply (H (String.length front)).
Qed.

Lemma trimEnd_keeps front c post :
  plainByte c ->
  Js.trimEnd (front +:+ String c post) = front +:+ String c (Js.trimEnd post).
Proof.
  intros Hc. induction front as [|a r IH].
  - pose proof (allSpace_plain "" c post Hc) as Hno. cbn [String.append] in *.
    now rewrite trimEnd_cons, Hno.
  - pose proof (allSpace_plain (String a r) c post Hc) as Hno. cbn [String.append] in *.
    now rewrite trimEnd_cons, Hno, IH.
Qed.

Lemma prefix_keeps f pre c rest :
  String.prefix f (pre +:+ String c rest) = true ->
  allChars (fun a => negb (bool_decide (a = c))) f = true ->
  exists pre1, pre = f +:+ pre1.
Proof.
  revert pre. induction f as [|x f IH]; intros pre.
  - intros _ _. now exists pre.
  - cbn [allChars]. intros Hprefix [Hx Hf]%andb_true_iff.
    apply negb_true_iff, bool_decide_eq_false in Hx.
    destruct pre as [|y pre]; cbn in Hprefix.
    + destruct (ascii_dec x c); [contradiction|discriminate].
    + destruct (ascii_dec x y) as [->|]; [|discriminate].
      destruct (IH pre Hprefix Hf) as [pre1 ->]. now exists pre1.
Qed.

Lemma endsWith_spec suffix s :
  endsWith suffix s = true -> exists front, s = front +:+ suffix.
Proof.
  induction s as [|a r IH]; cbn [endsWith].
  - rewrite orb_false_r. intros <-%str_eq_true. now exists "".
  - intros [<-%str_eq_true|H]%orb_true_iff; [now exists ""|].
    destruct (IH H) as [front ->]. now exists (String a front).
Qed.

Lemma endsWith_keeps suffix front c post :
  endsWith suffix (front +:+ String c post) = true ->
  allChars (fun a => negb (bool_decide (a = c))) suffix = true ->
  exists post1, post = post1 +:+ suffix.
Proof.
  intros Hends Hsuffix. induction front as [|a r IH].
  - cbn in Hends. apply orb_true_iff in Hends as [<-%str_eq_true|H].
    + cbn in Hsuffix. now rewrite bool_decide_eq_true_2 in Hsuffix.
    + now apply endsWith_spec.
  - cbn [String.append endsWith] in Hends.
    apply orb_true_iff in Hends as [<-%str_eq_true|H]; [|now apply IH].
    cbn [allChars] in Hsuffix. apply andb_true_iff in Hsuffix as [_ Hsuffix].
    rewrite allChars_app in Hsuffix. cbn in Hsuffix.
    rewrite bool_decide_eq_true_2 in Hsuffix by reflexivity.
    cbn in Hsuffix. now rewrite andb_false_r in Hsuffix.
Qed.

Lemma isOpen_cases b : isOpen b = true -> b = "["%char \/ b = "{"%char.
Proof.
  unfold isOpen. intros [H|H]%orb_true_iff; apply bool_decide_eq_true in H; auto.
Qed.

Lemma isClose_cases e : isClose e = true -> e = "]"%char \/ e = "}"%char.
Proof.
  unfold isClose. intros [H|H]%orb_true_iff; apply bool_decide_eq_true in H; auto.
Qed.

Section Payload.

Variable jsonParse : string -> Js.any + string.

(** The text between the first opening and the last closing bracket, and
    what may stand around it. *)
Variables (b e : ascii) (mid : string).
Hypothesis b_open : isOpen b = true.
Hypothesis e_close : isClose e = true.

Lemma around_end pre post : around b e mid pre post = (pre +:+ String b mid) +:+ String e post.
Proof. unfold around. now rewrite string_app_assoc. Qed.

Lemma b_plain : plainByte b.
Proof.
  destruct (isOpen_cases b b_open) as [->| ->]; (split; [reflexivity|vm_compute; lia]).
Qed.

Lemma e_plain : plainByte e.
Proof.
  destruct (isClose_cases e e_close) as [->| ->]; (split; [reflexivity|vm_compute; lia]).
Qed.

Lemma Around_trim s : Around b e mid s -> Around b e mid (Js.trim s).
Proof.
  intros (pre & post & -> & Hpre & Hpost). unfold Js.trim, around.
  destruct (trimStart_keeps _ pre b (mid +:+ String e post) b_plain Hpre)
    as (pre' & -> & Hpre').
  fold (around b e mid pre' post). rewrite around_end, (trimEnd_keeps _ _ _ e_plain).
  rewrite <- around_end. exists pre', (Js.trimEnd post).
  split; [reflexivity|]. split; [exact Hpre'|]. now apply allChars_trimEnd.
Qed.

Lemma fence_has_no_bracket fence :
  fence = "```json" \/ fence = "```" ->
  allChars (fun a => negb (bool_decide (a = b))) fence = true
  /\ allChars (fun a => negb (bool_decide (a = e))) fence = true.
Proof.
  destruct (isOpen_cases b b_open) as [->| ->];
    destruct (isClose_cases e e_close) as [->| ->];
    intros [->| ->]; split; reflexivity.
Qed.

(** After an opening fence is removed, a closing one is removed too. *)
Lemma Around_closing_fence s :
  Around b e mid s ->
  Around b e mid (if endsWith "```" s then takeChars (String.length s - 3) s else s).
Proof.
  intros HA. destruct (endsWith "```" s) eqn:Hends; [|exact HA].
  destruct HA as (pre & post & -> & Hpre & Hpost).
  rewrite around_end in Hends.
  destruct (endsWith_keeps _ _ _ _ Hends (proj2 (fence_has_no_bracket "```" (or_intror eq_refl))))
    as [post1 ->].
  exists pre, post1. unfold noClose in *. rewrite allChars_app in Hpost.
  apply andb_true_iff in Hpost as [Hpost1 _].
  split; [|now split].
  assert (Hsplit : around b e mid pre (post1 +:+ "```") = around b e mid pre post1 +:+ "```").
  { unfold around. rewrite !string_app_assoc. cbn. now rewrite !string_app_assoc. }
  rewrite Hsplit, string_length_app. cbn [String.length].
  replace (String.length (around b e mid pre post1) + 3 - 3) with (String.length (around b e mid pre post1))
    by lia.
  apply takeChars_app.
Qed.

Lemma Around_opening_fence fence s :
  fence = "```json" \/ fence = "```" ->
  Around b e mid s -> startsWith fence s = true ->
  Around b e mid (dropChars (String.length fence) s).
Proof.
  intros Hfence (pre & post & -> & Hpre & Hpost) Hstarts.
  destruct (prefix_keeps _ _ _ _ Hstarts (proj1 (fence_has_no_bracket fence Hfence)))
    as [pre1 ->].
  exists pre1, post. unfold noOpen in *. rewrite allChars_app in Hpre.
  apply andb_true_iff in Hpre as [_ Hpre1]. split; [|now split].
  unfold around. rewrite string_app_assoc. apply dropChars_app.
Qed.

Lemma Around_stripFence s : Around b e mid s -> Around b e mid (stripFence s).
Proof.
  intros HA. unfold stripFence.
  destruct (startsWith "```json" s) eqn:Hjson.
  - apply Around_closing_fence.
    now apply (Around_opening_fence "```json"); [left| |].
  - destruct (startsWith "```" s) eqn:Hplain; [|exact HA].
    apply Around_closing_fence.
    now apply (Around_opening_fence "```"); [right| |].
Qed.

Lemma startOfJson_around pre post :
  noOpen pre = true -> startOfJson (around b e mid pre post) = Some (String.length pre).
Proof.
  intros Hpre. unfold startOfJson, around.
  rewrite (indexOf_app (fun c => negb (isOpen c)) "["%char)
    by (reflexivity || exact Hpre).
  rewrite (indexOf_app (fun c => negb (isOpen c)) "{"%char)
    by (reflexivity || exact Hpre).
  cbn [indexOf].
  destruct (isOpen_cases b b_open) as [->| ->].
  - rewrite bool_decide_eq_true_2 by reflexivity.
    rewrite (bool_decide_eq_false_2 ("["%char = "{"%char)) by discriminate.
    cbn. destruct (indexOf _ _); cbn; f_equal; lia.
  - rewrite (bool_decide_eq_false_2 ("{"%char = "["%char)) by discriminate.
    rewrite bool_decide_eq_true_2 by reflexivity.
    cbn. destruct (indexOf _ _); cbn; f_equal; lia.
Qed.

Lemma endOfJson_around pre post :
  noClose post = true ->
  endOfJson (around b e mid pre post) = Some (String.length (pre +:+ String b mid)).
Proof.
  intros Hpost. unfold endOfJson. rewrite around_end.
  rewrite (lastIndexOf_app (fun c => negb (isClose c)) "]"%char)
    by (reflexivity || exact Hpost).
  rewrite (lastIndexOf_app (fun c => negb (isClose c)) "}"%char)
    by (reflexivity || exact Hpost).
  destruct (isClose_cases e e_close) as [->| ->].
  - rewrite bool_decide_eq_true_2 by reflexivity.
    rewrite (bool_decide_eq_false_2 ("]"%char = "}"%char)) by discriminate.
    destruct (lastIndexOf _ _) as [i|] eqn:Hlast; [|reflexivity].
    apply lastIndexOf_lt in Hlast. f_equal. lia.
  - rewrite (bool_decide_eq_false_2 ("}"%char = "]"%char)) by discriminate.
    rewrite bool_decide_eq_true_2 by reflexivity.
    destruct (lastIndexOf _ _) as [i|] eqn:Hlast; [|reflexivity].
    apply lastIndexOf_lt in Hlast. f_equal. lia.
Qed.

Lemma substring_around pre post :
  substring (String.length pre) (String.length (pre +:+ String b mid) + 1) (around b e mid pre post)
  = String b (mid +:+ String e "").
Proof.
  unfold substring. rewrite string_length_app. cbn [String.length].
  rewrite Nat.min_l, Nat.max_r by lia.
  unfold around. rewrite dropChars_app.
  replace (String.length pre + S (String.length mid) + 1 - String.length pre)
    with (String.length (String b (mid +:+ String e ""))).
  2:{ cbn. rewrite string_length_app. cbn. lia. }
  replace (String b (mid +:+ String e post))
    with (String b (mid +:+ String e "") +:+ post).
  2:{ cbn. now rewrite string_app_assoc. }
  apply takeChars_app.
Qed.

(** X11. Whatever stands before the first opening bracket and after the
    last closing one (a Markdown fence, spaces, a sentence of the model),
    [safeParseJson] hands [JSON.parse] exactly the text from the one to the
    other, and returns its value or wraps its error. *)
Theorem safeParseJson_reads_the_payload (pre post : string) :
  noOpen pre = true -> noClose post = true ->
  safeParseJson jsonParse (pre +:+ String b (mid +:+ String e post))
  = match jsonParse (String b (mid +:+ String e "")) with
    | inl value => inl value
    | inr message =>
        inr ("File processing error: Failed to parse AI response as JSON. Error: "
             +:+ message)
    end.
Proof.
  intros Hpre Hpost.
  assert (HA : Around b e mid (Js.trim (stripFence (Js.trim (around b e mid pre post))))).
  { apply Around_trim, Around_stripFence, Around_trim. now exists pre, post. }
  unfold safeParseJson. fold (around b e mid pre post).
  destruct HA as (pre' & post' & -> & Hpre' & Hpost').
  rewrite (startOfJson_around _ _ Hpre'), (endOfJson_around _ _ Hpost').
  now rewrite substring_around.
Qed.

End Payload.

Lemma safeParseJson_reads_the_payload_witness :
  safeParseJson (fun text => inl (Js.Str text))
    ("```json" +:+ String "["%char ("1, 2" +:+ String "]"%char "```"))
  = inl (Js.Str "[1, 2]").
Proof.
  apply (safeParseJson_reads_the_payload (fun text => inl (Js.Str text))
           "["%char "]"%char "1, 2" eq_refl eq_refl "```json" "```");
    reflexivity.
Defined.

(** X12. A text without an opening bracket, or without a closing one, never
    reaches [JSON.parse]: [safeParseJson] throws one of its two errors. *)
Theorem safeParseJson_without_brackets (jsonParse : string -> Js.any + string)
    (text : string) :
  (noOpen text = true ->
   safeParseJson jsonParse text
   = inr "Could not find start of JSON object or array in the AI response.")
  /\ (noClose text = true ->
      safeParseJson jsonParse text
      = inr "Could not find start of JSON object or array in the AI response."
      \/ safeParseJson jsonParse text
         = inr "Could not find end of JSON object or array in the AI response.").
Proof.
  unfold safeParseJson. set (jsonText := Js.trim (stripFence (Js.trim text))).
  split; intros H.
  - assert (Hclean : noOpen jsonText = true)
      by now apply allChars_trim, allChars_stripFence, allChars_trim.
    unfold startOfJson.
    rewrite (indexOf_absent (fun c => negb (isOpen c)) "["%char _ eq_refl Hclean).
    now rewrite (indexOf_absent (fun c => negb (isOpen c)) "{"%char _ eq_refl Hclean).
  - assert (Hclean : noClose jsonText = true)
      by now apply allChars_trim, allChars_stripFence, allChars_trim.
    destruct (startOfJson jsonText); [right|now left].
    unfold endOfJson.
    rewrite (lastIndexOf_absent (fun c => negb (isClose c)) "]"%char _ eq_refl Hclean).
    now rewrite (lastIndexOf_absent (fun c => negb (isClose c)) "}"%char _ eq_refl Hclean).
Qed.

(** ** The amounts of the statement rows *)

Lemma abs_not_negative (x : Js.number) : PrimFloat.ltb (PrimFloat.abs x) 0%float = false.
Proof.
  rewrite FloatAxioms.ltb_spec, abs_spec.
  now destruct (Prim2SF x) as [[]|[]| |[] m e].
Qed.

(** X13. Every row that [processAndSetTransactions] puts on the statement has
    an amount that is a number and is not negative, and a row is a debit only
    if its amount is above zero. *)
Theorem processed_amounts (numberToString : Js.number -> string)
    (parseFloat : string -> Js.number) (dateToISOString : Js.any -> option string)
    (nowISOString : string) (jsonStringify : Js.any -> option string)
    (parsedTxs : list ParsedTx.t) (s : AppState) :
  Forall (fun t =>
            Js.isNaN (Transaction.amount t) = false
            /\ PrimFloat.ltb (Transaction.amount t) 0%float = false
            /\ (Transaction.type t = Debit -> Js.gt (Transaction.amount t) 0%float = true))
    (statementTransactions
       (processAndSetTransactions numberToString parseFloat dateToISOString nowISOString
          jsonStringify parsedTxs s)).
Proof.
  apply Forall_forall. intros t.
  unfold processAndSetTransactions, newTransactions. cbn [statementTransactions].
  rewrite elem_of_List_filter, list_elem_of_fmap. intros [(p & -> & _) Hnum].
  cbn [toTransaction Transaction.amount Transaction.type] in *.
  split; [now apply negb_true_iff in Hnum|]. split.
  - unfold sanitizeAmount. apply abs_not_negative.
  - unfold sanitizeType.
    destruct (Js.truthy (ParsedTx.debit p)); [|discriminate].
    destruct (Js.gt _ _); [reflexivity|discriminate].
Qed.

(** ** Accounting periods *)

Lemma objGet_objSet key value allPeriods :
  objGet key (objSet key value allPeriods) = Some value.
Proof.
  unfold objGet. induction allPeriods as [|kv rest IH]; cbn.
  - now rewrite str_eq_refl.
  - destruct (Js.str_eq (fst kv) key) eqn:E; cbn.
    + now rewrite str_eq_refl.
    + now rewrite E.
Qed.

Lemma objGet_objSet_other key key' value allPeriods :
  key' <> key -> objGet key' (objSet key value allPeriods) = objGet key' allPeriods.
Proof.
  intros Hne. unfold objGet. induction allPeriods as [|kv rest IH]; cbn.
  - destruct (Js.str_eq key key') eqn:E; [|reflexivity].
    apply str_eq_true in E. congruence.
  - destruct (Js.str_eq (fst kv) key) eqn:E; cbn.
    + apply str_eq_true in E.
      destruct (Js.str_eq key key') eqn:E1; [apply str_eq_true in E1; congruence|].
      destruct (Js.str_eq (fst kv) key') eqn:E2; [|reflexivity].
      apply str_eq_true in E2. congruence.
    + destruct (Js.str_eq (fst kv) key'); [reflexivity|exact IH].
Qed.

Lemma objGet_objDelete key key' allPeriods :
  objGet key' (objDelete key allPeriods)
  = if Js.str_eq key' key then None else objGet key' allPeriods.
Proof.
  unfold objGet, objDelete. induction allPeriods as [|kv rest IH]; cbn.
  - now destruct (Js.str_eq key' key).
  - destruct (Js.str_eq (fst kv) key) eqn:E; cbn.
    + rewrite IH. destruct (Js.str_eq key' key) eqn:E1; [reflexivity|].
      destruct (Js.str_eq (fst kv) key') eqn:E2; [|reflexivity].
      apply str_eq_true in E, E2. apply str_eq_false in E1. congruence.
    + destruct (Js.str_eq (fst kv) key') eqn:E2; cbn.
      * destruct (Js.str_eq key' key) eqn:E1; [|reflexivity].
        apply str_eq_true in E1, E2. apply str_eq_false in E. congruence.
      * exact IH.
Qed.

Lemma objSet_keys key value allPeriods k :
  k ∈ map fst (objSet key value allPeriods) -> k = key \/ k ∈ map fst allPeriods.
Proof.
  induction allPeriods as [|kv rest IH]; cbn.
  - intros ->%list_elem_of_singleton. now left.
  - destruct (Js.str_eq (fst kv) key); cbn; intros [->|H]%elem_of_cons.
    + now left.
    + right. now apply list_elem_of_further.
    + right. apply list_elem_of_here.
    + destruct (IH H) as [->|H']; [now left|]. right. now apply list_elem_of_further.
Qed.

Lemma keyedByPeriod_objSet key value allPeriods :
  Session.period value = key -> keyedByPeriod allPeriods ->
  keyedByPeriod (objSet key value allPeriods).
Proof.
  intros Hv [Hkeys Hnd]. induction allPeriods as [|kv rest IH]; cbn.
  - split; [now repeat constructor|]. cbn. apply NoDup_singleton.
  - apply Forall_cons in Hkeys as [Hkv Hkeys]. cbn in Hnd.
    apply NoDup_cons in Hnd as [Hout Hnd].
    destruct (Js.str_eq (fst kv) key) eqn:E.
    + apply str_eq_true in E. split; [now constructor|]. cbn.
      apply NoDup_cons. now rewrite <- E.
    + apply str_eq_false in E. destruct (IH Hkeys Hnd) as [IHk IHn].
      split; [now constructor|]. cbn. apply NoDup_cons. split; [|exact IHn].
      intros [Hk|Hk]%objSet_keys; [congruence|contradiction].
Qed.

Lemma keyedByPeriod_objDelete key allPeriods :
  keyedByPeriod allPeriods -> keyedByPeriod (objDelete key allPeriods).
Proof.
  intros [Hkeys Hnd]. unfold objDelete. induction allPeriods as [|kv rest IH]; cbn.
  - now split.
  - apply Forall_cons in Hkeys as [Hkv Hkeys]. cbn in Hnd.
    apply NoDup_cons in Hnd as [Hout Hnd]. destruct (IH Hkeys Hnd) as [IHk IHn].
    destruct (negb _); [|now split].
    split; [now constructor|]. cbn. apply NoDup_cons. split; [|exact IHn].
    intros (kv' & He & Hin)%list_elem_of_fmap. apply elem_of_List_filter in Hin as [Hin _].
    apply Hout. apply list_elem_of_fmap. now exists kv'.
Qed.

(** Looking a period up in [periods] finds what the object holds under it. *)
Lemma find_period key allPeriods :
  Forall (fun kv => Session.period (snd kv) = fst kv) allPeriods ->
  find (fun p => Js.str_eq (Session.period p) key) (objValues allPeriods)
  = objGet key allPeriods.
Proof.
  unfold objGet, objValues. induction 1 as [|kv rest Hkv _ IH]; [reflexivity|].
  cbn. rewrite Hkv. now destruct (Js.str_eq (fst kv) key).
Qed.

Lemma saveCurrentPeriod_saved now storedPeriods allPeriods w :
  parseStored storedPeriods = Some allPeriods ->
  keyedByPeriod allPeriods ->
  let s := ledger w in
  let saved :=
    Session.mk (activePeriod s) (activePeriod s) now (accounts s) (journalEntries s)
      (Some (reconciledTransactions s)) in
  saveCurrentPeriod now storedPeriods true w
  = (mkWorkspace
       (mkApp [] (accounts s) (journalEntries s) (reconciledTransactions s)
          (activePeriod s) "" ∅ (journalLinkedTx s) (editingJournal s)
          (isJournalModalOpen s) (isAiJournalModalOpen s) (error s) (uuidsDrawn s))
       (objValues (objSet (activePeriod s) saved allPeriods)),
     Some (objSet (activePeriod s) saved allPeriods)).
Proof.
  intros Hparse Hkeyed s saved.
  unfold saveCurrentPeriod. rewrite Hparse. fold s. fold saved.
  unfold setPeriods, loadActivePeriod. cbn [ledger periods]. fold s.
  rewrite find_period by now apply keyedByPeriod_objSet.
  now rewrite objGet_objSet.
Qed.

Lemma loadActivePeriod_periods w : periods (loadActivePeriod w) = periods w.
Proof. unfold loadActivePeriod. now destruct (find _ (periods w)). Qed.

Lemma find_nothing {A} (f : A -> bool) (l : list A) :
  (forall x, x ∈ l -> f x = false) -> find f l = None.
Proof.
  intros H. induction l as [|a l IH]; [reflexivity|]. cbn.
  rewrite (H a) by constructor. apply IH. intros x Hx. apply H. now constructor.
Qed.

Lemma keyedByPeriod_samplePeriods : keyedByPeriod samplePeriods.
Proof. split; [now repeat constructor|]. apply NoDup_singleton. Qed.

(** X14. Saving the current period stores the ledger under the active period
    and keeps it on screen, but the effect that follows empties the
    statement, the selection and the choice of the bank account. *)
Theorem saveCurrentPeriod_clears_the_statement (now : N) (storedPeriods : StoredPeriods)
    (allPeriods : PeriodsObject) (w : Workspace) :
  parseStored storedPeriods = Some allPeriods ->
  keyedByPeriod allPeriods ->
  let s := ledger w in
  let s' := ledger (fst (saveCurrentPeriod now storedPeriods true w)) in
  (exists written,
     snd (saveCurrentPeriod now storedPeriods true w) = Some written
     /\ objGet (activePeriod s) written
        = Some (Session.mk (activePeriod s) (activePeriod s) now (accounts s)
                  (journalEntries s) (Some (reconciledTransactions s))))
  /\ accounts s' = accounts s
  /\ journalEntries s' = journalEntries s
  /\ reconciledTransactions s' = reconciledTransactions s
  /\ statementTransactions s' = []
  /\ selectedTx s' = ∅
  /\ selectedBankAccountId s' = "".
Proof.
  intros Hparse Hkeyed s s'. unfold s'.
  rewrite (saveCurrentPeriod_saved now _ _ w Hparse Hkeyed). cbn [fst snd ledger].
  split; [|now repeat split].
  eexists. split; [reflexivity|]. apply objGet_objSet.
Qed.

Lemma saveCurrentPeriod_clears_the_statement_witness :
  statementTransactions
    (ledger (fst (saveCurrentPeriod 1722470400000 (Stored samplePeriods) true
                    (mkWorkspace oneRowState (objValues samplePeriods)))))
  = [].
Proof.
  apply (saveCurrentPeriod_clears_the_statement 1722470400000 (Stored samplePeriods)
           samplePeriods (mkWorkspace oneRowState (objValues samplePeriods)) eq_refl
           keyedByPeriod_samplePeriods).
Defined.

(** X15. A period that was saved comes back: whatever the ledger holds for
    another period, making the saved period active again puts its accounts,
    journal entries and links back. *)
Theorem saved_period_is_restored (now : N) (storedPeriods : StoredPeriods)
    (allPeriods : PeriodsObject) (w : Workspace) (other : AppState) :
  parseStored storedPeriods = Some allPeriods ->
  keyedByPeriod allPeriods ->
  activePeriod other <> activePeriod (ledger w) ->
  let saved := fst (saveCurrentPeriod now storedPeriods true w) in
  let back :=
    ledger (setActivePeriod (activePeriod (ledger w)) (mkWorkspace other (periods saved))) in
  activePeriod back = activePeriod (ledger w)
  /\ accounts back = accounts (ledger w)
  /\ journalEntries back = journalEntries (ledger w)
  /\ reconciledTransactions back = reconciledTransactions (ledger w).
Proof.
  intros Hparse Hkeyed Hother saved back. unfold back, saved.
  rewrite (saveCurrentPeriod_saved now _ _ w Hparse Hkeyed). cbn [fst periods].
  unfold setActivePeriod. cbn [ledger].
  destruct (Js.str_eq _ (activePeriod other)) eqn:E.
  { apply str_eq_true in E. congruence. }
  unfold loadActivePeriod. cbn [ledger periods withActivePeriod activePeriod].
  rewrite find_period by now apply keyedByPeriod_objSet.
  now rewrite objGet_objSet.
Qed.

Lemma saved_period_is_restored_witness :
  accounts
    (ledger
       (setActivePeriod "2024-07"
          (mkWorkspace (initialState "2024-08")
             (periods (fst (saveCurrentPeriod 1722470400000 (Stored samplePeriods) true
                              (mkWorkspace oneRowState (objValues samplePeriods))))))))
  = accounts oneRowState.
Proof.
  apply (saved_period_is_restored 1722470400000 (Stored samplePeriods) samplePeriods
           (mkWorkspace oneRowState (objValues samplePeriods)) (initialState "2024-08")
           eq_refl keyedByPeriod_samplePeriods).
  discriminate.
Defined.

(** X16. The three handlers that write the periods keep every session under
    its own period and every period once, and leave in [periods] the
    sessions they wrote. *)
Theorem period_storage_stays_keyed (storedPeriods : StoredPeriods)
    (allPeriods : PeriodsObject) :
  parseStored storedPeriods = Some allPeriods ->
  keyedByPeriod allPeriods ->
  (forall now writable w written,
     snd (saveCurrentPeriod now storedPeriods writable w) = Some written ->
     keyedByPeriod written
     /\ periods (fst (saveCurrentPeriod now storedPeriods writable w)) = objValues written)
  /\ (forall thisMonth confirmed writable periodToDelete w written,
        snd (handleDeletePeriod thisMonth confirmed storedPeriods writable periodToDelete w)
        = Some written ->
        keyedByPeriod written
        /\ periods (fst (handleDeletePeriod thisMonth confirmed storedPeriods writable
                           periodToDelete w))
           = objValues written)
  /\ (forall writable oldPeriod newPeriod w written,
        snd (handleRenamePeriod storedPeriods writable oldPeriod newPeriod w) = Some written ->
        keyedByPeriod written
        /\ periods (fst (handleRenamePeriod storedPeriods writable oldPeriod newPeriod w))
           = objValues written).
Proof.
  intros Hparse Hkeyed. split; [|split].
  - intros now writable w written. unfold saveCurrentPeriod. rewrite Hparse.
    destruct writable; [|discriminate]. cbn [fst snd]. intros [= <-].
    split; [now apply keyedByPeriod_objSet|]. apply loadActivePeriod_periods.
  - intros thisMonth confirmed writable periodToDelete w written.
    unfold handleDeletePeriod. destruct confirmed; [|discriminate]. rewrite Hparse.
    destruct writable; [|discriminate]. cbn [fst snd]. intros [= <-].
    split; [now apply keyedByPeriod_objDelete|]. apply loadActivePeriod_periods.
  - intros writable oldPeriod newPeriod w written. unfold handleRenamePeriod.
    destruct (negb (isPeriod newPeriod)); [discriminate|].
    destruct (Js.str_eq oldPeriod newPeriod); [discriminate|]. rewrite Hparse.
    destruct (objGet newPeriod allPeriods); [discriminate|].
    destruct (objGet oldPeriod allPeriods) as [periodData|]; [|discriminate].
    destruct writable; [|discriminate]. cbn [fst snd]. intros [= <-].
    split; [now apply keyedByPeriod_objDelete, keyedByPeriod_objSet|].
    apply loadActivePeriod_periods.
Qed.

Lemma period_storage_stays_keyed_witness :
  keyedByPeriod
    (objDelete "2024-06" (objSet "2024-05" (sampleSession "2024-05") samplePeriods)).
Proof.
  apply (proj2 (proj2 (period_storage_stays_keyed (Stored samplePeriods) samplePeriods
                         eq_refl keyedByPeriod_samplePeriods))
           true "2024-06" "2024-05" (mkWorkspace oneRowState (objValues samplePeriods))).
  reflexivity.
Defined.

(** X17. [handleRenamePeriod] writes exactly when the new name has the form
    YYYY-MM, differs from the old one, is not taken, and the old period is
    stored; otherwise it leaves the state as it is.  What it writes holds
    the data of the old period under the new name, with [id] and [period]
    set to it, nothing under the old name, and every other period as
    before. *)
Theorem handleRenamePeriod_moves_the_data (storedPeriods : StoredPeriods)
    (allPeriods : PeriodsObject) (oldPeriod newPeriod : string) (w : Workspace) :
  parseStored storedPeriods = Some allPeriods ->
  let renamed periodData :=
    Session.mk newPeriod newPeriod (Session.timestamp periodData)
      (Session.accounts periodData) (Session.journalEntries periodData)
      (Session.reconciledTransactions periodData) in
  let allowed :=
    isPeriod newPeriod = true /\ oldPeriod <> newPeriod
    /\ objGet newPeriod allPeriods = None /\ objGet oldPeriod allPeriods <> None in
  (allowed ->
   exists written,
     snd (handleRenamePeriod storedPeriods true oldPeriod newPeriod w) = Some written
     /\ objGet newPeriod written = renamed <$> objGet oldPeriod allPeriods
     /\ objGet oldPeriod written = None
     /\ forall key, key <> oldPeriod -> key <> newPeriod ->
                    objGet key written = objGet key allPeriods)
  /\ (~ allowed ->
      forall writable,
        handleRenamePeriod storedPeriods writable oldPeriod newPeriod w = (w, None)).
Proof.
  intros Hparse renamed allowed. unfold handleRenamePeriod. rewrite Hparse. split.
  - intros (Hform & Hne & Hfree & Hold). rewrite Hform. cbn [negb].
    destruct (Js.str_eq oldPeriod newPeriod) eqn:E; [apply str_eq_true in E; contradiction|].
    rewrite Hfree. destruct (objGet oldPeriod allPeriods) as [periodData|] eqn:Hget;
      [|contradiction].
    cbn [snd]. eexists. split; [reflexivity|]. fold (renamed periodData).
    rewrite !objGet_objDelete, str_eq_refl.
    destruct (Js.str_eq newPeriod oldPeriod) eqn:E'; [apply str_eq_true in E'; congruence|].
    rewrite objGet_objSet. split; [reflexivity|]. split; [reflexivity|].
    intros key Hko Hkn. rewrite objGet_objDelete.
    destruct (Js.str_eq key oldPeriod) eqn:E''; [apply str_eq_true in E''; contradiction|].
    now apply objGet_objSet_other.
  - intros Hnot writable.
    destruct (isPeriod newPeriod) eqn:Hform; [|reflexivity]. cbn [negb].
    destruct (Js.str_eq oldPeriod newPeriod) eqn:E; [reflexivity|].
    apply str_eq_false in E.
    destruct (objGet newPeriod allPeriods) eqn:Hfree; [reflexivity|].
    destruct (objGet oldPeriod allPeriods) eqn:Hold; [|reflexivity].
    exfalso. apply Hnot. unfold allowed. now repeat split.
Qed.

(** A rename that is refused, and one that moves the stored period. *)
Lemma handleRenamePeriod_moves_the_data_witness :
  handleRenamePeriod (Stored samplePeriods) true "2024-06" "June"
    (mkWorkspace oneRowState (objValues samplePeriods))
  = (mkWorkspace oneRowState (objValues samplePeriods), None)
  /\ exists written,
       snd (handleRenamePeriod (Stored twoPeriods) true "2024-06" "2024-04"
              (mkWorkspace oneRowState (objValues twoPeriods)))
       = Some written
       /\ objGet "2024-04" written = Some (sampleSession "2024-04")
       /\ objGet "2024-06" written = None
       /\ objGet "2024-05" written = objGet "2024-05" twoPeriods.
Proof.
  split.
  - apply (proj2 (handleRenamePeriod_moves_the_data (Stored samplePeriods) samplePeriods
                    "2024-06" "June" (mkWorkspace oneRowState (objValues samplePeriods))
                    eq_refl)).
    intros (Hform & _). discriminate Hform.
  - destruct (proj1 (handleRenamePeriod_moves_the_data (Stored twoPeriods) twoPeriods
                       "2024-06" "2024-04"
                       (mkWorkspace oneRowState (objValues twoPeriods)) eq_refl))
      as (written & Hwritten & Hnew & Hold & Hother).
    { split; [reflexivity|]. split; [discriminate|]. split; [reflexivity|discriminate]. }
    exists written. split; [exact Hwritten|]. split; [exact Hnew|]. split; [exact Hold|].
    apply Hother; discriminate.
Defined.

(** X18. Deleting the active period never leaves its ledger on screen: the
    first period that remains becomes active with its ledger, or, when none
    remains, the current month with the default accounts and no entries. *)
Theorem handleDeletePeriod_active (thisMonth : string) (storedPeriods : StoredPeriods)
    (allPeriods : PeriodsObject) (w : Workspace) :
  parseStored storedPeriods = Some allPeriods ->
  let s' :=
    ledger (fst (handleDeletePeriod thisMonth true storedPeriods true
                   (activePeriod (ledger w)) w)) in
  match objValues (objDelete (activePeriod (ledger w)) allPeriods) with
  | first :: _ =>
      activePeriod s' = Session.period first
      /\ accounts s' = Session.accounts first
      /\ journalEntries s' = Session.journalEntries first
      /\ reconciledTransactions s' = default [] (Session.reconciledTransactions first)
  | [] =>
      activePeriod s' = thisMonth
      /\ accounts s' = DEFAULT_ACCOUNTS
      /\ journalEntries s' = []
      /\ reconciledTransactions s' = []
  end.
Proof.
  intros Hparse s'. unfold s', handleDeletePeriod. rewrite Hparse, str_eq_refl.
  cbn [fst]. destruct (objValues _) as [|first rest].
  - now repeat split.
  - unfold loadActivePeriod. cbn [ledger periods withActivePeriod activePeriod find].
    rewrite str_eq_refl. now repeat split.
Qed.

(** The only stored period is deleted; and the first of two is deleted, which
    makes the second active. *)
Lemma handleDeletePeriod_active_witness :
  (let s' :=
     ledger (fst (handleDeletePeriod "2024-08" true (Stored samplePeriods) true "2024-06"
                    (mkWorkspace (withActivePeriod "2024-06" oneRowState)
                       (objValues samplePeriods)))) in
   activePeriod s' = "2024-08"
   /\ accounts s' = DEFAULT_ACCOUNTS
   /\ journalEntries s' = []
   /\ reconciledTransactions s' = [])
  /\ (let s' :=
        ledger (fst (handleDeletePeriod "2024-08" true (Stored twoPeriods) true "2024-06"
                       (mkWorkspace (withActivePeriod "2024-06" oneRowState)
                          (objValues twoPeriods)))) in
      activePeriod s' = "2024-05"
      /\ accounts s' = DEFAULT_ACCOUNTS
      /\ journalEntries s' = [sampleEntry "je-0"]
      /\ reconciledTransactions s' = []).
Proof.
  split.
  - apply (handleDeletePeriod_active "2024-08" (Stored samplePeriods) samplePeriods
             (mkWorkspace (withActivePeriod "2024-06" oneRowState)
                (objValues samplePeriods))
             eq_refl).
  - apply (handleDeletePeriod_active "2024-08" (Stored twoPeriods) twoPeriods
             (mkWorkspace (withActivePeriod "2024-06" oneRowState) (objValues twoPeriods))
             eq_refl).
Defined.

(** X19. Creating a period that is well formed and new makes it active with
    the default accounts and an empty ledger and statement; the ledger that
    was on screen is not added to [periods]. *)
Theorem handleCreatePeriod_opens_defaults (period : string) (w : Workspace) :
  isPeriod period = true ->
  period <> activePeriod (ledger w) ->
  (forall p, p ∈ periods w -> Session.period p <> period) ->
  let w' := handleCreatePeriod period w in
  periods w' = periods w
  /\ activePeriod (ledger w') = period
  /\ accounts (ledger w') = DEFAULT_ACCOUNTS
  /\ journalEntries (ledger w') = []
  /\ reconciledTransactions (ledger w') = []
  /\ statementTransactions (ledger w') = [].
Proof.
  intros Hform Hne Hnew w'. unfold w', handleCreatePeriod. rewrite Hform. cbn [negb].
  assert (Hnone : forall p, p ∈ periods w -> Js.str_eq (Session.period p) period = false).
  { intros p Hp. destruct (Js.str_eq _ _) eqn:E; [|reflexivity].
    apply str_eq_true in E. now apply Hnew in Hp. }
  rewrite (existsb_is_false _ _ Hnone). unfold setActivePeriod.
  destruct (Js.str_eq period _) eqn:E; [apply str_eq_true in E; contradiction|].
  unfold loadActivePeriod. cbn [ledger periods withActivePeriod activePeriod].
  rewrite (find_nothing _ _ Hnone). now repeat split.
Qed.

Lemma handleCreatePeriod_opens_defaults_witness :
  accounts
    (ledger (handleCreatePeriod "2024-08"
               (mkWorkspace (handleSaveJournal (sampleEntry "je-1") oneRowState)
                  (objValues samplePeriods))))
  = DEFAULT_ACCOUNTS.
Proof.
  apply (handleCreatePeriod_opens_defaults "2024-08"
           (mkWorkspace (handleSaveJournal (sampleEntry "je-1") oneRowState)
              (objValues samplePeriods))).
  - reflexivity.
  - discriminate.
  - intros p Hp. apply list_elem_of_singleton in Hp. subst p. discriminate.
Defined.

(** ** Select all, then post *)

Lemma filter_unposted_nothing (rows : list Transaction.t) :
  (forall st, st ∈ rows -> Transaction.is_posted st = true) ->
  List.filter (fun t => negb (Transaction.is_posted t)) rows = [].
Proof.
  intros H. induction rows as [|a l IH]; [reflexivity|]. cbn.
  rewrite (H a) by constructor. cbn. apply IH. intros x Hx. apply H. now constructor.
Qed.

(** X29. With a bank account chosen and the suspense account in the chart,
    "select all" on the unfiltered statement followed by "Post Selected"
    leaves every row of the statement posted and the selection empty. *)
Theorem select_all_then_post (randomUUID : nat -> string) (s : AppState)
    (unc : Account.t) :
  selectedBankAccountId s <> "" ->
  find (fun a => Js.str_eq (Account.code a) UNCATEGORIZED_CODE) (accounts s) = Some unc ->
  let s1 := handleSelectAllTx true (statementTransactions s) s in
  let s2 := postSelected randomUUID (selectedTx s1) s1 in
  Forall (fun tx => Transaction.is_posted tx = true) (statementTransactions s2)
  /\ selectedTx s2 = ∅.
Proof.
  intros Hbank Hfind s1 s2. unfold s2, postSelected.
  set (ids := selectedTx s1).
  set (selected := List.filter (fun tx => bool_decide (Transaction.id tx ∈ ids))
                     (statementTransactions s1)).
  assert (Hids : forall st, st ∈ statementTransactions s ->
                   Transaction.is_posted st = false -> st ∈ notYetPosted selected).
  { intros st Hst Hun. unfold notYetPosted. apply elem_of_List_filter.
    split; [|now rewrite Hun]. apply elem_of_List_filter. split; [exact Hst|].
    apply bool_decide_eq_true. unfold ids, s1. cbn [handleSelectAllTx selectedTx].
    apply elem_of_list_to_set, list_elem_of_fmap. exists st. split; [reflexivity|].
    apply elem_of_List_filter. split; [exact Hst|]. now rewrite Hun. }
  destruct selected as [|tx rest] eqn:Hsel.
  - rewrite handlePostToCashbook_guard by now left. split.
    + apply Forall_forall. intros st Hst.
      destruct (Transaction.is_posted st) eqn:E; [reflexivity|].
      specialize (Hids st Hst E). inversion Hids.
    + change (selectedTx s1) with ids. unfold ids, s1. cbn [handleSelectAllTx selectedTx].
      rewrite filter_unposted_nothing; [reflexivity|].
      intros st Hst. destruct (Transaction.is_posted st) eqn:E; [reflexivity|].
      specialize (Hids st Hst E). inversion Hids.
  - rewrite (handlePostToCashbook_posts randomUUID (tx :: rest) s1 unc);
      [|discriminate|exact Hbank|exact Hfind].
    cbn [statementTransactions selectedTx]. split; [|reflexivity].
    apply Forall_forall. intros st' Hin.
    apply markStatus_elem_of in Hin as (st & Hst & _ & Hyes & Hno).
    destruct (decide (Transaction.id st
                      ∈ (list_to_set (map Transaction.id (notYetPosted (tx :: rest)))
                         : gset string))) as [Hp|Hp].
    + now rewrite (Hyes Hp).
    + rewrite (Hno Hp). destruct (Transaction.is_posted st) eqn:E; [reflexivity|].
      exfalso. apply Hp. apply elem_of_list_to_set, list_elem_of_fmap.
      exists st. split; [reflexivity|]. now apply Hids.
Qed.

Lemma select_all_then_post_witness :
  let s1 := handleSelectAllTx true (statementTransactions twoRowsState) twoRowsState in
  let s2 := postSelected sampleUUID (selectedTx s1) s1 in
  Forall (fun tx => Transaction.is_posted tx = true) (statementTransactions s2)
  /\ selectedTx s2 = ∅.
Proof.
  apply (select_all_then_post sampleUUID twoRowsState
           (Account.mk "acc-0" UNCATEGORIZED_CODE "Uncategorized Transactions" "Suspense"
              None)).
  - discriminate.
  - reflexivity.
Defined.
